(** * CloudHack: incident correlation and metrics sampling core

    A shallow embedding of [app/services/incident_analyzer.py] and
    [app/services/metrics_collector.py], and the properties of the
    root-cause ranker, the action-plan generator, the adapter fan-out,
    the anomaly classifier, the anomaly log, the collected-metrics store,
    the summary query and the sampler lifecycle.

    Conventions of the embedding:
    - a Python [float] is a binary64 primitive float, an [int] is a [Z];
    - a [datetime] is a [Z] (microseconds since the epoch) and a
      [timedelta] is a [Z] (microseconds);
    - the event loop is the list of the sampler tasks created on it;
      [asyncio.CancelledError] is a [BaseException], as it is from
      Python 3.8 on, so [except Exception] lets it through;
    - a dict with a fixed set of keys is a record, a key that may be
      missing is an [option] field; a dict whose iteration order is
      observable is an association list in insertion order; the
      [_collected_metrics] store is a [gmap] from key to entry;
    - code that can raise runs in [Exc]; [try]/[except Exception] is
      [try_except];
    - calls to [logger] have no effect on any value and are left out. *)

From Stdlib Require Import ZArith.
From Stdlib Require Import Floats.PrimFloat.
From Stdlib Require Floats.SpecFloat Floats.FloatOps.
From stdpp Require Import gmap strings list pretty.

#[local] Set Warnings "-inexact-float".
Local Open Scope Z_scope.

(** ** Python runtime: exceptions *)

Module Py.

(** The exceptions of the embedding; [UpstreamError] stands for
    whatever a client call raises when its source fails. *)
Inductive exn : Type :=
| UpstreamError (source : string)
| KeyError (key : string)
| IndexError
| ValueError (msg : string)
| AttributeError (attr : string).

Inductive Exc (A : Type) : Type :=
| Ok (a : A)
| Raise (e : exn).
Global Arguments Ok {A} a.
Global Arguments Raise {A} e.

#[global] Instance Exc_ret : MRet Exc := fun A a => Ok a.

#[global] Instance Exc_bind : MBind Exc := fun A B k m =>
  match m with
  | Ok a => k a
  | Raise e => Raise e
  end.

(** [try: body except Exception: handler] *)
Definition try_except {A} (body : Exc A) (handler : exn -> Exc A) : Exc A :=
  match body with
  | Ok a => Ok a
  | Raise e => handler e
  end.

(** [l[i]] for a non-negative literal index. *)
Definition index {A} (l : list A) (i : nat) : Exc A :=
  match l !! i with
  | Some a => Ok a
  | None => Raise IndexError
  end.

(** [l[-n:]]: the last [n] elements, the whole list when it is shorter. *)
Definition last_n {A} (n : nat) (l : list A) : list A :=
  drop (length l - n) l.

Definition is_raise {A} (m : Exc A) : Prop :=
  match m with Ok _ => False | Raise _ => True end.

(** A block of statements over a mutable local [S]: the value of the
    local when the block is left, and the exception that left it, if
    any. What was appended before the exception stays appended. *)
Definition Stmt (S : Type) : Type := S -> S * option exn.

(** [for x in l: body] *)
Fixpoint for_in {A S} (l : list A) (body : A -> Stmt S) : Stmt S :=
  fun s =>
    match l with
    | [] => (s, None)
    | x :: l' =>
        match body x s with
        | (s', None) => for_in l' body s'
        | (s', Some e) => (s', Some e)
        end
    end.

(** [try: body except Exception: <log>] then fall through. *)
Definition try_pass {S} (body : Stmt S) (s : S) : S := (body s).1.

(** [str(x)] inside an f-string, for a value that may be [None]. *)
Definition str (x : option string) : string := default "None" x.

(** [s.lower()] on the ASCII letters. *)
Definition lower_ascii (c : Ascii.ascii) : Ascii.ascii :=
  let n := Ascii.nat_of_ascii c in
  if bool_decide (65 <= n <= 90)%nat then Ascii.ascii_of_nat (n + 32) else c.

Fixpoint lower (s : string) : string :=
  match s with
  | EmptyString => EmptyString
  | String c s' => String (lower_ascii c) (lower s')
  end.

(** [d[key]] for a key that may be missing. *)
Definition getitem {A} (key : string) (d : option A) : Exc A :=
  match d with
  | Some v => Ok v
  | None => Raise (KeyError key)
  end.

(** [for x in l: body], where the body may raise and the exception
    leaves the loop. *)
Fixpoint for_exc {A S} (l : list A) (body : S -> A -> Exc S) (s : S) : Exc S :=
  match l with
  | [] => Ok s
  | x :: l' => s' ← body s x; for_exc l' body s'
  end.

(** [len(l)] *)
Definition len {A} (l : list A) : Z := Z.of_nat (length l).

(** [max(l)] *)
Definition max (l : list Z) : Exc Z :=
  match l with
  | [] => Raise (ValueError "max() arg is an empty sequence")
  | x :: l' => Ok (foldl Z.max x l')
  end.

(** A number that is an [int] on one path and a [float] on another. *)
Inductive Num : Type :=
| Int (n : Z)
| Float (x : float).

(** An [int] as an exact binary number, before any rounding. *)
Definition int_as_binary (n : Z) : SpecFloat.spec_float :=
  match n with
  | Z0 => SpecFloat.S754_zero false
  | Zpos m => SpecFloat.S754_finite false m 0
  | Zneg m => SpecFloat.S754_finite true m 0
  end.

(** [a / b] on two [int]s, [b] not 0: the binary64 float nearest to the
    exact quotient, ties to even (one rounding, of the quotient). *)
Definition int_truediv (a b : Z) : float :=
  FloatOps.SF2Prim
    (SpecFloat.SFdiv FloatOps.prec FloatOps.emax (int_as_binary a) (int_as_binary b)).

End Py.

(** ** [app/models/common_models.py] *)

Inductive Severity : Type := CRITICAL | HIGH | MEDIUM | LOW | INFO.

#[global] Instance Severity_eq_dec : EqDecision Severity.
Proof. solve_decision. Defined.

(** ** Findings, as the adapters of [incident_analyzer.py] build them *)

Module Finding.
Record t : Type := mk {
  type : string;
  severity : Severity;
  resource : option string;
  description : string;
  sample_messages : option (list string);
  suggested_actions : list string
}.
End Finding.

Module RootCause.
Record t : Type := mk {
  root_cause : string;
  confidence : float;
  severity : Severity
}.
End RootCause.

Module Step.
Record t : Type := mk {
  step : Z;
  action : string;
  estimated_duration : Z;
  critical : bool;
  related_finding : option string
}.
End Step.

Module Plan.
Record t : Type := mk {
  root_cause : string;
  total_steps : Z;
  estimated_total_duration : Z;
  critical_steps : list Step.t;
  steps : list Step.t
}.
End Plan.

(** ** Upstream clients, at the interface the analyzer consumes

    Each client method is an awaited call that either returns a value
    or raises; the outcome of a call is part of the environment. The
    records keep the keys the analyzer reads. *)

Module KubernetesClient.
Module Node.
Record t : Type := mk { name : string; status : string }.
End Node.
Module Pod.
Record t : Type := mk {
  name : string; namespace : string; status : string; restarts : Z
}.
End Pod.
Module Event.
Record t : Type := mk {
  namespace : string; type : string; reason : string; message : string;
  involved_object_kind : string; involved_object_name : string
}.
End Event.
Record t : Type := mk {
  get_nodes : Py.Exc (list Node.t);
  get_pods : Py.Exc (list Pod.t);
  get_events : Py.Exc (list Event.t)
}.
End KubernetesClient.

Module PrometheusClient.
(** An entry of [check_alerts]: every key is present, its value is
    [None] when the alert has no such label. *)
Module Alert.
Record t : Type := mk {
  name : option string; severity : option string; instance : option string
}.
End Alert.
(** An element of an instant vector: the [instance] label and the
    sample value, which Prometheus always sends as a string that
    [float()] accepts. *)
Module Sample.
Record t : Type := mk { instance : option string; value : option float }.
End Sample.
(** The [node_metrics] dict of [get_cluster_metrics]. *)
Module NodeMetrics.
Record t : Type := mk {
  cpu_usage : list Sample.t;
  memory_usage : list Sample.t;
  disk_usage : list Sample.t
}.
Definition items (m : t) : list (string * list Sample.t) :=
  [("cpu_usage", cpu_usage m); ("memory_usage", memory_usage m);
   ("disk_usage", disk_usage m)].
End NodeMetrics.
Record t : Type := mk {
  check_alerts : Py.Exc (list Alert.t);
  get_cluster_metrics : Py.Exc NodeMetrics.t
}.
End PrometheusClient.

Module LokiClient.
Module LogEntry.
Record t : Type := mk { labels : gmap string string; message : string }.
End LogEntry.
Record t : Type := mk { search_errors : Py.Exc (list LogEntry.t) }.
End LokiClient.

Module JaegerClient.
(** The result of [analyze_latency]: [{"error": "No traces found"}],
    or the statistics dict, of which the analyzer reads [error_rate]
    and [latency_metrics.p95] (a duration in microseconds). *)
Inductive LatencyAnalysis : Type :=
| NoTraces
| Stats (error_rate : float) (p95 : Z).
Record t : Type := mk {
  get_services : Py.Exc (list string);
  analyze_latency : string -> Py.Exc LatencyAnalysis
}.
End JaegerClient.

(** Python's [format] for the three float formats of the f-strings. *)
Class PyFormat : Type := {
  format_1f : float -> string;      (* f"{x:.1f}" *)
  format_1pct : float -> string;    (* f"{x:.1%}" *)
  format_0f : Z -> string           (* f"{n:.0f}" *)
}.

Module AnalysisStep.
Record t : Type := mk {
  step : string; status : string; findings : list Finding.t
}.
End AnalysisStep.

Module Analysis.
Record t : Type := mk {
  symptoms : gmap string string;
  timestamp : Z;
  analysis_steps : list AnalysisStep.t;
  findings : list Finding.t;
  root_cause : string;
  confidence : float;
  severity : Severity;
  action_plan : Plan.t
}.
End Analysis.

(** ** [app/services/incident_analyzer.py] *)

Module IncidentAnalyzer.

Import Py.

(** [self]: the four clients built by [__init__]. *)
Record t : Type := mk {
  k8s_client : KubernetesClient.t;
  prometheus_client : PrometheusClient.t;
  loki_client : LokiClient.t;
  jaeger_client : JaegerClient.t
}.

(** [IncidentAnalyzer._map_alert_severity]; [None.lower()] raises. *)
Definition _map_alert_severity (prometheus_severity : option string) : Exc Severity :=
  match prometheus_severity with
  | None => Raise (AttributeError "lower")
  | Some s =>
      let mapping : gmap string Severity :=
        <["critical" := CRITICAL]> (<["warning" := MEDIUM]> (<["info" := LOW]> ∅)) in
      Ok (default MEDIUM (mapping !! lower s))
  end.

(** [IncidentAnalyzer._analyze_kubernetes_state]; the returned dict
    has the one key ["issues"], whose list is the result here. *)
Definition _analyze_kubernetes_state (self : t) : Exc (list Finding.t) :=
  try_except
    (let issues : list Finding.t := [] in
     nodes ← KubernetesClient.get_nodes (k8s_client self);
     let issues :=
       foldl (fun issues node =>
         if decide (KubernetesClient.Node.status node ≠ "Ready") then
           issues ++ [Finding.mk "node_not_ready" CRITICAL
             (Some ("node/" +:+ KubernetesClient.Node.name node))
             ("Node " +:+ KubernetesClient.Node.name node +:+ " is not ready")
             None
             ["Check node resources and kubelet status";
              "Verify network connectivity";
              "Review node events for details"]]
         else issues) issues nodes in
     pods ← KubernetesClient.get_pods (k8s_client self);
     let issues :=
       foldl (fun issues pod =>
         let name := KubernetesClient.Pod.name pod in
         let namespace := KubernetesClient.Pod.namespace pod in
         if decide (KubernetesClient.Pod.status pod = "CrashLoopBackOff") then
           issues ++ [Finding.mk "pod_crash_loop" HIGH
             (Some ("pod/" +:+ namespace +:+ "/" +:+ name))
             ("Pod " +:+ name +:+ " in CrashLoopBackOff")
             None
             ["Check pod logs for application errors";
              "Verify resource limits and requests";
              "Review container configuration"]]
         else if bool_decide (10 < KubernetesClient.Pod.restarts pod) then
           issues ++ [Finding.mk "frequent_restarts" MEDIUM
             (Some ("pod/" +:+ namespace +:+ "/" +:+ name))
             ("Pod " +:+ name +:+ " has restarted "
                +:+ pretty (KubernetesClient.Pod.restarts pod) +:+ " times")
             None
             ["Investigate application stability";
              "Check for memory leaks";
              "Review liveness/readiness probes"]]
         else issues) issues pods in
     events ← KubernetesClient.get_events (k8s_client self);
     let warning_events :=
       filter (fun e => KubernetesClient.Event.type e = "Warning") events in
     let issues :=
       foldl (fun issues event =>
         issues ++ [Finding.mk "kubernetes_warning" MEDIUM
           (Some (KubernetesClient.Event.involved_object_kind event +:+ "/"
                  +:+ KubernetesClient.Event.namespace event +:+ "/"
                  +:+ KubernetesClient.Event.involved_object_name event))
           (KubernetesClient.Event.reason event +:+ ": "
              +:+ KubernetesClient.Event.message event)
           None
           ["Review event details for specific causes";
            "Check related resource configurations"]])
         issues (take 10 warning_events) in
     Ok issues)
    (fun _ => Ok []).

Section Formatted.
Context `{PyFormat}.

(** [IncidentAnalyzer._analyze_metrics]; result: the ["alerts"] list.
    Each inner [try] keeps what was appended before it was left. *)
Definition _analyze_metrics (self : t) : Exc (list Finding.t) :=
  try_except
    (let alerts : list Finding.t := [] in
     let alerts :=
       try_pass (fun alerts =>
         match PrometheusClient.check_alerts (prometheus_client self) with
         | Raise e => (alerts, Some e)
         | Ok firing_alerts =>
             for_in firing_alerts (fun alert alerts =>
               match _map_alert_severity (PrometheusClient.Alert.severity alert) with
               | Raise e => (alerts, Some e)
               | Ok severity =>
                   (alerts ++ [Finding.mk "prometheus_alert" severity
                      (PrometheusClient.Alert.instance alert)
                      ("Alert " +:+ str (PrometheusClient.Alert.name alert)
                         +:+ " is firing")
                      None
                      ["Review alert rules and thresholds";
                       "Check related metrics for root cause";
                       "Verify resource utilization"]], None)
               end) alerts
         end) alerts in
     let alerts :=
       try_pass (fun alerts =>
         match PrometheusClient.get_cluster_metrics (prometheus_client self) with
         | Raise e => (alerts, Some e)
         | Ok node_metrics =>
             (foldl (fun alerts '(metric_type, metric_data) =>
                foldl (fun alerts metric =>
                  let value :=
                    default 0%float (PrometheusClient.Sample.value metric) in
                  if PrimFloat.ltb 80%float value then
                    alerts ++ [Finding.mk ("high_" +:+ metric_type) HIGH
                      (Some (default "unknown"
                               (PrometheusClient.Sample.instance metric)))
                      ("High " +:+ metric_type +:+ ": "
                         +:+ format_1f value +:+ "%")
                      None
                      ["Consider scaling resources";
                       "Check for resource leaks";
                       "Review resource requests/limits"]]
                  else alerts) alerts metric_data)
                alerts (PrometheusClient.NodeMetrics.items node_metrics), None)
         end) alerts in
     Ok alerts)
    (fun _ => Ok []).

(** [errors_by_service[service].append(error)], creating the key at
    the end of the dict when it is new. *)
Fixpoint group_append (service : string) (error : LokiClient.LogEntry.t)
    (d : list (string * list LokiClient.LogEntry.t))
    : list (string * list LokiClient.LogEntry.t) :=
  match d with
  | [] => [(service, [error])]
  | (k, v) :: d' =>
      if decide (k = service) then (k, v ++ [error]) :: d'
      else (k, v) :: group_append service error d'
  end.

(** [IncidentAnalyzer._analyze_logs]; result: ["error_patterns"]. *)
Definition _analyze_logs (self : t) : Exc (list Finding.t) :=
  try_except
    (let error_patterns : list Finding.t := [] in
     errors ← LokiClient.search_errors (loki_client self);
     let error_patterns :=
       match errors with
       | [] => error_patterns
       | _ :: _ =>
           let errors_by_service :=
             foldl (fun d error =>
               let service :=
                 default "unknown" (LokiClient.LogEntry.labels error !! "job") in
               group_append service error d) [] errors in
           foldl (fun error_patterns '(service, service_errors) =>
             let error_count := length service_errors in
             error_patterns ++ [Finding.mk "application_errors"
               (if bool_decide (10 < error_count)%nat then HIGH else MEDIUM)
               (Some ("service/" +:+ service))
               ("Found " +:+ pretty error_count +:+ " errors in " +:+ service)
               (Some (LokiClient.LogEntry.message <$> take 3 service_errors))
               ["Review application logs for root cause";
                "Check recent deployments or changes";
                "Verify dependencies and connections"]])
             error_patterns errors_by_service
       end in
     Ok error_patterns)
    (fun _ => Ok []).

(** [IncidentAnalyzer._analyze_traces]; result: ["performance_issues"]. *)
Definition _analyze_traces (self : t) : Exc (list Finding.t) :=
  try_except
    (let performance_issues : list Finding.t := [] in
     services ← JaegerClient.get_services (jaeger_client self);
     let performance_issues :=
       foldl (fun performance_issues service =>
         try_pass (fun performance_issues =>
           match JaegerClient.analyze_latency (jaeger_client self) service with
           | Raise e => (performance_issues, Some e)
           | Ok latency_analysis =>
               let error_rate :=
                 match latency_analysis with
                 | JaegerClient.Stats r _ => r
                 | JaegerClient.NoTraces => 0%float
                 end in
               let performance_issues :=
                 if PrimFloat.ltb 0.1%float error_rate then
                   performance_issues ++ [Finding.mk "high_error_rate" HIGH
                     (Some ("service/" +:+ service))
                     ("High error rate: " +:+ format_1pct error_rate)
                     None
                     ["Investigate failing requests";
                      "Check service dependencies";
                      "Review recent changes"]]
                 else performance_issues in
               match latency_analysis with
               | JaegerClient.NoTraces =>
                   (performance_issues, Some (KeyError "latency_metrics"))
               | JaegerClient.Stats _ p95 =>
                   (if bool_decide (1000000 < p95) then
                      performance_issues ++ [Finding.mk "high_latency" MEDIUM
                        (Some ("service/" +:+ service))
                        ("High p95 latency: " +:+ format_0f p95 +:+ "Î¼s")
                        None
                        ["Optimize database queries";
                         "Review external API calls";
                         "Check resource utilization"]]
                    else performance_issues, None)
               end
           end) performance_issues)
         performance_issues (take 5 services) in
     Ok performance_issues)
    (fun _ => Ok []).

End Formatted.

(** [IncidentAnalyzer._determine_root_cause] *)
Definition _determine_root_cause (findings : list Finding.t) : Exc RootCause.t :=
  match findings with
  | [] =>
      Ok (RootCause.mk "No issues detected" 1.0%float INFO)
  | _ :: _ =>
      let critical_findings :=
        filter (fun f => Finding.severity f = CRITICAL) findings in
      let high_findings :=
        filter (fun f => Finding.severity f = HIGH) findings in
      match critical_findings with
      | _ :: _ =>
          f ← index critical_findings 0;
          Ok (RootCause.mk (Finding.description f) 0.9%float CRITICAL)
      | [] =>
          match high_findings with
          | _ :: _ =>
              f ← index high_findings 0;
              Ok (RootCause.mk (Finding.description f) 0.7%float HIGH)
          | [] =>
              f ← index findings 0;
              Ok (RootCause.mk (Finding.description f) 0.5%float MEDIUM)
          end
      end
  end.

(** [IncidentAnalyzer._generate_action_plan] *)
Definition _generate_action_plan (root_cause : string) (findings : list Finding.t)
    : Plan.t :=
  let steps : list Step.t := [] in
  let steps := steps ++
    [Step.mk 1 "Acknowledge the incident and assess impact" 5 true None] in
  let steps := steps ++
    [Step.mk 2 "Gather additional context and metrics" 10 true None] in
  let steps :=
    foldl (fun steps finding =>
      match Finding.suggested_actions finding with
      | [] => steps
      | _ :: _ =>
          foldl (fun steps action =>
            steps ++ [Step.mk (len steps + 1) action 15 false
                        (Some (Finding.type finding))])
            steps (take 2 (Finding.suggested_actions finding))
      end) steps (take 3 findings) in
  let steps := steps ++
    [Step.mk (len steps + 1) "Verify resolution and monitor system stability"
       10 true None] in
  Plan.mk root_cause (len steps)
    (foldr Z.add 0 (Step.estimated_duration <$> steps))
    (filter (fun step => Step.critical step = true) steps)
    steps.

Section Analyze.
Context `{PyFormat}.

(** [IncidentAnalyzer.analyze_incident]; [now] is the reading of
    [datetime.utcnow()]. The four adapters are awaited one after the
    other. *)
Definition analyze_incident (self : t) (symptoms : gmap string string) (now : Z)
    : Exc Analysis.t :=
  try_except
    (let analysis_steps : list AnalysisStep.t := [] in
     let findings : list Finding.t := [] in
     k8s_analysis ← _analyze_kubernetes_state self;
     let analysis_steps := analysis_steps ++
       [AnalysisStep.mk "kubernetes_analysis" "completed" k8s_analysis] in
     let findings := findings ++ k8s_analysis in
     metrics_analysis ← _analyze_metrics self;
     let analysis_steps := analysis_steps ++
       [AnalysisStep.mk "metrics_analysis" "completed" metrics_analysis] in
     let findings := findings ++ metrics_analysis in
     logs_analysis ← _analyze_logs self;
     let analysis_steps := analysis_steps ++
       [AnalysisStep.mk "logs_analysis" "completed" logs_analysis] in
     let findings := findings ++ logs_analysis in
     traces_analysis ← _analyze_traces self;
     let analysis_steps := analysis_steps ++
       [AnalysisStep.mk "traces_analysis" "completed" traces_analysis] in
     let findings := findings ++ traces_analysis in
     root_cause_analysis ← _determine_root_cause findings;
     let action_plan :=
       _generate_action_plan (RootCause.root_cause root_cause_analysis) findings in
     Ok (Analysis.mk symptoms now analysis_steps findings
           (RootCause.root_cause root_cause_analysis)
           (RootCause.confidence root_cause_analysis)
           (RootCause.severity root_cause_analysis)
           action_plan))
    (fun e => Raise e).

End Analyze.

End IncidentAnalyzer.

(** ** Client code below the interface: queries, alerts, trace durations *)

(** An element of the list [PrometheusClient.query] returns: the labels
    under ["metric"] and, when the key ["value"] is there, the sample
    string at [value[1]]. *)
Module PromResult.
Record t : Type := mk { metric : gmap string string; value : option string }.
End PromResult.

(** Python's [float] and [int] on a string. *)
Class PyParse : Type := {
  py_float : string -> Py.Exc float;
  py_int : string -> Py.Exc Z
}.

Module PrometheusClientImpl.

Import Py.

(** The double quote, for the PromQL texts. *)
Definition dq : string := String (Ascii.ascii_of_nat 34) EmptyString.

(** [PrometheusClient.query]: the outcome of [custom_query] for an
    expression; an exception is logged and raised again. *)
Abbreviation Query := (string -> Exc (list PromResult.t)) (only parsing).

(** [PrometheusClient.check_alerts]; of each alert the keys the
    analyzer reads are kept. *)
Definition check_alerts (query : Query) : Exc (list PrometheusClient.Alert.t) :=
  try_except
    (let alerts_query := "ALERTS{alertstate=" +:+ dq +:+ "firing" +:+ dq +:+ "}" in
     alerts ← query alerts_query;
     let alert_list :=
       foldl (fun alert_list alert =>
         alert_list ++ [PrometheusClient.Alert.mk
                          (PromResult.metric alert !! "alertname")
                          (PromResult.metric alert !! "severity")
                          (PromResult.metric alert !! "instance")])
         [] alerts in
     Ok alert_list)
    (fun e => Raise e).

End PrometheusClientImpl.

Module JaegerClientImpl.

Import Py.

(** A span of a trace: [startTime] and [duration], in microseconds,
    each possibly missing. *)
Module Span.
Record t : Type := mk { startTime : option Z; duration : option Z }.
End Span.

(** [min(l)] *)
Definition min (l : list Z) : Exc Z :=
  match l with
  | [] => Raise (ValueError "min() arg is an empty sequence")
  | x :: l' => Ok (foldl Z.min x l')
  end.

(** [JaegerClient._calculate_trace_duration]; [spans] is
    [trace.get("spans")]. *)
Definition _calculate_trace_duration (spans : option (list Span.t)) : Exc Z :=
  match spans with
  | None | Some [] => Ok 0
  | Some spans =>
      let start_times := (fun span => default 0 (Span.startTime span)) <$> spans in
      let end_times :=
        (fun span => default 0 (Span.startTime span) + default 0 (Span.duration span))
          <$> spans in
      match start_times, end_times with
      | [], _ | _, [] => Ok 0
      | _, _ =>
          latest ← max end_times;
          earliest ← min start_times;
          Ok (latest - earliest)
      end
  end.

End JaegerClientImpl.


(** ** The event loop, as far as [start] and [stop] use it

    The loop holds the sampler tasks created on it, in creation order;
    a task handle is the position of its task. No other coroutine of
    the program calls [start] or [stop] ([app/main.py] calls them from
    the lifespan handler only). *)

Module Asyncio.

(** A task is [Created] from [create_task] until the loop runs it for
    the first time (its first step waits in the ready queue), it is
    [Sleeping] while its coroutine is suspended in [asyncio.sleep], and
    it is done as [Finished] (the coroutine returned) or [Cancelled]. *)
Inductive TaskState : Type := Created | Sleeping | Finished | Cancelled.

#[global] Instance TaskState_eq_dec : EqDecision TaskState.
Proof. solve_decision. Defined.

Abbreviation Loop := (list TaskState) (only parsing).

(** [asyncio.create_task(coro)]: the task is scheduled, not run. *)
Definition create_task (loop : Loop) : nat * Loop :=
  (length loop, loop ++ [Created]).

(** [task.done()] *)
Definition done (s : TaskState) : bool :=
  match s with
  | Finished | Cancelled => true
  | Created | Sleeping => false
  end.


End Asyncio.

(** ** [app/services/metrics_collector.py] *)

Module ClusterMetrics.
Record t : Type := mk {
  cpu_usage_percent : option float;
  memory_usage_percent : option float;
  total_pods : option Z;
  total_nodes : option Z;
  ready_nodes : option Z
}.
(** [{}] *)
Definition empty : t := mk None None None None None.
End ClusterMetrics.

Module NodeMetrics.
Record t : Type := mk {
  cpu_usage_percent : option float;
  memory_usage_percent : option float;
  disk_usage_percent : option float
}.
End NodeMetrics.

Module PodMetrics.
Record t : Type := mk {
  namespace : string;
  pod : string;
  cpu_usage_seconds : option float;
  memory_usage_bytes : option float
}.
End PodMetrics.

(** The value under ["metrics"] of an entry of [_collected_metrics]:
    the dict one of the three collectors returned. The per-node and
    per-pod dicts are kept in insertion order. *)
Inductive Metrics : Type :=
| ClusterM (m : ClusterMetrics.t)
| NodesM (m : list (string * NodeMetrics.t))
| PodsM (m : list (string * PodMetrics.t)).

Module Entry.
Record t : Type := mk { timestamp : Z; metrics : Metrics }.
End Entry.

Module Anomaly.
Record t : Type := mk {
  type : string;
  severity : string;
  resource : option string;
  metric : string;
  value : float;
  threshold : Z;
  timestamp : Z
}.
End Anomaly.

Module Summary.
Record t : Type := mk {
  timestamp : Z;
  cluster_health_score : Z;
  cluster_metrics : ClusterMetrics.t;
  node_count : Z;
  pod_count : Z;
  recent_anomalies : Z;
  metrics_age_minutes : Py.Num
}.
End Summary.

(** What one pass of [_collect_all_metrics] takes from outside: the
    readings of [datetime.utcnow()] and the dicts the three collectors
    return (each collector catches every exception and returns a dict). *)
Module Tick.
Record t : Type := mk {
  timestamp : Z;
  cluster_metrics : ClusterMetrics.t;
  node_metrics : list (string * NodeMetrics.t);
  pod_metrics : list (string * PodMetrics.t);
  detect_time : Z;
  clean_time : Z
}.
End Tick.

Module MetricsCollector.

Import Py.

(** [self], without the two clients. *)
Record t : Type := mk {
  _is_running : bool;
  _collection_task : option nat;
  _collected_metrics : gmap string Entry.t;
  _anomalies : list Anomaly.t
}.

(** [MetricsCollector.__init__] *)
Definition __init__ : t := mk false None ∅ [].

Definition set_collected_metrics (m : gmap string Entry.t) (self : t) : t :=
  mk (_is_running self) (_collection_task self) m (_anomalies self).

Definition set_anomalies (l : list Anomaly.t) (self : t) : t :=
  mk (_is_running self) (_collection_task self) (_collected_metrics self) l.

(** [timedelta(hours=n)] and [timedelta(minutes=n)] *)
Definition hours (n : Z) : Z := n * 3600 * 1000000.
Definition minutes (n : Z) : Z := n * 60 * 1000000.

(** [MetricsCollector.start]; the body has no [await], the new task
    is left to the loop. *)
Definition start (self : t) (loop : Asyncio.Loop) : t * Asyncio.Loop :=
  let '(task, loop) := Asyncio.create_task loop in
  (mk true (Some task) (_collected_metrics self) (_anomalies self), loop).

(** [self._collected_metrics.get("cluster", {}).get("metrics", {})] *)
Definition get_cluster (self : t) : ClusterMetrics.t :=
  match _collected_metrics self !! "cluster" with
  | Some (Entry.mk _ (ClusterM m)) => m
  | _ => ClusterMetrics.empty
  end.

(** [self._collected_metrics.get("nodes", {}).get("metrics", {})] *)
Definition get_nodes (self : t) : list (string * NodeMetrics.t) :=
  match _collected_metrics self !! "nodes" with
  | Some (Entry.mk _ (NodesM m)) => m
  | _ => []
  end.

(** [self._collected_metrics.get("pods", {}).get("metrics", {})] *)
Definition get_pods (self : t) : list (string * PodMetrics.t) :=
  match _collected_metrics self !! "pods" with
  | Some (Entry.mk _ (PodsM m)) => m
  | _ => []
  end.

(** [MetricsCollector._detect_anomalies]; an exception in the body
    leaves [self] as it was. *)
Definition _detect_anomalies (self : t) (current_time : Z) : t :=
  let body : Exc t :=
    let anomalies : list Anomaly.t := [] in
    let cluster_metrics := get_cluster self in
    anomalies ←
      (if PrimFloat.ltb 80%float
            (default 0%float (ClusterMetrics.cpu_usage_percent cluster_metrics))
       then
         value ← getitem "cpu_usage_percent"
                   (ClusterMetrics.cpu_usage_percent cluster_metrics);
         Ok (anomalies ++ [Anomaly.mk "high_cluster_cpu" "high" None
                             "cluster_cpu_usage" value 80 current_time])
       else Ok anomalies);
    anomalies ←
      (if PrimFloat.ltb 85%float
            (default 0%float (ClusterMetrics.memory_usage_percent cluster_metrics))
       then
         value ← getitem "memory_usage_percent"
                   (ClusterMetrics.memory_usage_percent cluster_metrics);
         Ok (anomalies ++ [Anomaly.mk "high_cluster_memory" "high" None
                             "cluster_memory_usage" value 85 current_time])
       else Ok anomalies);
    let node_metrics := get_nodes self in
    anomalies ←
      for_exc node_metrics (fun anomalies '(node_name, metrics) =>
        anomalies ←
          (if PrimFloat.ltb 90%float
                (default 0%float (NodeMetrics.cpu_usage_percent metrics))
           then
             value ← getitem "cpu_usage_percent"
                       (NodeMetrics.cpu_usage_percent metrics);
             Ok (anomalies ++ [Anomaly.mk "high_node_cpu" "critical"
                                 (Some ("node/" +:+ node_name))
                                 "node_cpu_usage" value 90 current_time])
           else Ok anomalies);
        if PrimFloat.ltb 95%float
             (default 0%float (NodeMetrics.memory_usage_percent metrics))
        then
          value ← getitem "memory_usage_percent"
                    (NodeMetrics.memory_usage_percent metrics);
          Ok (anomalies ++ [Anomaly.mk "high_node_memory" "critical"
                              (Some ("node/" +:+ node_name))
                              "node_memory_usage" value 95 current_time])
        else Ok anomalies) anomalies;
    let all := _anomalies self ++ anomalies in
    let all := if bool_decide (100 < len all) then last_n 100 all else all in
    Ok (set_anomalies all self) in
  match body with
  | Ok self' => self'
  | Raise _ => self
  end.

(** [MetricsCollector._clean_old_metrics]; [now] is the reading of
    [datetime.utcnow()]. *)
Definition _clean_old_metrics (self : t) (now : Z) : t :=
  let cutoff_time := now - hours 6 in
  let keys := (map_to_list (_collected_metrics self)).*1 in
  let collected :=
    try_pass (for_in keys (fun metric_type collected =>
      match collected !! metric_type with
      | None => (collected, Some (KeyError metric_type))
      | Some entry =>
          (if bool_decide (Entry.timestamp entry < cutoff_time)
           then delete metric_type collected
           else collected, None)
      end)) (_collected_metrics self) in
  set_collected_metrics collected self.

(** [MetricsCollector._collect_all_metrics] *)
Definition _collect_all_metrics (self : t) (tick : Tick.t) : t :=
  let timestamp := Tick.timestamp tick in
  let self :=
    set_collected_metrics
      (<["cluster" := Entry.mk timestamp (ClusterM (Tick.cluster_metrics tick))]>
         (_collected_metrics self)) self in
  let self :=
    set_collected_metrics
      (<["nodes" := Entry.mk timestamp (NodesM (Tick.node_metrics tick))]>
         (_collected_metrics self)) self in
  let self :=
    set_collected_metrics
      (<["pods" := Entry.mk timestamp (PodsM (Tick.pod_metrics tick))]>
         (_collected_metrics self)) self in
  let self := _detect_anomalies self (Tick.detect_time tick) in
  _clean_old_metrics self (Tick.clean_time tick).

(** [MetricsCollector._collect_metrics_loop], from one suspension
    point to the next. A task that the loop runs for the first time, or
    resumes when its [asyncio.sleep(60)] is over, is at the test of
    [while self._is_running]: with the flag set it makes one pass and
    suspends in [asyncio.sleep(60)], otherwise the coroutine returns.
    [_collect_all_metrics] catches every [Exception] and none of its
    calls suspends, so the handler with [asyncio.sleep(30)] is never
    entered. [tick] is what the pass reads from outside. *)
Definition _collect_metrics_loop (self : t) (tick : Tick.t) : t * Asyncio.TaskState :=
  if _is_running self then (_collect_all_metrics self tick, Asyncio.Sleeping)
  else (self, Asyncio.Finished).

(** What the loop does with the task at position [i] while a coroutine
    is suspended in [await task] after [task.cancel()], [task] not
    done. The awaited task gets [CancelledError] where it is suspended
    (before its first statement when it never ran, in
    [asyncio.sleep(60)] otherwise, where [except Exception] lets it
    through) and ends cancelled. A task that never ran is in the ready
    queue ahead of the wake-up of the waiting coroutine, so it runs. A
    sleeping task runs if its sleep ends during the wait, which is for
    the clock to say: [woken i]. A task that is done stays as it is. *)
Definition resume (task : nat) (woken : nat -> bool) (tick : nat -> Tick.t)
    (self : t) (i : nat) (s : Asyncio.TaskState) : t * Asyncio.TaskState :=
  if decide (i = task) then (self, Asyncio.Cancelled)
  else
    match s with
    | Asyncio.Created => _collect_metrics_loop self (tick i)
    | Asyncio.Sleeping =>
        if woken i then _collect_metrics_loop self (tick i) else (self, s)
    | Asyncio.Finished | Asyncio.Cancelled => (self, s)
    end.

(** The tasks of [loop], the first of which is at position [i], taken
    in turn. *)
Fixpoint run_until_done (task : nat) (woken : nat -> bool) (tick : nat -> Tick.t)
    (self : t) (i : nat) (loop : Asyncio.Loop) : t * Asyncio.Loop :=
  match loop with
  | [] => (self, [])
  | s :: loop =>
      let '(self, s) := resume task woken tick self i s in
      let '(self, loop) := run_until_done task woken tick self (S i) loop in
      (self, s :: loop)
  end.

(** [MetricsCollector.stop]. On a task that is done [cancel()] does
    nothing and [await] returns, or raises the [CancelledError] that is
    passed over, without suspending; on a task that is not done the
    coroutine is suspended until the loop has seen the task end. *)
Definition stop (self : t) (loop : Asyncio.Loop)
    (woken : nat -> bool) (tick : nat -> Tick.t) : t * Asyncio.Loop :=
  let self :=
    mk false (_collection_task self) (_collected_metrics self) (_anomalies self) in
  match _collection_task self with
  | Some task =>
      match loop !! task with
      | Some s =>
          if Asyncio.done s then (self, loop)
          else run_until_done task woken tick self 0 loop
      | None => (self, loop)
      end
  | None => (self, loop)
  end.

(** [timedelta.total_seconds()]: the microseconds divided by [10**6],
    an [int] division with a [float] result. *)
Definition total_seconds (delta : Z) : float := int_truediv delta 1000000.

(** [MetricsCollector._get_metrics_age_minutes]; the result is the
    [int] 0 on an empty store and in the handler, a [float] otherwise. *)
Definition _get_metrics_age_minutes (self : t) (now : Z) : Num :=
  let body : Exc Num :=
    if decide (_collected_metrics self = ∅) then Ok (Int 0)
    else
      latest_timestamp ←
        max (Entry.timestamp <$> (map_to_list (_collected_metrics self)).*2);
      let age := now - latest_timestamp in
      Ok (Float (PrimFloat.div (total_seconds age) 60%float)) in
  match body with
  | Ok r => r
  | Raise _ => Int 0
  end.

(** [MetricsCollector.get_metrics_summary]; [utcnow k] is the reading
    of the [k]-th call of [datetime.utcnow()] made by this call: one
    for ["timestamp"], one per anomaly in the comprehension, one in
    [_get_metrics_age_minutes]. Nothing in the body can raise, so the
    [except] branch returning [{}] is never taken. *)
Definition get_metrics_summary (self : t) (utcnow : nat -> Z) : Summary.t :=
  let cluster_metrics := get_cluster self in
  let node_metrics := get_nodes self in
  let pod_metrics := get_pods self in
  let health_score := 100 in
  let health_score :=
    if PrimFloat.ltb 80%float
         (default 0%float (ClusterMetrics.cpu_usage_percent cluster_metrics))
    then health_score - 20 else health_score in
  let health_score :=
    if PrimFloat.ltb 85%float
         (default 0%float (ClusterMetrics.memory_usage_percent cluster_metrics))
    then health_score - 20 else health_score in
  let health_score :=
    if bool_decide (default 0 (ClusterMetrics.ready_nodes cluster_metrics)
                    < default 1 (ClusterMetrics.total_nodes cluster_metrics))
    then health_score - 30 else health_score in
  let health_score := Z.max 0 health_score in
  Summary.mk (utcnow 0%nat) health_score cluster_metrics
    (len node_metrics) (len pod_metrics)
    (len (filter (fun '(a, now) => now - minutes 30 < Anomaly.timestamp a)
            (imap (fun i a => (a, utcnow (1 + i)%nat)) (_anomalies self))))
    (_get_metrics_age_minutes self (utcnow (1 + length (_anomalies self))%nat)).

(** The range of [datetime]: 0001-01-01T00:00:00 to
    9999-12-31T23:59:59.999999, in microseconds since the epoch. *)
Definition datetime_min : Z := -62135596800000000.
Definition datetime_max : Z := 253402300799999999.

(** [OverflowError]; the handlers catch [Exception] and do not look at
    the class. *)
Definition OverflowError : exn := ValueError "OverflowError: date value out of range".

(** [timedelta(hours=n)] for an [int]: the days of the result must lie
    within 999999999 of zero. *)
Definition timedelta_hours (n : Z) : Exc Z :=
  if bool_decide (-999999999 <= n / 24 <= 999999999) then Ok (hours n)
  else Raise OverflowError.

(** [d - delta] on a [datetime]: the result must be a [datetime]. *)
Definition datetime_sub (d delta : Z) : Exc Z :=
  let r := d - delta in
  if bool_decide (datetime_min <= r <= datetime_max) then Ok r
  else Raise OverflowError.

(** [MetricsCollector.get_anomalies]; [now] is the reading of
    [datetime.utcnow()]. *)
Definition get_anomalies (self : t) (last_hours : Z) (now : Z) : list Anomaly.t :=
  let body : Exc (list Anomaly.t) :=
    delta ← timedelta_hours last_hours;
    cutoff_time ← datetime_sub now delta;
    let recent_anomalies :=
      filter (fun anomaly => cutoff_time <= Anomaly.timestamp anomaly)
        (_anomalies self) in
    Ok recent_anomalies in
  match body with
  | Ok r => r
  | Raise _ => []
  end.


(** [try: body except Exception: <log>], for a body that assigns only
    after everything in it that can raise. *)
Definition try_update {S : Type} (body : S -> Exc S) (s : S) : S :=
  match body s with
  | Ok s' => s'
  | Raise _ => s
  end.

(** [s.split(":")[0]] *)
Fixpoint split_colon_0 (s : string) : string :=
  match s with
  | EmptyString => EmptyString
  | String c s' =>
      if decide (c = Ascii.ascii_of_nat 58) then EmptyString
      else String c (split_colon_0 s')
  end.

(** [key in d] on an insertion-ordered dict. *)
Fixpoint dict_mem {V : Type} (key : string) (d : list (string * V)) : bool :=
  match d with
  | [] => false
  | (k, _) :: d' => if decide (k = key) then true else dict_mem key d'
  end.

(** [d[key] = f(d[key])] for a key of the dict. *)
Fixpoint dict_alter {V : Type} (f : V -> V) (key : string) (d : list (string * V))
    : list (string * V) :=
  match d with
  | [] => []
  | (k, v) :: d' =>
      if decide (k = key) then (k, f v) :: d' else (k, v) :: dict_alter f key d'
  end.

Section Collectors.
Context `{PyParse}.

(** [MetricsCollector._collect_cluster_metrics] *)
Definition _collect_cluster_metrics (query : PrometheusClientImpl.Query)
    (k8s_client : KubernetesClient.t) : ClusterMetrics.t :=
  let body : Exc ClusterMetrics.t :=
    let cluster_cpu_query :=
      "sum(rate(container_cpu_usage_seconds_total[5m])) / sum(kube_pod_container_resource_limits_cpu_cores) * 100" in
    let cluster_memory_query :=
      "sum(container_memory_working_set_bytes) / sum(kube_pod_container_resource_limits_memory_bytes) * 100" in
    let cluster_pod_query := "count(kube_pod_info)" in
    let cluster_metrics := ClusterMetrics.empty in
    let cluster_metrics :=
      try_update (fun cluster_metrics =>
        cpu_result ← query cluster_cpu_query;
        match cpu_result with
        | [] => Ok cluster_metrics
        | first :: _ =>
            s ← getitem "value" (PromResult.value first);
            v ← py_float s;
            Ok (ClusterMetrics.mk (Some v)
                  (ClusterMetrics.memory_usage_percent cluster_metrics)
                  (ClusterMetrics.total_pods cluster_metrics)
                  (ClusterMetrics.total_nodes cluster_metrics)
                  (ClusterMetrics.ready_nodes cluster_metrics))
        end) cluster_metrics in
    let cluster_metrics :=
      try_update (fun cluster_metrics =>
        memory_result ← query cluster_memory_query;
        match memory_result with
        | [] => Ok cluster_metrics
        | first :: _ =>
            s ← getitem "value" (PromResult.value first);
            v ← py_float s;
            Ok (ClusterMetrics.mk
                  (ClusterMetrics.cpu_usage_percent cluster_metrics) (Some v)
                  (ClusterMetrics.total_pods cluster_metrics)
                  (ClusterMetrics.total_nodes cluster_metrics)
                  (ClusterMetrics.ready_nodes cluster_metrics))
        end) cluster_metrics in
    let cluster_metrics :=
      try_update (fun cluster_metrics =>
        pod_result ← query cluster_pod_query;
        match pod_result with
        | [] => Ok cluster_metrics
        | first :: _ =>
            s ← getitem "value" (PromResult.value first);
            n ← py_int s;
            Ok (ClusterMetrics.mk
                  (ClusterMetrics.cpu_usage_percent cluster_metrics)
                  (ClusterMetrics.memory_usage_percent cluster_metrics) (Some n)
                  (ClusterMetrics.total_nodes cluster_metrics)
                  (ClusterMetrics.ready_nodes cluster_metrics))
        end) cluster_metrics in
    let cluster_metrics :=
      try_update (fun cluster_metrics =>
        nodes ← KubernetesClient.get_nodes k8s_client;
        Ok (ClusterMetrics.mk
              (ClusterMetrics.cpu_usage_percent cluster_metrics)
              (ClusterMetrics.memory_usage_percent cluster_metrics)
              (ClusterMetrics.total_pods cluster_metrics)
              (Some (len nodes))
              (Some (len (filter (fun node =>
                                    KubernetesClient.Node.status node = "Ready")
                            nodes)))))
        cluster_metrics in
    Ok cluster_metrics in
  match body with
  | Ok r => r
  | Raise _ => ClusterMetrics.empty
  end.

(** [MetricsCollector._collect_node_metrics] *)
Definition _collect_node_metrics (query : PrometheusClientImpl.Query)
    : list (string * NodeMetrics.t) :=
  let body : Exc (list (string * NodeMetrics.t)) :=
    let node_metrics : list (string * NodeMetrics.t) := [] in
    let dq := PrometheusClientImpl.dq in
    let node_cpu_query :=
      "100 - (avg by (instance) (rate(node_cpu_seconds_total{mode=" +:+ dq
        +:+ "idle" +:+ dq +:+ "}[5m])) * 100)" in
    let node_memory_query :=
      "100 * (1 - ((node_memory_MemAvailable_bytes) / (node_memory_MemTotal_bytes)))" in
    let node_disk_query :=
      "100 * (1 - ((node_filesystem_avail_bytes{mountpoint=" +:+ dq +:+ "/" +:+ dq
        +:+ "}) / (node_filesystem_size_bytes{mountpoint=" +:+ dq +:+ "/" +:+ dq
        +:+ "})))" in
    cpu_results ← query node_cpu_query;
    memory_results ← query node_memory_query;
    disk_results ← query node_disk_query;
    node_metrics ←
      for_exc cpu_results (fun node_metrics result =>
        let instance :=
          split_colon_0 (default "" (PromResult.metric result !! "instance")) in
        if decide (instance <> "") then
          let node_metrics :=
            if dict_mem instance node_metrics then node_metrics
            else node_metrics ++ [(instance, NodeMetrics.mk None None None)] in
          s ← getitem "value" (PromResult.value result);
          v ← py_float s;
          Ok (dict_alter (fun m =>
                NodeMetrics.mk (Some v) (NodeMetrics.memory_usage_percent m)
                  (NodeMetrics.disk_usage_percent m)) instance node_metrics)
        else Ok node_metrics) node_metrics;
    node_metrics ←
      for_exc memory_results (fun node_metrics result =>
        let instance :=
          split_colon_0 (default "" (PromResult.metric result !! "instance")) in
        if bool_decide (instance <> "") && dict_mem instance node_metrics then
          s ← getitem "value" (PromResult.value result);
          v ← py_float s;
          Ok (dict_alter (fun m =>
                NodeMetrics.mk (NodeMetrics.cpu_usage_percent m) (Some v)
                  (NodeMetrics.disk_usage_percent m)) instance node_metrics)
        else Ok node_metrics) node_metrics;
    node_metrics ←
      for_exc disk_results (fun node_metrics result =>
        let instance :=
          split_colon_0 (default "" (PromResult.metric result !! "instance")) in
        if bool_decide (instance <> "") && dict_mem instance node_metrics then
          s ← getitem "value" (PromResult.value result);
          v ← py_float s;
          Ok (dict_alter (fun m =>
                NodeMetrics.mk (NodeMetrics.cpu_usage_percent m)
                  (NodeMetrics.memory_usage_percent m) (Some v)) instance node_metrics)
        else Ok node_metrics) node_metrics;
    Ok node_metrics in
  match body with
  | Ok r => r
  | Raise _ => []
  end.

(** [x] is truthy, for a label value that may be missing. *)
Definition truthy (x : option string) : bool :=
  match x with
  | Some s => bool_decide (s <> "")
  | None => false
  end.

(** [MetricsCollector._collect_pod_metrics] *)
Definition _collect_pod_metrics (query : PrometheusClientImpl.Query)
    : list (string * PodMetrics.t) :=
  let body : Exc (list (string * PodMetrics.t)) :=
    let pod_metrics : list (string * PodMetrics.t) := [] in
    let pod_cpu_query :=
      "sum(rate(container_cpu_usage_seconds_total[5m])) by (pod, namespace)" in
    let pod_memory_query :=
      "sum(container_memory_working_set_bytes) by (pod, namespace)" in
    cpu_results ← query pod_cpu_query;
    memory_results ← query pod_memory_query;
    pod_metrics ←
      for_exc cpu_results (fun pod_metrics result =>
        let pod_name := PromResult.metric result !! "pod" in
        let namespace := PromResult.metric result !! "namespace" in
        if truthy pod_name && truthy namespace then
          let key := default "" namespace +:+ "/" +:+ default "" pod_name in
          let pod_metrics :=
            if dict_mem key pod_metrics then pod_metrics
            else pod_metrics ++ [(key, PodMetrics.mk (default "" namespace)
                                         (default "" pod_name) None None)] in
          s ← getitem "value" (PromResult.value result);
          v ← py_float s;
          Ok (dict_alter (fun m =>
                PodMetrics.mk (PodMetrics.namespace m) (PodMetrics.pod m) (Some v)
                  (PodMetrics.memory_usage_bytes m)) key pod_metrics)
        else Ok pod_metrics) pod_metrics;
    pod_metrics ←
      for_exc memory_results (fun pod_metrics result =>
        let pod_name := PromResult.metric result !! "pod" in
        let namespace := PromResult.metric result !! "namespace" in
        if truthy pod_name && truthy namespace then
          let key := default "" namespace +:+ "/" +:+ default "" pod_name in
          let pod_metrics :=
            if dict_mem key pod_metrics then pod_metrics
            else pod_metrics ++ [(key, PodMetrics.mk (default "" namespace)
                                         (default "" pod_name) None None)] in
          s ← getitem "value" (PromResult.value result);
          v ← py_float s;
          Ok (dict_alter (fun m =>
                PodMetrics.mk (PodMetrics.namespace m) (PodMetrics.pod m)
                  (PodMetrics.cpu_usage_seconds m) (Some v)) key pod_metrics)
        else Ok pod_metrics) pod_metrics;
    Ok pod_metrics in
  match body with
  | Ok r => r
  | Raise _ => []
  end.

(** What [_collect_all_metrics] hands on: the clock readings and the
    results of the three collectors. *)
Definition collect_tick (query : PrometheusClientImpl.Query)
    (k8s_client : KubernetesClient.t) (timestamp detect_time clean_time : Z)
    : Tick.t :=
  Tick.mk timestamp
    (_collect_cluster_metrics query k8s_client)
    (_collect_node_metrics query)
    (_collect_pod_metrics query)
    detect_time clean_time.

End Collectors.


End MetricsCollector.

(** * Reference definitions

    What the properties below are stated with. *)

(** A finding whose severity is not [s]. *)
Definition is_not (s : Severity) (f : Finding.t) : Prop := Finding.severity f ≠ s.

(** Two high findings, for the tie-break example. *)
Definition finding_A : Finding.t :=
  Finding.mk "pod_crash_loop" HIGH (Some "pod/default/a") "A" None [].
Definition finding_B : Finding.t :=
  Finding.mk "application_errors" HIGH (Some "service/b") "B" None [].

(** The (action, finding type) pairs the plan draws from the findings:
    the first two suggested actions of each of the first three. *)
Definition finding_actions (findings : list Finding.t) : list (string * string) :=
  concat ((fun f => (fun a => (a, Finding.type f))
                      <$> take 2 (Finding.suggested_actions f))
          <$> take 3 findings).

Definition opening_steps : list Step.t :=
  [Step.mk 1 "Acknowledge the incident and assess impact" 5 true None;
   Step.mk 2 "Gather additional context and metrics" 10 true None].

Definition finding_step (first : Z) (i : nat) (a : string * string) : Step.t :=
  Step.mk (first + Z.of_nat i) a.1 15 false (Some a.2).

Definition closing_step (n : Z) : Step.t :=
  Step.mk n "Verify resolution and monitor system stability" 10 true None.

(** The four adapters of the analyzer, in the order they are awaited. *)
Inductive Adapter : Type := KubernetesAdapter | MetricsAdapter | LogsAdapter | TracesAdapter.

#[global] Instance Adapter_eq_dec : EqDecision Adapter.
Proof. solve_decision. Defined.

(** The position and the name of an adapter's entry in [analysis_steps]. *)
Definition step_position (a : Adapter) : nat :=
  match a with
  | KubernetesAdapter => 0
  | MetricsAdapter => 1
  | LogsAdapter => 2
  | TracesAdapter => 3
  end%nat.

Definition step_name (a : Adapter) : string :=
  match a with
  | KubernetesAdapter => "kubernetes_analysis"
  | MetricsAdapter => "metrics_analysis"
  | LogsAdapter => "logs_analysis"
  | TracesAdapter => "traces_analysis"
  end.

(** The source behind an adapter is unreachable: every call the analyzer
    can make to its client raises. *)
Definition unreachable (a : Adapter) (self : IncidentAnalyzer.t) : Prop :=
  match a with
  | KubernetesAdapter =>
      let c := IncidentAnalyzer.k8s_client self in
      Py.is_raise (KubernetesClient.get_nodes c)
      /\ Py.is_raise (KubernetesClient.get_pods c)
      /\ Py.is_raise (KubernetesClient.get_events c)
  | MetricsAdapter =>
      let c := IncidentAnalyzer.prometheus_client self in
      Py.is_raise (PrometheusClient.check_alerts c)
      /\ Py.is_raise (PrometheusClient.get_cluster_metrics c)
  | LogsAdapter =>
      Py.is_raise (LokiClient.search_errors (IncidentAnalyzer.loki_client self))
  | TracesAdapter =>
      let c := IncidentAnalyzer.jaeger_client self in
      Py.is_raise (JaegerClient.get_services c)
      /\ forall service, Py.is_raise (JaegerClient.analyze_latency c service)
  end.

(** Two analyzers hold the same client for an adapter. *)
Definition same_client (a : Adapter) (self self' : IncidentAnalyzer.t) : Prop :=
  match a with
  | KubernetesAdapter => IncidentAnalyzer.k8s_client self = IncidentAnalyzer.k8s_client self'
  | MetricsAdapter =>
      IncidentAnalyzer.prometheus_client self = IncidentAnalyzer.prometheus_client self'
  | LogsAdapter => IncidentAnalyzer.loki_client self = IncidentAnalyzer.loki_client self'
  | TracesAdapter => IncidentAnalyzer.jaeger_client self = IncidentAnalyzer.jaeger_client self'
  end.

(** The adapter method of the analyzer. *)
Definition run_adapter `{PyFormat} (a : Adapter) (self : IncidentAnalyzer.t)
    : Py.Exc (list Finding.t) :=
  match a with
  | KubernetesAdapter => IncidentAnalyzer._analyze_kubernetes_state self
  | MetricsAdapter => IncidentAnalyzer._analyze_metrics self
  | LogsAdapter => IncidentAnalyzer._analyze_logs self
  | TracesAdapter => IncidentAnalyzer._analyze_traces self
  end.

(** A formatter for the examples; the examples format no float. *)
Definition example_format : PyFormat :=
  {| format_1f := fun _ => "0.0"; format_1pct := fun _ => "0.0%";
     format_0f := fun n => pretty n |}.

(** An analyzer whose trace source is unreachable, while the cluster
    reports a node that is not ready and the logs hold one error. *)
Definition example_analyzer : IncidentAnalyzer.t :=
  IncidentAnalyzer.mk
    (KubernetesClient.mk
       (Py.Ok [KubernetesClient.Node.mk "node-1" "NotReady"]) (Py.Ok []) (Py.Ok []))
    (PrometheusClient.mk (Py.Ok []) (Py.Ok (PrometheusClient.NodeMetrics.mk [] [] [])))
    (LokiClient.mk (Py.Ok [LokiClient.LogEntry.mk (<["job" := "api"]> ∅) "error: boom"]))
    (JaegerClient.mk (Py.Raise (Py.UpstreamError "jaeger"))
       (fun _ => Py.Raise (Py.UpstreamError "jaeger"))).

(** A row of the threshold table of the classifier: an anomaly of this
    type, severity and metric name is due when the value is above
    [limit]; [threshold] is the number the anomaly reports. *)
Module Rule.
Record t : Type := mk {
  type : string;
  severity : string;
  metric : string;
  limit : float;
  threshold : Z
}.
End Rule.

Definition cluster_cpu_rule : Rule.t :=
  Rule.mk "high_cluster_cpu" "high" "cluster_cpu_usage" 80%float 80.
Definition cluster_memory_rule : Rule.t :=
  Rule.mk "high_cluster_memory" "high" "cluster_memory_usage" 85%float 85.
Definition node_cpu_rule : Rule.t :=
  Rule.mk "high_node_cpu" "critical" "node_cpu_usage" 90%float 90.
Definition node_memory_rule : Rule.t :=
  Rule.mk "high_node_memory" "critical" "node_memory_usage" 95%float 95.

(** The anomalies one row yields for one observed value: one when the
    value is above the limit, none otherwise or when there is no value. *)
Definition emit (r : Rule.t) (resource : option string) (value : option float)
    (now : Z) : list Anomaly.t :=
  match value with
  | Some v =>
      if PrimFloat.ltb (Rule.limit r) v then
        [Anomaly.mk (Rule.type r) (Rule.severity r) resource (Rule.metric r)
           v (Rule.threshold r) now]
      else []
  | None => []
  end.

(** The classifier of the specification, on the cluster sample and the
    per-node samples of a tick. *)
Definition classify (cluster : ClusterMetrics.t)
    (nodes : list (string * NodeMetrics.t)) (now : Z) : list Anomaly.t :=
  emit cluster_cpu_rule None (ClusterMetrics.cpu_usage_percent cluster) now
  ++ emit cluster_memory_rule None (ClusterMetrics.memory_usage_percent cluster) now
  ++ concat ((fun '(node_name, m) =>
                emit node_cpu_rule (Some ("node/" +:+ node_name))
                  (NodeMetrics.cpu_usage_percent m) now
                ++ emit node_memory_rule (Some ("node/" +:+ node_name))
                     (NodeMetrics.memory_usage_percent m) now) <$> nodes).

(** The sampler after a sequence of passes of [_collect_all_metrics]. *)
Definition run (ticks : list Tick.t) (self : MetricsCollector.t) : MetricsCollector.t :=
  foldl MetricsCollector._collect_all_metrics self ticks.

(** The keys [_collect_all_metrics] writes. *)
Definition metric_types : gset string := {["cluster"; "nodes"; "pods"]}.

(** The health score of the specification. *)
Definition health_score (cpu mem : float) (ready_nodes total_nodes : Z) : Z :=
  let score := 100 in
  let score := score - (if PrimFloat.ltb 80%float cpu then 20 else 0) in
  let score := score - (if PrimFloat.ltb 85%float mem then 20 else 0) in
  let score := score - (if bool_decide (ready_nodes < total_nodes) then 30 else 0) in
  Z.max 0 (Z.min 100 score).

(** A collector whose store holds the cluster sample of the scenario:
    CPU 85%, memory 70%, 3 of 3 nodes ready. *)
Definition example_collector : MetricsCollector.t :=
  MetricsCollector.mk true (Some 0%nat)
    (<["cluster" :=
         Entry.mk 0 (ClusterM (ClusterMetrics.mk (Some 85%float) (Some 70%float)
                                 (Some 12) (Some 3) (Some 3)))]> ∅)
    [].

(** [start] and [stop] on the pair of the collector and the event loop. *)
Definition start_call (s : MetricsCollector.t * Asyncio.Loop)
    : MetricsCollector.t * Asyncio.Loop :=
  MetricsCollector.start s.1 s.2.

Definition stop_call (woken : nat -> bool) (tick : nat -> Tick.t)
    (s : MetricsCollector.t * Asyncio.Loop) : MetricsCollector.t * Asyncio.Loop :=
  MetricsCollector.stop s.1 s.2 woken tick.

(** What becomes of a task that is not the awaited one while [stop]
    waits: a task that never ran returns at once, a sleeping task
    returns if it wakes, both without a pass; the others stay. *)
Definition settle (woken : nat -> bool) (i : nat) (s : Asyncio.TaskState)
    : Asyncio.TaskState :=
  match s with
  | Asyncio.Created => Asyncio.Finished
  | Asyncio.Sleeping => if woken i then Asyncio.Finished else Asyncio.Sleeping
  | Asyncio.Finished | Asyncio.Cancelled => s
  end.

(** The event loop after [stop] has waited for the task [task]. *)
Definition stopped (task : nat) (woken : nat -> bool) (loop : Asyncio.Loop)
    : Asyncio.Loop :=
  imap (fun i s => if decide (i = task) then Asyncio.Cancelled else settle woken i s)
    loop.

(** The age in minutes of a sample [age] microseconds old. *)
Definition age_minutes (age : Z) : float :=
  PrimFloat.div (Py.int_truediv age 1000000) 60%float.

(** ** Reference definitions for the adapters *)

(** The finding for a node that is not ready. *)
Definition node_not_ready_finding (node : KubernetesClient.Node.t) : Finding.t :=
  Finding.mk "node_not_ready" CRITICAL
    (Some ("node/" +:+ KubernetesClient.Node.name node))
    ("Node " +:+ KubernetesClient.Node.name node +:+ " is not ready")
    None
    ["Check node resources and kubelet status";
     "Verify network connectivity";
     "Review node events for details"].

(** The finding for a firing alert whose severity label maps to [severity]. *)
Definition alert_finding (alert : PrometheusClient.Alert.t) (severity : Severity)
    : Finding.t :=
  Finding.mk "prometheus_alert" severity
    (PrometheusClient.Alert.instance alert)
    ("Alert " +:+ Py.str (PrometheusClient.Alert.name alert) +:+ " is firing")
    None
    ["Review alert rules and thresholds";
     "Check related metrics for root cause";
     "Verify resource utilization"].

(** The findings for the firing alerts up to, and without, the first one
    that has no severity label. *)
Fixpoint alert_findings (alerts : list PrometheusClient.Alert.t) : list Finding.t :=
  match alerts with
  | [] => []
  | alert :: rest =>
      match PrometheusClient.Alert.severity alert with
      | Some s =>
          match IncidentAnalyzer._map_alert_severity (Some s) with
          | Py.Ok severity => alert_finding alert severity :: alert_findings rest
          | Py.Raise _ => []
          end
      | None => []
      end
  end.

(** The finding for one sample of a node metric, when it is above 80. *)
Definition sample_findings `{PyFormat} (metric_type : string)
    (metric : PrometheusClient.Sample.t) : list Finding.t :=
  let value := default 0%float (PrometheusClient.Sample.value metric) in
  if PrimFloat.ltb 80%float value then
    [Finding.mk ("high_" +:+ metric_type) HIGH
       (Some (default "unknown" (PrometheusClient.Sample.instance metric)))
       ("High " +:+ metric_type +:+ ": " +:+ format_1f value +:+ "%")
       None
       ["Consider scaling resources";
        "Check for resource leaks";
        "Review resource requests/limits"]]
  else [].

Definition node_metric_findings `{PyFormat} (m : PrometheusClient.NodeMetrics.t)
    : list Finding.t :=
  concat ((fun '(metric_type, metric_data) =>
             concat (sample_findings metric_type <$> metric_data))
          <$> PrometheusClient.NodeMetrics.items m).

(** The service an error line is counted under. *)
Definition log_job (error : LokiClient.LogEntry.t) : string :=
  default "unknown" (LokiClient.LogEntry.labels error !! "job").

(** The finding for a service and its error lines. *)
Definition log_finding (g : string * list LokiClient.LogEntry.t) : Finding.t :=
  Finding.mk "application_errors"
    (if bool_decide (10 < length g.2)%nat then HIGH else MEDIUM)
    (Some ("service/" +:+ g.1))
    ("Found " +:+ pretty (length g.2) +:+ " errors in " +:+ g.1)
    (Some (LokiClient.LogEntry.message <$> take 3 g.2))
    ["Review application logs for root cause";
     "Check recent deployments or changes";
     "Verify dependencies and connections"].

(** [d.get(key)] on an insertion-ordered dict. *)
Fixpoint alist_get {V : Type} (key : string) (d : list (string * V)) : option V :=
  match d with
  | [] => None
  | (k, v) :: d' => if decide (k = key) then Some v else alist_get key d'
  end.

(** The findings one traced service yields, from the outcome of its
    latency analysis. *)
Definition trace_findings `{PyFormat} (service : string)
    (outcome : Py.Exc JaegerClient.LatencyAnalysis) : list Finding.t :=
  match outcome with
  | Py.Ok (JaegerClient.Stats error_rate p95) =>
      (if PrimFloat.ltb 0.1%float error_rate then
         [Finding.mk "high_error_rate" HIGH
            (Some ("service/" +:+ service))
            ("High error rate: " +:+ format_1pct error_rate)
            None
            ["Investigate failing requests";
             "Check service dependencies";
             "Review recent changes"]]
       else [])
      ++ (if bool_decide (1000000 < p95) then
            [Finding.mk "high_latency" MEDIUM
               (Some ("service/" +:+ service))
               ("High p95 latency: " +:+ format_0f p95 +:+ "Î¼s")
               None
               ["Optimize database queries";
                "Review external API calls";
                "Check resource utilization"]]
          else [])
  | _ => []
  end.

(** An analyzer whose Kubernetes client lists a node that is not ready
    and then fails to list the pods. *)
Definition example_analyzer_pods_down : IncidentAnalyzer.t :=
  IncidentAnalyzer.mk
    (KubernetesClient.mk
       (Py.Ok [KubernetesClient.Node.mk "node-1" "NotReady"])
       (Py.Raise (Py.UpstreamError "kubernetes")) (Py.Ok []))
    (PrometheusClient.mk (Py.Ok []) (Py.Ok (PrometheusClient.NodeMetrics.mk [] [] [])))
    (LokiClient.mk (Py.Ok []))
    (JaegerClient.mk (Py.Ok []) (fun _ => Py.Ok JaegerClient.NoTraces)).

(** An analyzer none of whose sources can be reached. *)
Definition example_analyzer_all_down : IncidentAnalyzer.t :=
  IncidentAnalyzer.mk
    (KubernetesClient.mk
       (Py.Raise (Py.UpstreamError "kubernetes"))
       (Py.Raise (Py.UpstreamError "kubernetes"))
       (Py.Raise (Py.UpstreamError "kubernetes")))
    (PrometheusClient.mk
       (Py.Raise (Py.UpstreamError "prometheus"))
       (Py.Raise (Py.UpstreamError "prometheus")))
    (LokiClient.mk (Py.Raise (Py.UpstreamError "loki")))
    (JaegerClient.mk (Py.Raise (Py.UpstreamError "jaeger"))
       (fun _ => Py.Raise (Py.UpstreamError "jaeger"))).

(** An analyzer with a critical alert and, before it, a node that is
    not ready behind a ready one. *)
Definition example_analyzer_node_and_alert : IncidentAnalyzer.t :=
  IncidentAnalyzer.mk
    (KubernetesClient.mk
       (Py.Ok [KubernetesClient.Node.mk "node-1" "Ready";
               KubernetesClient.Node.mk "node-2" "NotReady"])
       (Py.Ok []) (Py.Ok []))
    (PrometheusClient.mk
       (Py.Ok [PrometheusClient.Alert.mk (Some "DiskFull") (Some "critical")
                 (Some "node-1:9100")])
       (Py.Ok (PrometheusClient.NodeMetrics.mk [] [] [])))
    (LokiClient.mk (Py.Ok []))
    (JaegerClient.mk (Py.Ok []) (fun _ => Py.Ok JaegerClient.NoTraces)).

(** Three firing alerts, the second without a severity label. *)
Definition example_alerts : list PrometheusClient.Alert.t :=
  [PrometheusClient.Alert.mk (Some "HighLoad") (Some "warning") (Some "a:9100");
   PrometheusClient.Alert.mk (Some "NoLabel") None (Some "b:9100");
   PrometheusClient.Alert.mk (Some "DiskFull") (Some "critical") (Some "c:9100")].


(** An analyzer whose Prometheus lists [example_alerts] and fails on the
    node metrics. *)
Definition example_analyzer_unlabelled_alert : IncidentAnalyzer.t :=
  IncidentAnalyzer.mk
    (KubernetesClient.mk (Py.Ok []) (Py.Ok []) (Py.Ok []))
    (PrometheusClient.mk (Py.Ok example_alerts)
       (Py.Raise (Py.UpstreamError "prometheus")))
    (LokiClient.mk (Py.Ok []))
    (JaegerClient.mk (Py.Ok []) (fun _ => Py.Ok JaegerClient.NoTraces)).


(** Three error lines of two services. *)
Definition example_errors : list LokiClient.LogEntry.t :=
  [LokiClient.LogEntry.mk (<["job" := "api"]> ∅) "error: timeout";
   LokiClient.LogEntry.mk (<["job" := "db"]> ∅) "panic: disk";
   LokiClient.LogEntry.mk (<["job" := "api"]> ∅) "error: refused"].

Definition example_analyzer_logs : IncidentAnalyzer.t :=
  IncidentAnalyzer.mk
    (KubernetesClient.mk (Py.Ok []) (Py.Ok []) (Py.Ok []))
    (PrometheusClient.mk (Py.Ok []) (Py.Ok (PrometheusClient.NodeMetrics.mk [] [] [])))
    (LokiClient.mk (Py.Ok example_errors))
    (JaegerClient.mk (Py.Ok []) (fun _ => Py.Ok JaegerClient.NoTraces)).

(** Seven traced services: the second has no traces, the analysis of
    the third raises, the others are slow. *)
Definition example_analyzer_traces : IncidentAnalyzer.t :=
  IncidentAnalyzer.mk
    (KubernetesClient.mk (Py.Ok []) (Py.Ok []) (Py.Ok []))
    (PrometheusClient.mk (Py.Ok []) (Py.Ok (PrometheusClient.NodeMetrics.mk [] [] [])))
    (LokiClient.mk (Py.Ok []))
    (JaegerClient.mk (Py.Ok ["s1"; "s2"; "s3"; "s4"; "s5"; "s6"; "s7"])
       (fun service =>
          if decide (service = "s2") then Py.Ok JaegerClient.NoTraces
          else if decide (service = "s3") then Py.Raise (Py.UpstreamError "jaeger")
          else Py.Ok (JaegerClient.Stats 0%float 2000000))).


(** The store a pass writes: the three entries of the pass. *)
Definition fresh_store (tick : Tick.t) : gmap string Entry.t :=
  <["pods" := Entry.mk (Tick.timestamp tick) (PodsM (Tick.pod_metrics tick))]>
    (<["nodes" := Entry.mk (Tick.timestamp tick) (NodesM (Tick.node_metrics tick))]>
       (<["cluster" := Entry.mk (Tick.timestamp tick)
                         (ClusterM (Tick.cluster_metrics tick))]> ∅)).

(** A clock reading of April 2026 and an anomaly seen one hour before. *)
Definition example_now : Z := 1775000000000000.

Definition example_collector_with_anomaly : MetricsCollector.t :=
  MetricsCollector.mk true (Some 0%nat) ∅
    [Anomaly.mk "high_cluster_cpu" "high" None "cluster_cpu_usage" 91%float 80
       (example_now - 3600000000)].

(** A pass whose samples are one minute old when the store is cleaned. *)
Definition example_tick : Tick.t :=
  Tick.mk example_now
    (ClusterMetrics.mk (Some 85%float) (Some 70%float) (Some 12) (Some 3) (Some 3))
    [("node-1", NodeMetrics.mk (Some 95%float) (Some 50%float) None)]
    []
    (example_now + 1000000) (example_now + 60000000).


(** The sampler after one pass from [__init__]: the store holds the
    samples of the pass, the log its two anomalies (cluster CPU 85,
    CPU 95 on node-1). *)
Definition example_sampled : MetricsCollector.t :=
  MetricsCollector._collect_all_metrics MetricsCollector.__init__ example_tick.

(** ** Reference definitions for the clients and the collectors *)

(** The alert dict [check_alerts] builds from a raw result. *)
Definition alert_of (r : PromResult.t) : PrometheusClient.Alert.t :=
  PrometheusClient.Alert.mk (PromResult.metric r !! "alertname")
    (PromResult.metric r !! "severity") (PromResult.metric r !! "instance").

(** The PromQL texts of the queries. *)
Definition alerts_query : string :=
  "ALERTS{alertstate=" +:+ PrometheusClientImpl.dq +:+ "firing"
    +:+ PrometheusClientImpl.dq +:+ "}".
Definition cluster_cpu_query : string :=
  "sum(rate(container_cpu_usage_seconds_total[5m])) / sum(kube_pod_container_resource_limits_cpu_cores) * 100".
Definition cluster_memory_query : string :=
  "sum(container_memory_working_set_bytes) / sum(kube_pod_container_resource_limits_memory_bytes) * 100".
Definition cluster_pod_query : string := "count(kube_pod_info)".
Definition node_cpu_query : string :=
  "100 - (avg by (instance) (rate(node_cpu_seconds_total{mode="
    +:+ PrometheusClientImpl.dq +:+ "idle" +:+ PrometheusClientImpl.dq
    +:+ "}[5m])) * 100)".
Definition node_memory_query : string :=
  "100 * (1 - ((node_memory_MemAvailable_bytes) / (node_memory_MemTotal_bytes)))".
Definition node_disk_query : string :=
  "100 * (1 - ((node_filesystem_avail_bytes{mountpoint=" +:+ PrometheusClientImpl.dq
    +:+ "/" +:+ PrometheusClientImpl.dq
    +:+ "}) / (node_filesystem_size_bytes{mountpoint=" +:+ PrometheusClientImpl.dq
    +:+ "/" +:+ PrometheusClientImpl.dq +:+ "})))".
Definition pod_cpu_query : string :=
  "sum(rate(container_cpu_usage_seconds_total[5m])) by (pod, namespace)".
Definition pod_memory_query : string :=
  "sum(container_memory_working_set_bytes) by (pod, namespace)".

(** The node check of the health score fires: the node list could not
    be fetched, or it holds a node that is not ready. *)
Definition nodes_degraded (k8s_client : KubernetesClient.t) : bool :=
  match KubernetesClient.get_nodes k8s_client with
  | Py.Ok nodes =>
      bool_decide (Exists (fun node => KubernetesClient.Node.status node <> "Ready")
                     nodes)
  | Py.Raise _ => true
  end.

(** The host part of the [instance] label of a raw result. *)
Definition host_of (r : PromResult.t) : string :=
  MetricsCollector.split_colon_0 (default "" (PromResult.metric r !! "instance")).

(** A parser for the examples: it knows the sample strings they use. *)
Definition example_parse : PyParse :=
  {| py_float := fun s =>
       if decide (s = "85") then Py.Ok 85%float
       else if decide (s = "97.5") then Py.Ok 97.5%float
       else if decide (s = "40") then Py.Ok 40%float
       else Py.Raise (Py.ValueError "could not convert string to float");
     py_int := fun s =>
       if decide (s = "12") then Py.Ok 12
       else Py.Raise (Py.ValueError "invalid literal for int()") |}.

(** A Prometheus that answers the node CPU and the node memory query,
    the latter also for a host without a CPU sample, and has nothing
    for the other queries. *)
Definition example_query : string -> Py.Exc (list PromResult.t) :=
  fun q =>
    if decide (q = node_cpu_query) then
      Py.Ok [PromResult.mk (<["instance" := "node-1:9100"]> ∅) (Some "97.5")]
    else if decide (q = node_memory_query) then
      Py.Ok [PromResult.mk (<["instance" := "node-1:9100"]> ∅) (Some "40");
             PromResult.mk (<["instance" := "node-2:9100"]> ∅) (Some "85")]
    else Py.Ok [].

(** A cluster whose node list cannot be fetched. *)
Definition example_k8s_down : KubernetesClient.t :=
  KubernetesClient.mk (Py.Raise (Py.UpstreamError "kubernetes"))
    (Py.Raise (Py.UpstreamError "kubernetes"))
    (Py.Raise (Py.UpstreamError "kubernetes")).

(** Two spans, the second starting later and ending later. *)
Definition example_spans : list JaegerClientImpl.Span.t :=
  [JaegerClientImpl.Span.mk (Some 1000) (Some 500);
   JaegerClientImpl.Span.mk (Some 1200) (Some 900)].


(** Two firing series, the second without a [severity] label. *)
Definition example_firing_labelled : PromResult.t :=
  PromResult.mk (<["alertname" := "HighLoad"]> (<["severity" := "warning"]>
                 (<["instance" := "a:9100"]> ∅))) (Some "1").
Definition example_firing_unlabelled : PromResult.t :=
  PromResult.mk (<["alertname" := "NoLabel"]> (<["instance" := "b:9100"]> ∅))
    (Some "1").

(** A Prometheus that answers the alerts query with these two series
    and every other query with nothing. *)
Definition example_alerts_query : string -> Py.Exc (list PromResult.t) :=
  fun q =>
    if decide (q = alerts_query) then
      Py.Ok [example_firing_labelled; example_firing_unlabelled]
    else Py.Ok [].

(** An analyzer whose alerts come from [check_alerts] over this
    Prometheus, and whose node metrics cannot be fetched. *)
Definition example_analyzer_firing : IncidentAnalyzer.t :=
  IncidentAnalyzer.mk
    (KubernetesClient.mk (Py.Ok []) (Py.Ok []) (Py.Ok []))
    (PrometheusClient.mk (PrometheusClientImpl.check_alerts example_alerts_query)
       (Py.Raise (Py.UpstreamError "prometheus")))
    (LokiClient.mk (Py.Ok []))
    (JaegerClient.mk (Py.Ok []) (fun _ => Py.Ok JaegerClient.NoTraces)).


(** What holds of every entry of the node dict. *)
Definition node_entry_ok (kv : string * NodeMetrics.t) : Prop :=
  kv.1 <> "" /\ MetricsCollector.split_colon_0 kv.1 = kv.1
  /\ is_Some (NodeMetrics.cpu_usage_percent kv.2).

(** What holds of every entry of the pod dict. *)
Definition pod_entry_ok (kv : string * PodMetrics.t) : Prop :=
  PodMetrics.namespace kv.2 <> "" /\ PodMetrics.pod kv.2 <> ""
  /\ kv.1 = PodMetrics.namespace kv.2 +:+ "/" +:+ PodMetrics.pod kv.2
  /\ (is_Some (PodMetrics.cpu_usage_seconds kv.2)
      \/ is_Some (PodMetrics.memory_usage_bytes kv.2)).

(** The sample string a cluster-level query yields: [result[0]["value"][1]]
    of a non-empty result that has the key, nothing when the query
    raised, returned no series or the key is missing. *)
Definition first_sample (result : Py.Exc (list PromResult.t)) : option string :=
  match result with
  | Py.Ok (first :: _) => PromResult.value first
  | _ => None
  end.

(** The value a collector stores for a sample string: the parsed
    number, nothing when there is no string or it does not parse. *)
Definition stored_float `{PyParse} (sample : option string) : option float :=
  match sample with
  | Some s => match py_float s with Py.Ok v => Some v | Py.Raise _ => None end
  | None => None
  end.

Definition stored_int `{PyParse} (sample : option string) : option Z :=
  match sample with
  | Some s => match py_int s with Py.Ok n => Some n | Py.Raise _ => None end
  | None => None
  end.


(** * Properties *)

(** ** Lists *)

Section ListFacts.
Context {A : Type} (P : A -> Prop) `{!forall x, Decision (P x)}.

Lemma filter_none (l : list A) :
  Forall (fun x => ~ P x) l -> filter P l = [].
Proof.
  induction 1 as [|x l Hx _ IH]; [done|].
  by rewrite filter_cons_False.
Qed.

Lemma filter_first (pre post : list A) (x : A) :
  Forall (fun y => ~ P y) pre -> P x ->
  filter P (pre ++ x :: post) = x :: filter P post.
Proof.
  intros Hpre Hx.
  by rewrite filter_app, (filter_none pre Hpre), filter_cons_True.
Qed.
End ListFacts.

(** ** Root-cause ranking *)

Section Ranking.
Import Py IncidentAnalyzer.

Lemma rank_critical pre f post :
  Forall (is_not CRITICAL) pre -> Finding.severity f = CRITICAL ->
  _determine_root_cause (pre ++ f :: post)
  = Ok (RootCause.mk (Finding.description f) 0.9%float CRITICAL).
Proof.
  intros Hpre Hf. unfold _determine_root_cause.
  rewrite (filter_first (fun g => Finding.severity g = CRITICAL) pre post f);
    [|eapply Forall_impl; [exact Hpre|]; intros g Hg; exact Hg|done].
  by destruct (pre ++ f :: post) eqn:E; [destruct pre; discriminate|].
Qed.

Lemma rank_high pre f post :
  Forall (is_not CRITICAL) (pre ++ f :: post) ->
  Forall (is_not HIGH) pre -> Finding.severity f = HIGH ->
  _determine_root_cause (pre ++ f :: post)
  = Ok (RootCause.mk (Finding.description f) 0.7%float HIGH).
Proof.
  intros Hall Hpre Hf. unfold _determine_root_cause.
  rewrite (filter_none (fun g => Finding.severity g = CRITICAL) _ Hall).
  rewrite (filter_first (fun g => Finding.severity g = HIGH) pre post f);
    [|exact Hpre|done].
  by destruct (pre ++ f :: post) eqn:E; [destruct pre; discriminate|].
Qed.

Lemma rank_other f rest :
  Forall (is_not CRITICAL) (f :: rest) -> Forall (is_not HIGH) (f :: rest) ->
  _determine_root_cause (f :: rest)
  = Ok (RootCause.mk (Finding.description f) 0.5%float MEDIUM).
Proof.
  intros Hc Hh. unfold _determine_root_cause.
  rewrite (filter_none (fun g => Finding.severity g = CRITICAL) _ Hc).
  by rewrite (filter_none (fun g => Finding.severity g = HIGH) _ Hh).
Qed.

Lemma rank_total findings : exists r, _determine_root_cause findings = Ok r.
Proof.
  unfold _determine_root_cause. destruct findings as [|f0 rest]; [by eexists|].
  destruct (filter _ (f0 :: rest)) as [|c cs]; [|by eexists].
  destruct (filter _ (f0 :: rest)) as [|h hs]; by eexists.
Qed.

(** C1: root-cause ranking. On the empty list the result is "No issues
    detected" with confidence 1.0 and severity info; when a critical
    finding exists, the description of the first one in list order,
    0.9, critical; otherwise, when a high finding exists, the
    description of the first one, 0.7, high; otherwise the
    description of the very first finding, 0.5, medium. The ranker is
    a function of the list, so two runs on one list agree, and it
    never raises. *)
Theorem determine_root_cause_ranking (findings : list Finding.t) :
  (findings = [] ->
     _determine_root_cause findings
     = Ok (RootCause.mk "No issues detected" 1.0%float INFO))
  /\ (forall pre f post,
        findings = pre ++ f :: post ->
        Forall (is_not CRITICAL) pre -> Finding.severity f = CRITICAL ->
        _determine_root_cause findings
        = Ok (RootCause.mk (Finding.description f) 0.9%float CRITICAL))
  /\ (forall pre f post,
        findings = pre ++ f :: post ->
        Forall (is_not CRITICAL) findings ->
        Forall (is_not HIGH) pre -> Finding.severity f = HIGH ->
        _determine_root_cause findings
        = Ok (RootCause.mk (Finding.description f) 0.7%float HIGH))
  /\ (forall f rest,
        findings = f :: rest ->
        Forall (is_not CRITICAL) findings -> Forall (is_not HIGH) findings ->
        _determine_root_cause findings
        = Ok (RootCause.mk (Finding.description f) 0.5%float MEDIUM))
  /\ (exists r, _determine_root_cause findings = Ok r).
Proof.
  split; [by intros ->|].
  split; [intros pre f post ->; apply rank_critical|].
  split; [intros pre f post ->; apply rank_high|].
  split; [intros f rest ->; apply rank_other|].
  apply rank_total.
Qed.

(** Two high findings in the order B, A: the root cause is B. *)
Lemma determine_root_cause_ranking_witness :
  _determine_root_cause [finding_B; finding_A]
  = Ok (RootCause.mk "B" 0.7%float HIGH).
Proof.
  destruct (determine_root_cause_ranking [finding_B; finding_A])
    as (_ & _ & Hhigh & _).
  apply (Hhigh [] finding_B [finding_A]).
  - reflexivity.
  - repeat constructor; discriminate.
  - constructor.
  - reflexivity.
Defined.
End Ranking.

(** ** Action plan *)

Section ActionPlan.
Import Py IncidentAnalyzer.

Lemma append_actions (ty : string) (acts : list string) (steps : list Step.t) :
  foldl (fun steps action =>
           steps ++ [Step.mk (len steps + 1) action 15 false (Some ty)]) steps acts
  = steps ++ imap (finding_step (len steps + 1)) ((fun a => (a, ty)) <$> acts).
Proof.
  revert steps. induction acts as [|a acts IH]; intros steps; simpl.
  - by rewrite app_nil_r.
  - rewrite IH, <- app_assoc. f_equal. simpl. f_equal.
    + unfold finding_step. simpl. f_equal. lia.
    + apply imap_ext. intros i x _. unfold finding_step, len. simpl.
      f_equal. rewrite length_app. simpl. lia.
Qed.

Lemma append_findings (fs : list Finding.t) (steps : list Step.t) :
  foldl (fun steps finding =>
           match Finding.suggested_actions finding with
           | [] => steps
           | _ :: _ =>
               foldl (fun steps action =>
                        steps ++ [Step.mk (len steps + 1) action 15 false
                                    (Some (Finding.type finding))])
                 steps (take 2 (Finding.suggested_actions finding))
           end) steps fs
  = steps ++ imap (finding_step (len steps + 1))
               (concat ((fun f => (fun a => (a, Finding.type f))
                                    <$> take 2 (Finding.suggested_actions f)) <$> fs)).
Proof.
  revert steps. induction fs as [|f fs IH]; intros steps; simpl.
  - by rewrite app_nil_r.
  - rewrite IH. clear IH.
    destruct (Finding.suggested_actions f) as [|a0 acts] eqn:E.
    + done.
    + rewrite append_actions, imap_app, <- app_assoc. f_equal. f_equal.
      apply imap_ext. intros i x _. unfold finding_step, len. f_equal.
      rewrite length_app, length_imap. lia.
Qed.

Lemma finding_actions_length findings : (length (finding_actions findings) <= 6)%nat.
Proof.
  unfold finding_actions.
  assert (Hlen : forall fs : list Finding.t,
             (length (concat ((fun f => (fun a => (a, Finding.type f))
                        <$> take 2 (Finding.suggested_actions f)) <$> fs))
              <= 2 * length fs)%nat).
  { induction fs as [|f fs IH]; [simpl; lia|].
    rewrite fmap_cons. cbn [concat length].
    rewrite length_app, length_fmap, length_take. lia. }
  specialize (Hlen (take 3 findings)). rewrite length_take in Hlen. lia.
Qed.

Lemma duration_finding_steps first (l : list (string * string)) :
  foldr Z.add 0 (Step.estimated_duration <$> imap (finding_step first) l)
  = 15 * Z.of_nat (length l).
Proof.
  revert first. induction l as [|a l IH]; intros first; [done|].
  cbn [imap fmap list_fmap foldr length].
  rewrite (imap_ext _ (finding_step (first + 1)) l).
  - rewrite IH. simpl Step.estimated_duration. lia.
  - intros i x _. unfold finding_step. simpl. f_equal. lia.
Qed.

Lemma critical_finding_steps first (l : list (string * string)) :
  filter (fun step => Step.critical step = true) (imap (finding_step first) l) = [].
Proof.
  apply filter_none, Forall_forall. intros s Hs.
  apply list_elem_of_lookup in Hs as [i Hi].
  rewrite list_lookup_imap in Hi.
  destruct (l !! i); simpl in Hi; [|done]. injection Hi as <-. done.
Qed.

(** C4: the generated plan. Its steps are the two fixed critical
    opening steps (5 and 10 minutes), then one non-critical 15-minute
    step per action among the first 2 suggested actions of each of the
    first 3 findings, in list order, tagged with the type of its
    finding and numbered on, then the fixed critical closing step
    (10 minutes). At most 6 steps come from findings. The estimated
    total duration is the sum of the durations of these steps, the
    critical steps are the opening steps and the closing step in this
    order, which is the critical subsequence of the steps. *)
Theorem generate_action_plan_shape (root_cause : string) (findings : list Finding.t) :
  let plan := _generate_action_plan root_cause findings in
  let derived := finding_actions findings in
  let n := Z.of_nat (length derived) in
  Plan.steps plan
    = opening_steps ++ imap (finding_step 3) derived ++ [closing_step (3 + n)]
  /\ (length derived <= 6)%nat
  /\ Plan.estimated_total_duration plan
     = foldr Z.add 0 (Step.estimated_duration <$> Plan.steps plan)
  /\ Plan.estimated_total_duration plan = 5 + 10 + 15 * n + 10
  /\ Plan.critical_steps plan = opening_steps ++ [closing_step (3 + n)]
  /\ Plan.critical_steps plan
     = filter (fun step => Step.critical step = true) (Plan.steps plan)
  /\ Plan.total_steps plan = 3 + n
  /\ Plan.root_cause plan = root_cause.
Proof.
  intros plan derived n.
  assert (Hsteps : Plan.steps plan
            = opening_steps ++ imap (finding_step 3) derived ++ [closing_step (3 + n)]).
  { subst plan. unfold _generate_action_plan. cbn [Plan.steps].
    rewrite append_findings. fold (finding_actions findings). fold derived.
    cbn [app]. unfold opening_steps. cbn [app]. do 2 f_equal.
    change (len [_; _] + 1) with 3. f_equal.
    unfold closing_step, len. do 2 f_equal.
    cbn [length]. rewrite length_imap. subst n. lia. }
  assert (Hdur : Plan.estimated_total_duration plan
            = foldr Z.add 0 (Step.estimated_duration <$> Plan.steps plan)) by done.
  assert (Hcrit : Plan.critical_steps plan
            = filter (fun step => Step.critical step = true) (Plan.steps plan)) by done.
  repeat split; try done.
  - apply finding_actions_length.
  - rewrite Hdur, Hsteps. unfold opening_steps.
    rewrite !fmap_app, !foldr_app. simpl.
    assert (Hshift : forall (l : list Z) (k : Z),
               foldr Z.add k l = foldr Z.add 0 l + k).
    { induction l as [|x l IH]; intros k; simpl; [lia|]. rewrite IH. lia. }
    rewrite Hshift, duration_finding_steps. subst n. lia.
  - rewrite Hcrit, Hsteps. unfold opening_steps.
    rewrite !filter_app, critical_finding_steps. done.
  - subst plan. unfold _generate_action_plan. cbn [Plan.total_steps].
    rewrite append_findings. fold (finding_actions findings). fold derived.
    unfold len. rewrite !length_app, length_imap. simpl. lia.
Qed.
End ActionPlan.

(** ** Adapter fan-out *)

Section FanOut.
Import Py IncidentAnalyzer.
Context `{PyFormat}.

Lemma is_raise_inv {A} (m : Exc A) : is_raise m -> exists e, m = Raise e.
Proof. destruct m; [done|by eexists]. Qed.

Lemma try_except_default {A} (body : Exc A) (d : A) :
  exists r, try_except body (fun _ => Ok d) = Ok r.
Proof. destruct body; by eexists. Qed.

(** No adapter raises, whatever its client does. *)
Lemma run_adapter_total a self : exists l, run_adapter a self = Ok l.
Proof. destruct a; apply try_except_default. Qed.

(** An adapter whose source is unreachable contributes nothing. *)
Lemma run_adapter_unreachable a self :
  unreachable a self -> run_adapter a self = Ok [].
Proof.
  destruct a; simpl.
  - intros (Hn & _ & _). apply is_raise_inv in Hn as [e He].
    unfold _analyze_kubernetes_state. by rewrite He.
  - intros (Ha & Hm).
    apply is_raise_inv in Ha as [e1 He1]. apply is_raise_inv in Hm as [e2 He2].
    unfold _analyze_metrics. by rewrite He1, He2.
  - intros Hs. apply is_raise_inv in Hs as [e He].
    unfold _analyze_logs. by rewrite He.
  - intros (Hs & _). apply is_raise_inv in Hs as [e He].
    unfold _analyze_traces. by rewrite He.
Qed.

(** An adapter reads its own client only. *)
Lemma run_adapter_own_client a self self' :
  same_client a self self' -> run_adapter a self' = run_adapter a self.
Proof.
  destruct a; simpl; intros Heq.
  - unfold _analyze_kubernetes_state. by rewrite Heq.
  - unfold _analyze_metrics. by rewrite Heq.
  - unfold _analyze_logs. by rewrite Heq.
  - unfold _analyze_traces. by rewrite Heq.
Qed.

(** C2: when the source of one adapter is unreachable, the analysis
    still returns a complete diagnosis and does not raise. The four
    steps are recorded in order, each with status "completed" and with
    the findings its adapter returned; the step of the failing adapter
    holds the empty list; every other adapter returns what it returns
    with any other state of the failing source; the findings of the
    diagnosis are the findings of the four steps, in order; root cause,
    confidence, severity and action plan are those of the ranker and
    the plan generator on these findings. *)
Theorem analyze_incident_survives_unreachable_source
    (self : IncidentAnalyzer.t) (symptoms : gmap string string) (now : Z)
    (a : Adapter) :
  unreachable a self ->
  exists d,
    analyze_incident self symptoms now = Ok d
    /\ Analysis.symptoms d = symptoms
    /\ AnalysisStep.step <$> Analysis.analysis_steps d
       = step_name <$> [KubernetesAdapter; MetricsAdapter; LogsAdapter; TracesAdapter]
    /\ Forall (fun s => AnalysisStep.status s = "completed") (Analysis.analysis_steps d)
    /\ (forall b, exists s,
          Analysis.analysis_steps d !! step_position b = Some s
          /\ run_adapter b self = Ok (AnalysisStep.findings s))
    /\ (exists s,
          Analysis.analysis_steps d !! step_position a = Some s
          /\ AnalysisStep.findings s = [])
    /\ (forall b self', b <> a -> same_client b self self' ->
          run_adapter b self' = run_adapter b self)
    /\ Analysis.findings d
       = concat (AnalysisStep.findings <$> Analysis.analysis_steps d)
    /\ _determine_root_cause (Analysis.findings d)
       = Ok (RootCause.mk (Analysis.root_cause d) (Analysis.confidence d)
               (Analysis.severity d))
    /\ Analysis.action_plan d
       = _generate_action_plan (Analysis.root_cause d) (Analysis.findings d).
Proof.
  intros Hdown.
  destruct (run_adapter_total KubernetesAdapter self) as [k Hk].
  destruct (run_adapter_total MetricsAdapter self) as [m Hm].
  destruct (run_adapter_total LogsAdapter self) as [l Hl].
  destruct (run_adapter_total TracesAdapter self) as [t Ht].
  destruct (rank_total ((((([] ++ k) ++ m) ++ l) ++ t))) as [[rc conf sev] Hr].
  pose proof (run_adapter_unreachable a self Hdown) as Ha.
  simpl in Hk, Hm, Hl, Ht.
  eexists. split.
  { unfold analyze_incident.
    rewrite Hk; cbn [mbind Exc_bind]. rewrite Hm; cbn [mbind Exc_bind].
    rewrite Hl; cbn [mbind Exc_bind]. rewrite Ht; cbn [mbind Exc_bind].
    rewrite Hr; cbn [mbind Exc_bind try_except]. reflexivity. }
  cbn [Analysis.symptoms Analysis.analysis_steps Analysis.findings
       Analysis.root_cause Analysis.confidence Analysis.severity
       Analysis.action_plan RootCause.root_cause RootCause.confidence
       RootCause.severity].
  split; [done|]. split; [done|].
  split; [by repeat constructor|].
  split; [intros []; eexists; (split; [reflexivity|]); simpl; assumption|].
  split.
  { destruct a; simpl in Ha; eexists; (split; [reflexivity|]); simpl; congruence. }
  split; [intros b self' _; apply run_adapter_own_client|].
  split; [simpl; by rewrite app_nil_r, !app_assoc|].
  split; [exact Hr|done].
Qed.

End FanOut.

(** With the trace source down, the example analysis still ranks the
    node that is not ready as the root cause. *)
Lemma analyze_incident_survives_unreachable_source_witness :
  unreachable TracesAdapter example_analyzer
  /\ exists d,
       @IncidentAnalyzer.analyze_incident example_format example_analyzer ∅ 0
       = Py.Ok d
       /\ Analysis.root_cause d = "Node node-1 is not ready"
       /\ length (Analysis.findings d) = 2%nat.
Proof.
  assert (Hdown : unreachable TracesAdapter example_analyzer)
    by (split; [exact I|intros service; exact I]).
  split; [exact Hdown|].
  destruct (@analyze_incident_survives_unreachable_source
              example_format example_analyzer ∅ 0 TracesAdapter Hdown)
    as (d & Hd & _).
  exists d. split; [exact Hd|].
  vm_compute in Hd. injection Hd as <-. split; reflexivity.
Defined.

(** ** Anomaly classification and the anomaly log *)

Section Classifier.
Import Py MetricsCollector.

(** One threshold check of [_detect_anomalies] is one row of the table. *)
Lemma check_is_emit (r : Rule.t) (key : string) (resource : option string)
    (o : option float) (now : Z) (acc : list Anomaly.t) :
  PrimFloat.ltb (Rule.limit r) 0%float = false ->
  (if PrimFloat.ltb (Rule.limit r) (default 0%float o) then
     value ← getitem key o;
     Ok (acc ++ [Anomaly.mk (Rule.type r) (Rule.severity r) resource
                   (Rule.metric r) value (Rule.threshold r) now])
   else Ok acc)
  = Ok (acc ++ emit r resource o now).
Proof.
  intros H0. destruct o as [v|]; simpl.
  - destruct (PrimFloat.ltb (Rule.limit r) v); [done|by rewrite app_nil_r].
  - rewrite H0. by rewrite app_nil_r.
Qed.

Lemma node_loop_is_emit (nodes : list (string * NodeMetrics.t)) (now : Z)
    (acc : list Anomaly.t) :
  for_exc nodes (fun anomalies '(node_name, metrics) =>
    anomalies ←
      (if PrimFloat.ltb 90%float
            (default 0%float (NodeMetrics.cpu_usage_percent metrics))
       then
         value ← getitem "cpu_usage_percent"
                   (NodeMetrics.cpu_usage_percent metrics);
         Ok (anomalies ++ [Anomaly.mk "high_node_cpu" "critical"
                             (Some ("node/" +:+ node_name))
                             "node_cpu_usage" value 90 now])
       else Ok anomalies);
    if PrimFloat.ltb 95%float
         (default 0%float (NodeMetrics.memory_usage_percent metrics))
    then
      value ← getitem "memory_usage_percent"
                (NodeMetrics.memory_usage_percent metrics);
      Ok (anomalies ++ [Anomaly.mk "high_node_memory" "critical"
                          (Some ("node/" +:+ node_name))
                          "node_memory_usage" value 95 now])
    else Ok anomalies) acc
  = Ok (acc ++ concat ((fun '(node_name, m) =>
                emit node_cpu_rule (Some ("node/" +:+ node_name))
                  (NodeMetrics.cpu_usage_percent m) now
                ++ emit node_memory_rule (Some ("node/" +:+ node_name))
                     (NodeMetrics.memory_usage_percent m) now) <$> nodes)).
Proof.
  revert acc. induction nodes as [|[node_name m] nodes IH]; intros acc.
  - simpl. by rewrite app_nil_r.
  - cbn [for_exc].
    rewrite (check_is_emit node_cpu_rule "cpu_usage_percent") by reflexivity.
    cbn [mbind Exc_bind].
    rewrite (check_is_emit node_memory_rule "memory_usage_percent") by reflexivity.
    cbn [mbind Exc_bind]. rewrite IH.
    rewrite fmap_cons. cbn [concat]. by rewrite !app_assoc.
Qed.

Lemma last_n_short {A} (n : nat) (l : list A) :
  (length l <= n)%nat -> last_n n l = l.
Proof.
  intros Hle. unfold last_n. by replace (length l - n)%nat with 0%nat by lia.
Qed.

(** The log after [_detect_anomalies]: the old log, then the anomalies
    of the classifier on the stored samples, cut to the last 100. *)
Lemma detect_anomalies_log (self : t) (now : Z) :
  _anomalies (_detect_anomalies self now)
  = last_n 100 (_anomalies self ++ classify (get_cluster self) (get_nodes self) now).
Proof.
  unfold _detect_anomalies.
  rewrite (check_is_emit cluster_cpu_rule "cpu_usage_percent") by reflexivity.
  cbn [mbind Exc_bind].
  rewrite (check_is_emit cluster_memory_rule "memory_usage_percent") by reflexivity.
  cbn [mbind Exc_bind].
  rewrite node_loop_is_emit. cbn [mbind Exc_bind].
  cbn [app]. rewrite <- app_assoc. fold (classify (get_cluster self) (get_nodes self) now).
  cbn [set_anomalies _anomalies]. case_bool_decide as Hlen; [done|].
  rewrite last_n_short; [done|]. unfold len in Hlen. lia.
Qed.

Lemma detect_anomalies_store (self : t) (now : Z) :
  _collected_metrics (_detect_anomalies self now) = _collected_metrics self
  /\ _is_running (_detect_anomalies self now) = _is_running self
  /\ _collection_task (_detect_anomalies self now) = _collection_task self.
Proof.
  unfold _detect_anomalies.
  rewrite (check_is_emit cluster_cpu_rule "cpu_usage_percent") by reflexivity.
  cbn [mbind Exc_bind].
  rewrite (check_is_emit cluster_memory_rule "memory_usage_percent") by reflexivity.
  cbn [mbind Exc_bind].
  rewrite node_loop_is_emit. cbn [mbind Exc_bind]. done.
Qed.

Lemma clean_old_metrics_log (self : t) (now : Z) :
  _anomalies (_clean_old_metrics self now) = _anomalies self.
Proof. done. Qed.

(** The log after a pass of [_collect_all_metrics]: the classifier runs
    on the samples of this pass. *)
Lemma collect_all_metrics_log (self : t) (tick : Tick.t) :
  _anomalies (_collect_all_metrics self tick)
  = last_n 100 (_anomalies self
                ++ classify (Tick.cluster_metrics tick) (Tick.node_metrics tick)
                     (Tick.detect_time tick)).
Proof.
  unfold _collect_all_metrics.
  rewrite clean_old_metrics_log, detect_anomalies_log. do 2 f_equal.
  unfold get_cluster, get_nodes. cbn [set_collected_metrics _collected_metrics].
  rewrite lookup_insert_ne by done. rewrite lookup_insert_ne by done.
  rewrite lookup_insert_eq. rewrite lookup_insert_ne by done.
  by rewrite lookup_insert_eq.
Qed.

(** C3: anomaly classification. What [_detect_anomalies] appends to the
    log is the list of the classifier on the stored samples: for each
    threshold check, one anomaly when the value is above the limit and
    none otherwise, with the fixed type, severity and threshold of its
    row (cluster cpu above 80: high_cluster_cpu, high, 80; cluster
    memory above 85: high_cluster_memory, high, 85; node cpu above 90:
    high_node_cpu, critical, 90; node memory above 95:
    high_node_memory, critical, 95), carrying the observed value. The
    list depends on the stored samples and the clock only, not on the
    log, and the call leaves the samples as they are, so a value that
    stays above its limit yields an anomaly at every call; in a pass
    of [_collect_all_metrics] the samples classified are those of the
    pass. *)
Theorem detect_anomalies_classifies (self : t) (now : Z) (tick : Tick.t) :
  let cluster := get_cluster self in
  let nodes := get_nodes self in
  _anomalies (_detect_anomalies self now)
    = last_n 100 (_anomalies self ++ classify cluster nodes now)
  /\ classify cluster nodes now
     = emit (Rule.mk "high_cluster_cpu" "high" "cluster_cpu_usage" 80%float 80)
         None (ClusterMetrics.cpu_usage_percent cluster) now
       ++ emit (Rule.mk "high_cluster_memory" "high" "cluster_memory_usage" 85%float 85)
            None (ClusterMetrics.memory_usage_percent cluster) now
       ++ concat ((fun '(node_name, m) =>
            emit (Rule.mk "high_node_cpu" "critical" "node_cpu_usage" 90%float 90)
              (Some ("node/" +:+ node_name)) (NodeMetrics.cpu_usage_percent m) now
            ++ emit (Rule.mk "high_node_memory" "critical" "node_memory_usage"
                       95%float 95)
                 (Some ("node/" +:+ node_name)) (NodeMetrics.memory_usage_percent m)
                 now) <$> nodes)
  /\ (forall r resource v t,
        emit r resource (Some v) t
        = if PrimFloat.ltb (Rule.limit r) v then
            [Anomaly.mk (Rule.type r) (Rule.severity r) resource (Rule.metric r)
               v (Rule.threshold r) t]
          else [])
  /\ (forall r resource t, emit r resource None t = [])
  /\ get_cluster (_detect_anomalies self now) = cluster
  /\ get_nodes (_detect_anomalies self now) = nodes
  /\ (forall now',
        _anomalies (_detect_anomalies (_detect_anomalies self now) now')
        = last_n 100 (_anomalies (_detect_anomalies self now)
                      ++ classify cluster nodes now'))
  /\ _anomalies (_collect_all_metrics self tick)
     = last_n 100 (_anomalies self
                   ++ classify (Tick.cluster_metrics tick) (Tick.node_metrics tick)
                        (Tick.detect_time tick)).
Proof.
  intros cluster nodes.
  destruct (detect_anomalies_store self now) as (Hstore & _ & _).
  assert (Hc : get_cluster (_detect_anomalies self now) = cluster)
    by (unfold cluster, get_cluster; by rewrite Hstore).
  assert (Hn : get_nodes (_detect_anomalies self now) = nodes)
    by (unfold nodes, get_nodes; by rewrite Hstore).
  split; [apply detect_anomalies_log|].
  split; [reflexivity|].
  split; [reflexivity|].
  split; [reflexivity|].
  split; [exact Hc|].
  split; [exact Hn|].
  split; [|apply collect_all_metrics_log].
  intros now'. by rewrite detect_anomalies_log, Hc, Hn.
Qed.

Lemma last_n_suffix {A} (n : nat) (l : list A) :
  l = take (length l - n) l ++ last_n n l
  /\ length (last_n n l) = Nat.min n (length l).
Proof.
  unfold last_n. split; [by rewrite take_drop|].
  rewrite length_drop. lia.
Qed.

(** C5: the anomaly log is bounded and evicts first-in-first-out. After
    [_detect_anomalies], and after a whole pass of
    [_collect_all_metrics], the log has at most 100 entries, and it is
    a suffix of the old log followed by the new anomalies: what is
    evicted is a prefix of that sequence, the oldest entries, as many
    as exceed 100, and the retained entries keep their order. *)
Theorem anomaly_log_bounded_fifo (self : t) (now : Z) (tick : Tick.t) :
  let appended := _anomalies self ++ classify (get_cluster self) (get_nodes self) now in
  let log := _anomalies (_detect_anomalies self now) in
  let evicted := take (length appended - 100) appended in
  (length log <= 100)%nat
  /\ appended = evicted ++ log
  /\ length evicted = (length appended - 100)%nat
  /\ ((length appended <= 100)%nat -> log = appended)
  /\ (length (_anomalies (_collect_all_metrics self tick)) <= 100)%nat
  /\ (exists new, _anomalies self ++ new
        = take (length (_anomalies self ++ new) - 100) (_anomalies self ++ new)
          ++ _anomalies (_collect_all_metrics self tick)).
Proof.
  intros appended log evicted. subst log evicted.
  rewrite detect_anomalies_log. fold appended.
  destruct (last_n_suffix 100 appended) as [Hsplit Hlen].
  split; [lia|]. split; [exact Hsplit|].
  split; [rewrite length_take; lia|].
  split; [apply last_n_short|].
  rewrite collect_all_metrics_log.
  match goal with |- context [last_n 100 ?l] =>
    destruct (last_n_suffix 100 l) as [Hsplit' Hlen'] end.
  split; [lia|]. eexists. exact Hsplit'.
Qed.
End Classifier.

(** ** The collected-metrics store *)

Section Store.
Import Py MetricsCollector.

(** The loop of [_clean_old_metrics] over distinct keys of the store:
    what it leaves was there before, and a visited key that is left
    holds an entry not older than the cutoff. *)
Lemma clean_loop (cutoff : Z) (keys : list string) (m : gmap string Entry.t) :
  NoDup keys -> (forall k, k ∈ keys -> is_Some (m !! k)) ->
  forall k e,
    try_pass (for_in keys (fun metric_type collected =>
      match collected !! metric_type with
      | None => (collected, Some (KeyError metric_type))
      | Some entry =>
          (if bool_decide (Entry.timestamp entry < cutoff)
           then delete metric_type collected
           else collected, None)
      end)) m !! k = Some e ->
    m !! k = Some e /\ (k ∈ keys -> cutoff <= Entry.timestamp e).
Proof.
  unfold try_pass. revert m.
  induction keys as [|k0 keys IH]; intros m Hnd Hin k e; cbn [for_in].
  - simpl. intros Hk. split; [done|]. intros Hin'. by apply elem_of_nil in Hin'.
  - apply NoDup_cons in Hnd as [Hk0 Hnd].
    destruct (Hin k0) as [e0 He0]; [by left|]. rewrite He0.
    case_bool_decide as Hstale.
    + intros Hk. apply IH in Hk as [Hk Hok]; [| done |].
      * apply lookup_delete_Some in Hk as [Hne Hk]. split; [done|].
        intros [->|Hk']%elem_of_cons; [done|by apply Hok].
      * intros k' Hk'. rewrite lookup_delete_ne; [|by intros ->].
        apply Hin. by right.
    + intros Hk. apply IH in Hk as [Hk Hok]; [| done |].
      * split; [done|].
        intros [->|Hk']%elem_of_cons; [|by apply Hok].
        rewrite He0 in Hk. injection Hk as <-. lia.
      * intros k' Hk'. apply Hin. by right.
Qed.

Lemma clean_old_metrics_spec (self : t) (now : Z) (k : string) (e : Entry.t) :
  _collected_metrics (_clean_old_metrics self now) !! k = Some e ->
  _collected_metrics self !! k = Some e /\ now - hours 6 <= Entry.timestamp e.
Proof.
  unfold _clean_old_metrics. cbn [set_collected_metrics _collected_metrics].
  intros Hk. apply clean_loop in Hk as [Hk Hok].
  - split; [done|]. apply Hok.
    apply list_elem_of_fmap. exists (k, e). split; [done|].
    by apply elem_of_map_to_list.
  - apply NoDup_fst_map_to_list.
  - intros k' [[k'' e'] [-> Hin]]%list_elem_of_fmap.
    apply elem_of_map_to_list in Hin. by eexists.
Qed.

Lemma collect_all_metrics_dom (self : t) (tick : Tick.t) :
  dom (_collected_metrics (_collect_all_metrics self tick))
  ⊆ metric_types ∪ dom (_collected_metrics self).
Proof.
  intros k [e Hk]%elem_of_dom. unfold _collect_all_metrics in Hk.
  apply clean_old_metrics_spec in Hk as [Hk _].
  match type of Hk with
  | _collected_metrics (_detect_anomalies ?s ?t) !! _ = _ =>
      destruct (detect_anomalies_store s t) as (Hstore & _ & _)
  end.
  rewrite Hstore in Hk. cbn [set_collected_metrics _collected_metrics] in Hk.
  unfold metric_types.
  apply lookup_insert_Some in Hk as [[<- _]|[_ Hk]]; [set_solver|].
  apply lookup_insert_Some in Hk as [[<- _]|[_ Hk]]; [set_solver|].
  apply lookup_insert_Some in Hk as [[<- _]|[_ Hk]]; [set_solver|].
  apply elem_of_union_r, elem_of_dom. by eexists.
Qed.

Lemma run_dom (ticks : list Tick.t) :
  dom (_collected_metrics (run ticks __init__)) ⊆ metric_types.
Proof.
  unfold run. induction ticks as [|tick ticks IH] using rev_ind.
  - simpl. set_solver.
  - rewrite foldl_app. simpl.
    etrans; [apply collect_all_metrics_dom|].
    apply union_least; [done|exact IH].
Qed.

(** C6: the store after any sequence of passes. Every entry left by a
    pass of [_collect_all_metrics] has a timestamp not older than 6
    hours before the clock reading of the cleaning step of that pass,
    and starting from the empty store of [__init__] the store never
    holds more than 3 entries, the keys being among "cluster", "nodes"
    and "pods". *)
Theorem collected_metrics_within_horizon (ticks : list Tick.t) (tick : Tick.t) :
  let self := _collect_all_metrics (run ticks __init__) tick in
  (forall key entry,
     _collected_metrics self !! key = Some entry ->
     Tick.clean_time tick - 6 * 3600 * 1000000 <= Entry.timestamp entry)
  /\ dom (_collected_metrics self) ⊆ metric_types
  /\ (size (_collected_metrics self) <= 3)%nat.
Proof.
  intros self.
  assert (Hdom : dom (_collected_metrics self) ⊆ metric_types).
  { subst self. etrans; [apply collect_all_metrics_dom|].
    apply union_least; [done|apply run_dom]. }
  split; [|split; [exact Hdom|]].
  - intros key entry Hk. subst self. unfold _collect_all_metrics in Hk.
    apply clean_old_metrics_spec in Hk as [_ Hok]. exact Hok.
  - rewrite <- size_dom. apply subseteq_size in Hdom.
    etrans; [exact Hdom|]. by vm_compute.
Qed.
End Store.

(** ** The summary query *)

Section SummaryQuery.
Import Py MetricsCollector.

Lemma summary_score (self : t) (utcnow : nat -> Z) :
  let cluster := get_cluster self in
  Summary.cluster_health_score (get_metrics_summary self utcnow)
  = health_score
      (default 0%float (ClusterMetrics.cpu_usage_percent cluster))
      (default 0%float (ClusterMetrics.memory_usage_percent cluster))
      (default 0 (ClusterMetrics.ready_nodes cluster))
      (default 1 (ClusterMetrics.total_nodes cluster)).
Proof.
  intros cluster. unfold get_metrics_summary, health_score.
  cbn [Summary.cluster_health_score]. fold cluster.
  destruct (PrimFloat.ltb 80%float _), (PrimFloat.ltb 85%float _);
    case_bool_decide; lia.
Qed.

(** C7: the health score of the summary. It starts at 100, loses 20
    when the cluster CPU percentage is above 80, 20 when the cluster
    memory percentage is above 85 and 30 when fewer nodes are ready than
    there are, and is clamped to the range from 0 to 100; a missing
    value reads as CPU 0, memory 0, ready nodes 0, total nodes 1. With
    CPU 85, memory 70 and 3 of 3 nodes ready the score is 80. *)
Theorem health_score_derivation (self : t) (utcnow : nat -> Z) :
  let cluster := get_cluster self in
  let cpu := default 0%float (ClusterMetrics.cpu_usage_percent cluster) in
  let mem := default 0%float (ClusterMetrics.memory_usage_percent cluster) in
  let ready := default 0 (ClusterMetrics.ready_nodes cluster) in
  let total := default 1 (ClusterMetrics.total_nodes cluster) in
  let score := Summary.cluster_health_score (get_metrics_summary self utcnow) in
  score
    = Z.max 0 (Z.min 100
        (100 - (if PrimFloat.ltb 80%float cpu then 20 else 0)
             - (if PrimFloat.ltb 85%float mem then 20 else 0)
             - (if bool_decide (ready < total) then 30 else 0)))
  /\ 0 <= score <= 100
  /\ (ClusterMetrics.cpu_usage_percent cluster = Some 85%float ->
      ClusterMetrics.memory_usage_percent cluster = Some 70%float ->
      ClusterMetrics.ready_nodes cluster = Some 3 ->
      ClusterMetrics.total_nodes cluster = Some 3 ->
      score = 80)
  /\ Summary.cluster_health_score (get_metrics_summary example_collector utcnow) = 80.
Proof.
  intros cluster cpu mem ready total score.
  assert (Hscore : score = health_score cpu mem ready total)
    by apply summary_score.
  split; [exact Hscore|].
  split; [rewrite Hscore; unfold health_score; lia|].
  split; [|reflexivity].
  intros Hcpu Hmem Hready Htotal. rewrite Hscore.
  subst cpu mem ready total. rewrite Hcpu, Hmem, Hready, Htotal. reflexivity.
Qed.

(** C10: with an empty store, as left by [__init__] before the first
    pass, the summary reports a health score of 70: the defaults 0 for
    the ready nodes and 1 for the total trigger the deduction of 30. *)
Theorem health_score_of_empty_store (self : t) (utcnow : nat -> Z) :
  _collected_metrics self = ∅ ->
  Summary.cluster_health_score (get_metrics_summary self utcnow) = 70
  /\ ClusterMetrics.ready_nodes (get_cluster self) = None
  /\ ClusterMetrics.total_nodes (get_cluster self) = None.
Proof.
  intros Hempty. rewrite summary_score.
  unfold get_cluster. rewrite Hempty, lookup_empty. by split.
Qed.

Lemma health_score_of_empty_store_witness :
  _collected_metrics __init__ = ∅
  /\ Summary.cluster_health_score (get_metrics_summary __init__ (fun _ => 0)) = 70.
Proof.
  split; [reflexivity|].
  apply (health_score_of_empty_store __init__ (fun _ => 0)). reflexivity.
Defined.

Lemma recent_anomalies_ext (u1 u2 : nat -> Z) (l : list Anomaly.t) :
  (forall k, u1 k = u2 k) ->
  imap (fun i a => (a, u1 (1 + i)%nat)) l = imap (fun i a => (a, u2 (1 + i)%nat)) l.
Proof. intros Heq. apply imap_ext. intros i a _. by rewrite Heq. Qed.

(** An anomaly that a later clock still counts is counted by an
    earlier clock. *)
Lemma recent_anomalies_antitone (l : list Anomaly.t) (g1 g2 : nat -> Z) :
  (forall i, g1 i <= g2 i) ->
  Py.len (filter (fun '(a, now) => now - minutes 30 < Anomaly.timestamp a)
            (imap (fun i a => (a, g2 i)) l))
  <= Py.len (filter (fun '(a, now) => now - minutes 30 < Anomaly.timestamp a)
               (imap (fun i a => (a, g1 i)) l)).
Proof.
  unfold Py.len. revert g1 g2. induction l as [|a l IH]; intros g1 g2 Hle; [done|].
  rewrite !imap_cons, !filter_cons.
  specialize (IH (g1 ∘ S) (g2 ∘ S) (fun i => Hle (S i))).
  pose proof (Hle 0%nat).
  unfold compose in *. cbv beta in *.
  repeat case_decide; cbn [length]; lia.
Qed.

(** C8, as the code has it: two calls of the summary on one state
    return the same health score, cluster metrics, node count and pod
    count whatever the clock reads. The other fields are computed from
    the clock readings of the call: when the clock reads the same at
    both calls the two summaries are equal in every field, and when it
    reads later at the second call the second count of recent
    anomalies is at most the first. The call takes the state as it is
    and returns no new state. *)
Theorem summary_repeatable_up_to_clock (self : t) (u1 u2 : nat -> Z) :
  let s1 := get_metrics_summary self u1 in
  let s2 := get_metrics_summary self u2 in
  Summary.cluster_health_score s1 = Summary.cluster_health_score s2
  /\ Summary.cluster_metrics s1 = Summary.cluster_metrics s2
  /\ Summary.node_count s1 = Summary.node_count s2
  /\ Summary.pod_count s1 = Summary.pod_count s2
  /\ ((forall k, u1 k = u2 k) -> s1 = s2)
  /\ ((forall k, u1 k <= u2 k) ->
      Summary.recent_anomalies s2 <= Summary.recent_anomalies s1).
Proof.
  intros s1 s2. split; [done|]. split; [done|]. split; [done|]. split; [done|].
  split.
  - intros Heq. subst s1 s2. unfold get_metrics_summary.
    by rewrite (recent_anomalies_ext u1 u2 _ Heq), !Heq.
  - intros Hle. subst s1 s2. unfold get_metrics_summary.
    cbn [Summary.recent_anomalies].
    exact (recent_anomalies_antitone (_anomalies self)
             (fun i => u1 (1 + i)%nat) (fun i => u2 (1 + i)%nat)
             (fun i => Hle (1 + i)%nat)).
Qed.

(** C8, as stated, fails: on the state one pass leaves, a call 29
    minutes after the pass counts its two anomalies and reports an age
    of 29 minutes, a call 31 minutes after the pass, with no pass in
    between, counts none and reports 31 minutes. *)
Lemma summary_not_idempotent :
  get_metrics_summary example_sampled (fun _ => example_now + minutes 29)
  <> get_metrics_summary example_sampled (fun _ => example_now + minutes 31)
  /\ Summary.recent_anomalies
       (get_metrics_summary example_sampled (fun _ => example_now + minutes 29)) = 2
  /\ Summary.recent_anomalies
       (get_metrics_summary example_sampled (fun _ => example_now + minutes 31)) = 0
  /\ Summary.metrics_age_minutes
       (get_metrics_summary example_sampled (fun _ => example_now + minutes 29))
     = Py.Float 29%float
  /\ Summary.metrics_age_minutes
       (get_metrics_summary example_sampled (fun _ => example_now + minutes 31))
     = Py.Float 31%float.
Proof.
  split; [|repeat split; vm_compute; reflexivity].
  intros Heq. apply (f_equal Summary.recent_anomalies) in Heq.
  vm_compute in Heq. discriminate.
Qed.
End SummaryQuery.

(** ** Sampler lifecycle *)

Section Lifecycle.
Import MetricsCollector.


(** While [stop] waits the flag is down, so no task makes a pass: the
    collector stays as it is, the awaited task ends cancelled and the
    others settle. *)
Lemma run_until_done_stopped (task : nat) (woken : nat -> bool)
    (tick : nat -> Tick.t) (self : t) (loop : Asyncio.Loop) (i : nat) :
  _is_running self = false ->
  run_until_done task woken tick self i loop
  = (self, imap (fun j s => if decide ((i + j)%nat = task) then Asyncio.Cancelled
                            else settle woken (i + j)%nat s) loop).
Proof.
  intros Hflag. revert i. induction loop as [|s loop IH]; intros i; [done|].
  cbn [run_until_done]. rewrite imap_cons.
  assert (Hs : resume task woken tick self i s
               = (self, if decide (i = task) then Asyncio.Cancelled
                        else settle woken i s)).
  { unfold resume, _collect_metrics_loop. rewrite Hflag.
    destruct (decide (i = task)); [done|]. destruct s; simpl; [done| |done|done].
    by destruct (woken i). }
  rewrite Hs, IH. rewrite Nat.add_0_r. do 2 f_equal.
  apply imap_ext. intros j x _. unfold compose.
  by replace (S i + j)%nat with (i + S j)%nat by lia.
Qed.

(** [stop], call by call. *)
Lemma stop_eq (self : t) (loop : Asyncio.Loop) (woken : nat -> bool)
    (tick : nat -> Tick.t) :
  stop self loop woken tick
  = (mk false (_collection_task self) (_collected_metrics self) (_anomalies self),
     match _collection_task self with
     | Some task =>
         match loop !! task with
         | Some s => if Asyncio.done s then loop else stopped task woken loop
         | None => loop
         end
     | None => loop
     end).
Proof.
  unfold stop. cbn [_collection_task].
  destruct (_collection_task self) as [task|]; [|done].
  destruct (loop !! task) as [s|]; [|done].
  destruct (Asyncio.done s); [done|].
  by rewrite run_until_done_stopped.
Qed.



End Lifecycle.

(** ** The adapters, one by one *)

Section KubernetesAdapterFacts.
Import Py IncidentAnalyzer.

Lemma foldl_extends {A B} (f : list B -> A -> list B) :
  (forall acc x, exists t, f acc x = acc ++ t) ->
  forall l acc, exists t, foldl f acc l = acc ++ t.
Proof.
  intros Hf. induction l as [|x l IH]; intros acc; simpl.
  - exists []. by rewrite app_nil_r.
  - destruct (Hf acc x) as [t1 ->]. destruct (IH (acc ++ t1)) as [t2 ->].
    exists (t1 ++ t2). by rewrite app_assoc.
Qed.

Lemma foldl_skips {A B} (f : list B -> A -> list B) (P : A -> Prop) :
  (forall acc x, P x -> f acc x = acc) ->
  forall l acc, Forall P l -> foldl f acc l = acc.
Proof.
  intros Hf. induction l as [|x l IH]; intros acc Hl; simpl; [done|].
  apply Forall_cons in Hl as [Hx Hl]. rewrite (Hf _ _ Hx). by apply IH.
Qed.

(** When all three calls succeed, the findings start with the finding
    of the first node that is not ready. *)
Lemma kubernetes_first_not_ready (self : t) pre n post pods events :
  KubernetesClient.get_nodes (k8s_client self) = Ok (pre ++ n :: post) ->
  Forall (fun node => KubernetesClient.Node.status node = "Ready") pre ->
  KubernetesClient.Node.status n <> "Ready" ->
  KubernetesClient.get_pods (k8s_client self) = Ok pods ->
  KubernetesClient.get_events (k8s_client self) = Ok events ->
  exists rest, _analyze_kubernetes_state self = Ok (node_not_ready_finding n :: rest).
Proof.
  intros Hnodes Hpre Hn Hpods Hevents. unfold _analyze_kubernetes_state.
  rewrite Hnodes; cbn [mbind Exc_bind]. rewrite Hpods; cbn [mbind Exc_bind].
  rewrite Hevents; cbn [mbind Exc_bind try_except].
  rewrite foldl_app.
  match goal with |- context [foldl ?f [] pre] =>
    replace (foldl f [] pre) with (@nil Finding.t)
      by (symmetry;
          apply (foldl_skips f
                   (fun node => KubernetesClient.Node.status node = "Ready"));
          [intros acc x Hx; cbv beta; destruct (decide _) as [Hne|];
             [by destruct Hne|done]
          |exact Hpre])
  end.
  cbn [foldl].
  destruct (decide (KubernetesClient.Node.status n ≠ "Ready")) as [_|Hn']; [|done].
  fold (node_not_ready_finding n). cbn [app].
  match goal with |- context [foldl ?f [node_not_ready_finding n] post] =>
    destruct (foldl_extends f) with (l := post) (acc := [node_not_ready_finding n])
      as [t1 ->] end.
  { intros acc x. destruct (decide _); [by eexists|]. exists []. by rewrite app_nil_r. }
  match goal with |- context [foldl ?f ([node_not_ready_finding n] ++ t1) pods] =>
    destruct (foldl_extends f) with (l := pods) (acc := [node_not_ready_finding n] ++ t1)
      as [t2 ->] end.
  { intros acc x. destruct (decide _); [by eexists|].
    case_bool_decide; [by eexists|]. exists []. by rewrite app_nil_r. }
  match goal with |- context [foldl ?f ?a (take 10 ?evs)] =>
    destruct (foldl_extends f) with (l := take 10 evs) (acc := a) as [t3 ->] end.
  { intros acc x. by eexists. }
  eexists. rewrite <- !app_assoc. cbn [app]. reflexivity.
Qed.

(** X1. The Kubernetes adapter is all or nothing: when any one of its
    three calls raises, it returns no finding at all, also when an
    earlier call had listed a node that is not ready. *)
Theorem kubernetes_adapter_all_or_nothing (self : t) :
  is_raise (KubernetesClient.get_nodes (k8s_client self))
  \/ is_raise (KubernetesClient.get_pods (k8s_client self))
  \/ is_raise (KubernetesClient.get_events (k8s_client self)) ->
  _analyze_kubernetes_state self = Ok [].
Proof.
  unfold _analyze_kubernetes_state.
  destruct (KubernetesClient.get_nodes (k8s_client self)) as [nodes|e1];
    [|done]; cbn [mbind Exc_bind].
  destruct (KubernetesClient.get_pods (k8s_client self)) as [pods|e2];
    [|done]; cbn [mbind Exc_bind].
  destruct (KubernetesClient.get_events (k8s_client self)) as [events|e3];
    [|done]. simpl. intros [[]|[[]|[]]].
Qed.

Lemma kubernetes_adapter_all_or_nothing_witness :
  KubernetesClient.get_nodes (k8s_client example_analyzer_pods_down)
    = Ok [KubernetesClient.Node.mk "node-1" "NotReady"]
  /\ _analyze_kubernetes_state example_analyzer_pods_down = Ok [].
Proof.
  split; [reflexivity|].
  apply (kubernetes_adapter_all_or_nothing example_analyzer_pods_down).
  right. left. exact I.
Defined.
End KubernetesAdapterFacts.

(** ** The analysis as a whole *)

Section WholeAnalysis.
Import Py IncidentAnalyzer.
Context `{PyFormat}.

(** The result of [analyze_incident] from the results of its parts. *)
Lemma analyze_incident_eq (self : IncidentAnalyzer.t) symptoms now k m l t rc :
  _analyze_kubernetes_state self = Ok k ->
  _analyze_metrics self = Ok m ->
  _analyze_logs self = Ok l ->
  _analyze_traces self = Ok t ->
  _determine_root_cause (k ++ m ++ l ++ t) = Ok rc ->
  analyze_incident self symptoms now
  = Ok (Analysis.mk symptoms now
          [AnalysisStep.mk "kubernetes_analysis" "completed" k;
           AnalysisStep.mk "metrics_analysis" "completed" m;
           AnalysisStep.mk "logs_analysis" "completed" l;
           AnalysisStep.mk "traces_analysis" "completed" t]
          (k ++ m ++ l ++ t)
          (RootCause.root_cause rc) (RootCause.confidence rc) (RootCause.severity rc)
          (_generate_action_plan (RootCause.root_cause rc) (k ++ m ++ l ++ t))).
Proof.
  intros Hk Hm Hl Ht Hr. unfold analyze_incident.
  rewrite Hk; cbn [mbind Exc_bind]. rewrite Hm; cbn [mbind Exc_bind].
  rewrite Hl; cbn [mbind Exc_bind]. rewrite Ht; cbn [mbind Exc_bind].
  cbn [app]. rewrite <- !app_assoc.
  rewrite Hr; cbn [mbind Exc_bind try_except]. reflexivity.
Qed.

(** What the ranker can return, read backwards from its result. *)
Lemma rank_inv (findings : list Finding.t) (r : RootCause.t) :
  _determine_root_cause findings = Ok r ->
  (findings = [] /\ r = RootCause.mk "No issues detected" 1.0%float INFO)
  \/ (exists f, f ∈ findings /\ Finding.severity f = CRITICAL
        /\ r = RootCause.mk (Finding.description f) 0.9%float CRITICAL)
  \/ (Forall (is_not CRITICAL) findings
        /\ exists f, f ∈ findings /\ Finding.severity f = HIGH
             /\ r = RootCause.mk (Finding.description f) 0.7%float HIGH)
  \/ (Forall (is_not CRITICAL) findings /\ Forall (is_not HIGH) findings
        /\ exists f rest, findings = f :: rest
             /\ r = RootCause.mk (Finding.description f) 0.5%float MEDIUM).
Proof.
  unfold _determine_root_cause. destruct findings as [|f0 rest].
  { intros [= <-]. by left. }
  destruct (filter (fun f => Finding.severity f = CRITICAL) (f0 :: rest))
    as [|c cs] eqn:Hc.
  - destruct (filter (fun f => Finding.severity f = HIGH) (f0 :: rest))
      as [|h hs] eqn:Hh.
    + intros [= <-]. right. right. right.
      split; [|split; [|by eexists _, _]].
      * apply Forall_forall. intros f Hf Hsev.
        assert (Hin : f ∈ filter (fun f => Finding.severity f = CRITICAL) (f0 :: rest))
          by (by apply list_elem_of_filter).
        rewrite Hc in Hin. by apply elem_of_nil in Hin.
      * apply Forall_forall. intros f Hf Hsev.
        assert (Hin : f ∈ filter (fun f => Finding.severity f = HIGH) (f0 :: rest))
          by (by apply list_elem_of_filter).
        rewrite Hh in Hin. by apply elem_of_nil in Hin.
    + intros [= <-]. right. right. left. split.
      * apply Forall_forall. intros f Hf Hsev.
        assert (Hin : f ∈ filter (fun f => Finding.severity f = CRITICAL) (f0 :: rest))
          by (by apply list_elem_of_filter).
        rewrite Hc in Hin. by apply elem_of_nil in Hin.
      * assert (Hin : h ∈ filter (fun f => Finding.severity f = HIGH) (f0 :: rest))
          by (rewrite Hh; by left).
        apply list_elem_of_filter in Hin as [Hsev Hin]. by exists h.
  - intros [= <-]. right. left.
    assert (Hin : c ∈ filter (fun f => Finding.severity f = CRITICAL) (f0 :: rest))
      by (rewrite Hc; by left).
    apply list_elem_of_filter in Hin as [Hsev Hin]. by exists c.
Qed.

(** X2. [analyze_incident] never raises, whatever its four clients do,
    so its own [except ... raise] is never taken. The diagnosis
    holds the given symptoms and clock reading, four steps all marked
    completed, and as findings the findings of the steps in order. Its
    severity is info exactly when there is no finding, it is critical
    exactly when some finding is critical, and it is never low. *)
Theorem analyze_incident_never_raises (self : IncidentAnalyzer.t)
    (symptoms : gmap string string) (now : Z) :
  exists d,
    analyze_incident self symptoms now = Ok d
    /\ Analysis.symptoms d = symptoms
    /\ Analysis.timestamp d = now
    /\ length (Analysis.analysis_steps d) = 4%nat
    /\ Forall (fun s => AnalysisStep.status s = "completed") (Analysis.analysis_steps d)
    /\ Analysis.findings d
       = concat (AnalysisStep.findings <$> Analysis.analysis_steps d)
    /\ (Analysis.severity d = INFO <-> Analysis.findings d = [])
    /\ (Analysis.severity d = CRITICAL
        <-> exists f, f ∈ Analysis.findings d /\ Finding.severity f = CRITICAL)
    /\ Analysis.severity d <> LOW.
Proof.
  destruct (run_adapter_total KubernetesAdapter self) as [k Hk].
  destruct (run_adapter_total MetricsAdapter self) as [m Hm].
  destruct (run_adapter_total LogsAdapter self) as [l Hl].
  destruct (run_adapter_total TracesAdapter self) as [t Ht].
  simpl in Hk, Hm, Hl, Ht.
  destruct (rank_total (k ++ m ++ l ++ t)) as [rc Hr].
  eexists. split; [by apply analyze_incident_eq|].
  cbn [Analysis.symptoms Analysis.timestamp Analysis.analysis_steps
       Analysis.findings Analysis.severity].
  split; [done|]. split; [done|]. split; [done|].
  split; [by repeat constructor|].
  split; [simpl; by rewrite app_nil_r|].
  apply rank_inv in Hr
    as [[-> ->]|[(f & Hf & Hsev & ->)|[(Hnc & f & Hf & Hsev & ->)
                                      |(Hnc & Hnh & f & rest & Heq & ->)]]];
    cbn [RootCause.severity].
  - split; [done|]. split; [|done].
    split; [done|]. intros (f & Hf & _). by apply elem_of_nil in Hf.
  - split; [|split; [|done]].
    + split; [done|]. intros Hnil. rewrite Hnil in Hf. by apply elem_of_nil in Hf.
    + split; [|done]. intros _. by exists f.
  - split; [|split; [|done]].
    + split; [done|]. intros Hnil. rewrite Hnil in Hf. by apply elem_of_nil in Hf.
    + split; [done|]. intros (g & Hg & Hsev'). exfalso.
      by apply (proj1 (Forall_forall _ _) Hnc g Hg).
  - rewrite Heq in Hnc |- *. split; [|split; [|done]].
    + split; done.
    + split; [done|]. intros (g & Hg & Hsev'). exfalso.
      by apply (proj1 (Forall_forall _ _) Hnc g Hg).
Qed.

(** X3. A node that is not ready decides the diagnosis: when the three
    Kubernetes calls succeed and some node is not ready, the root cause
    is "Node <name> is not ready" for the first such node, with
    confidence 0.9 and severity critical, whatever the metrics, log
    and trace sources report or fail to report. *)
Theorem not_ready_node_is_root_cause (self : IncidentAnalyzer.t)
    (symptoms : gmap string string) (now : Z) pre n post pods events :
  KubernetesClient.get_nodes (k8s_client self) = Ok (pre ++ n :: post) ->
  Forall (fun node => KubernetesClient.Node.status node = "Ready") pre ->
  KubernetesClient.Node.status n <> "Ready" ->
  KubernetesClient.get_pods (k8s_client self) = Ok pods ->
  KubernetesClient.get_events (k8s_client self) = Ok events ->
  exists d,
    analyze_incident self symptoms now = Ok d
    /\ Analysis.root_cause d
       = "Node " +:+ KubernetesClient.Node.name n +:+ " is not ready"
    /\ Analysis.confidence d = 0.9%float
    /\ Analysis.severity d = CRITICAL.
Proof.
  intros Hnodes Hpre Hn Hpods Hevents.
  destruct (kubernetes_first_not_ready self pre n post pods events
              Hnodes Hpre Hn Hpods Hevents) as [rest Hk].
  destruct (run_adapter_total MetricsAdapter self) as [m Hm].
  destruct (run_adapter_total LogsAdapter self) as [l Hl].
  destruct (run_adapter_total TracesAdapter self) as [t Ht].
  simpl in Hm, Hl, Ht.
  eexists. split.
  { eapply analyze_incident_eq; [exact Hk|exact Hm|exact Hl|exact Ht|].
    apply (rank_critical [] (node_not_ready_finding n)); by constructor. }
  done.
Qed.

(** X4. Silence reads as health: when none of the four sources can be
    reached, the diagnosis is the one of a healthy system, root cause
    "No issues detected" with confidence 1.0 and severity info, no
    finding, and the plan of the three fixed steps, 25 minutes. *)
Theorem all_sources_down_reads_as_healthy (self : IncidentAnalyzer.t)
    (symptoms : gmap string string) (now : Z) :
  (forall a, unreachable a self) ->
  exists d,
    analyze_incident self symptoms now = Ok d
    /\ Analysis.findings d = []
    /\ Analysis.root_cause d = "No issues detected"
    /\ Analysis.confidence d = 1.0%float
    /\ Analysis.severity d = INFO
    /\ Plan.steps (Analysis.action_plan d) = opening_steps ++ [closing_step 3]
    /\ Plan.estimated_total_duration (Analysis.action_plan d) = 25.
Proof.
  intros Hdown.
  pose proof (run_adapter_unreachable _ _ (Hdown KubernetesAdapter)) as Hk.
  pose proof (run_adapter_unreachable _ _ (Hdown MetricsAdapter)) as Hm.
  pose proof (run_adapter_unreachable _ _ (Hdown LogsAdapter)) as Hl.
  pose proof (run_adapter_unreachable _ _ (Hdown TracesAdapter)) as Ht.
  simpl in Hk, Hm, Hl, Ht.
  eexists. split.
  { eapply analyze_incident_eq; [exact Hk|exact Hm|exact Hl|exact Ht|].
    reflexivity. }
  done.
Qed.
End WholeAnalysis.

Lemma not_ready_node_is_root_cause_witness :
  exists d,
    @IncidentAnalyzer.analyze_incident example_format
      example_analyzer_node_and_alert ∅ 0 = Py.Ok d
    /\ Analysis.root_cause d = "Node node-2 is not ready"
    /\ Analysis.confidence d = 0.9%float
    /\ Analysis.severity d = CRITICAL.
Proof.
  apply (@not_ready_node_is_root_cause example_format
           example_analyzer_node_and_alert ∅ 0
           [KubernetesClient.Node.mk "node-1" "Ready"]
           (KubernetesClient.Node.mk "node-2" "NotReady") [] [] []).
  - reflexivity.
  - by repeat constructor.
  - discriminate.
  - reflexivity.
  - reflexivity.
Defined.

Lemma all_sources_down_reads_as_healthy_witness :
  (forall a, unreachable a example_analyzer_all_down)
  /\ exists d,
       @IncidentAnalyzer.analyze_incident example_format
         example_analyzer_all_down ∅ 0 = Py.Ok d
       /\ Analysis.root_cause d = "No issues detected".
Proof.
  assert (Hdown : forall a, unreachable a example_analyzer_all_down).
  { intros []; simpl; repeat split; try exact I. }
  split; [exact Hdown|].
  destruct (@all_sources_down_reads_as_healthy example_format
              example_analyzer_all_down ∅ 0 Hdown) as (d & Hd & _ & Hrc & _).
  by exists d.
Defined.

(** ** The metrics adapter *)

Section MetricsAdapterFacts.
Import Py IncidentAnalyzer.
Context `{PyFormat}.

Lemma map_alert_severity_ok (s : string) :
  exists severity, _map_alert_severity (Some s) = Ok severity.
Proof. by eexists. Qed.

Lemma alert_loop (firing : list PrometheusClient.Alert.t) (alerts : list Finding.t) :
  (for_in firing (fun alert alerts =>
     match _map_alert_severity (PrometheusClient.Alert.severity alert) with
     | Raise e => (alerts, Some e)
     | Ok severity =>
         (alerts ++ [Finding.mk "prometheus_alert" severity
            (PrometheusClient.Alert.instance alert)
            ("Alert " +:+ str (PrometheusClient.Alert.name alert) +:+ " is firing")
            None
            ["Review alert rules and thresholds";
             "Check related metrics for root cause";
             "Verify resource utilization"]], None)
     end) alerts).1
  = alerts ++ alert_findings firing.
Proof.
  revert alerts. induction firing as [|alert firing IH]; intros alerts.
  - simpl. by rewrite app_nil_r.
  - cbn [for_in alert_findings].
    destruct (PrometheusClient.Alert.severity alert) as [s|].
    + destruct (map_alert_severity_ok s) as [severity Hs]. rewrite Hs.
      rewrite IH. fold (alert_finding alert severity).
      by rewrite <- app_assoc.
    + simpl. by rewrite app_nil_r.
Qed.

Lemma sample_loop (metric_type : string)
    (metric_data : list PrometheusClient.Sample.t) (alerts : list Finding.t) :
  foldl (fun alerts metric =>
           let value := default 0%float (PrometheusClient.Sample.value metric) in
           if PrimFloat.ltb 80%float value then
             alerts ++ [Finding.mk ("high_" +:+ metric_type) HIGH
               (Some (default "unknown" (PrometheusClient.Sample.instance metric)))
               ("High " +:+ metric_type +:+ ": " +:+ format_1f value +:+ "%")
               None
               ["Consider scaling resources";
                "Check for resource leaks";
                "Review resource requests/limits"]]
           else alerts) alerts metric_data
  = alerts ++ concat (sample_findings metric_type <$> metric_data).
Proof.
  revert alerts. induction metric_data as [|metric metric_data IH]; intros alerts.
  - simpl. by rewrite app_nil_r.
  - cbn [foldl]. rewrite IH. rewrite fmap_cons. cbn [concat].
    unfold sample_findings at 2. cbv zeta.
    destruct (PrimFloat.ltb 80%float _); [by rewrite <- app_assoc|done].
Qed.

Lemma analyze_metrics_eq (self : IncidentAnalyzer.t) :
  _analyze_metrics self
  = Ok (match PrometheusClient.check_alerts (prometheus_client self) with
        | Ok firing_alerts => alert_findings firing_alerts
        | Raise _ => []
        end
        ++ match PrometheusClient.get_cluster_metrics (prometheus_client self) with
           | Ok node_metrics => node_metric_findings node_metrics
           | Raise _ => []
           end).
Proof.
  unfold _analyze_metrics, try_pass. cbn [try_except].
  destruct (PrometheusClient.check_alerts (prometheus_client self))
    as [firing|e1].
  - rewrite alert_loop. cbn [app].
    destruct (PrometheusClient.get_cluster_metrics (prometheus_client self))
      as [nm|e2]; cbn [fst]; [|by rewrite app_nil_r].
    unfold node_metric_findings, PrometheusClient.NodeMetrics.items.
    cbn [foldl fmap list_fmap concat]. rewrite !sample_loop.
    by rewrite app_nil_r, <- !app_assoc.
  - cbn [fst app].
    destruct (PrometheusClient.get_cluster_metrics (prometheus_client self))
      as [nm|e2]; cbn [fst]; [|done].
    unfold node_metric_findings, PrometheusClient.NodeMetrics.items.
    cbn [foldl fmap list_fmap concat]. rewrite !sample_loop.
    by rewrite app_nil_r, <- !app_assoc.
Qed.

(** X5. The two halves of the metrics adapter fail apart. Its findings
    are the findings for the firing alerts, none when [check_alerts]
    raises, followed by the findings for the node metrics above 80,
    none when [get_cluster_metrics] raises; neither failure removes
    what the other half found, and the adapter itself never raises. *)
Theorem analyze_metrics_halves (self : IncidentAnalyzer.t) :
  (exists findings, _analyze_metrics self = Ok findings)
  /\ (forall firing_alerts e,
        PrometheusClient.check_alerts (prometheus_client self) = Ok firing_alerts ->
        PrometheusClient.get_cluster_metrics (prometheus_client self) = Raise e ->
        _analyze_metrics self = Ok (alert_findings firing_alerts))
  /\ (forall node_metrics e,
        PrometheusClient.check_alerts (prometheus_client self) = Raise e ->
        PrometheusClient.get_cluster_metrics (prometheus_client self) = Ok node_metrics ->
        _analyze_metrics self = Ok (node_metric_findings node_metrics))
  /\ (forall firing_alerts node_metrics,
        PrometheusClient.check_alerts (prometheus_client self) = Ok firing_alerts ->
        PrometheusClient.get_cluster_metrics (prometheus_client self) = Ok node_metrics ->
        _analyze_metrics self
        = Ok (alert_findings firing_alerts ++ node_metric_findings node_metrics)).
Proof.
  rewrite analyze_metrics_eq. split; [by eexists|].
  split; [|split].
  - intros firing e -> ->. by rewrite app_nil_r.
  - by intros nm e -> ->.
  - by intros firing nm -> ->.
Qed.

Lemma alert_findings_labelled (alerts : list PrometheusClient.Alert.t) :
  Forall (fun a => is_Some (PrometheusClient.Alert.severity a)) alerts ->
  length (alert_findings alerts) = length alerts.
Proof.
  induction 1 as [|a alerts [s Hs] _ IH]; [done|].
  cbn [alert_findings]. rewrite Hs.
  destruct (map_alert_severity_ok s) as [severity ->]. simpl. by rewrite IH.
Qed.

Lemma alert_findings_cut pre a post :
  Forall (fun a => is_Some (PrometheusClient.Alert.severity a)) pre ->
  PrometheusClient.Alert.severity a = None ->
  alert_findings (pre ++ a :: post) = alert_findings pre.
Proof.
  intros Hpre Ha. induction Hpre as [|b pre [s Hs] _ IH].
  - simpl. by rewrite Ha.
  - cbn [app alert_findings]. rewrite Hs.
    destruct (map_alert_severity_ok s) as [severity ->]. by rewrite IH.
Qed.

(** X6. A firing alert without a severity label hides itself and every
    alert listed after it: mapping its severity raises inside the loop,
    which keeps the findings for the alerts before it, one each, and
    drops the rest; the node-metric half still runs. *)
Theorem unlabelled_alert_cuts_the_list (self : IncidentAnalyzer.t) pre a post :
  PrometheusClient.check_alerts (prometheus_client self) = Ok (pre ++ a :: post) ->
  Forall (fun a => is_Some (PrometheusClient.Alert.severity a)) pre ->
  PrometheusClient.Alert.severity a = None ->
  exists rest,
    _analyze_metrics self = Ok (alert_findings pre ++ rest)
    /\ length (alert_findings pre) = length pre
    /\ rest = match PrometheusClient.get_cluster_metrics (prometheus_client self) with
              | Ok node_metrics => node_metric_findings node_metrics
              | Raise _ => []
              end.
Proof.
  intros Hfiring Hpre Ha. eexists. split; [|split; [|reflexivity]].
  - rewrite analyze_metrics_eq, Hfiring.
    by rewrite (alert_findings_cut pre a post Hpre Ha).
  - by apply alert_findings_labelled.
Qed.

(** [_map_alert_severity] maps a label to critical exactly when it
    reads "critical" in any letter case, to low exactly when it reads
    "info", and to medium otherwise, so an alert is never ranked high
    or info; on a missing label it raises. *)
Lemma map_alert_severity_cases (s : string) :
  exists severity,
    _map_alert_severity (Some s) = Ok severity
    /\ (severity = CRITICAL <-> lower s = "critical")
    /\ (severity = LOW <-> lower s = "info")
    /\ (severity = MEDIUM <-> lower s <> "critical" /\ lower s <> "info")
    /\ severity <> HIGH /\ severity <> INFO
    /\ is_raise (_map_alert_severity None).
Proof.
  unfold _map_alert_severity. eexists. split; [reflexivity|].
  destruct (decide (lower s = "critical")) as [Hc|Hc].
  { rewrite Hc. vm_compute. repeat split; try done. by intros []. }
  destruct (decide (lower s = "warning")) as [Hw|Hw].
  { rewrite Hw. vm_compute. repeat split; try done. }
  destruct (decide (lower s = "info")) as [Hi|Hi].
  { rewrite Hi. vm_compute. repeat split; try done. by intros []. }
  rewrite lookup_insert_ne by done. rewrite lookup_insert_ne by done.
  rewrite lookup_insert_ne by done. rewrite lookup_empty. simpl.
  repeat split; done.
Qed.
End MetricsAdapterFacts.

Lemma unlabelled_alert_cuts_the_list_witness :
  exists rest,
    @IncidentAnalyzer._analyze_metrics example_format example_analyzer_unlabelled_alert
    = Py.Ok (alert_findings (take 1 example_alerts) ++ rest)
    /\ length (alert_findings (take 1 example_alerts)) = 1%nat
    /\ rest = [].
Proof.
  destruct (@unlabelled_alert_cuts_the_list example_format
              example_analyzer_unlabelled_alert
              (take 1 example_alerts)
              (PrometheusClient.Alert.mk (Some "NoLabel") None (Some "b:9100"))
              (drop 2 example_alerts)) as (rest & Hr & Hlen & Hrest).
  - reflexivity.
  - repeat constructor. by eexists.
  - reflexivity.
  - exists rest. split; [exact Hr|split; [exact Hlen|exact Hrest]].
Defined.

(** ** The log adapter *)

Section LogsAdapterFacts.
Import Py IncidentAnalyzer.

Lemma group_append_keys s e (d : list (string * list LokiClient.LogEntry.t)) :
  (group_append s e d).*1 = d.*1 ++ (if decide (s ∈ d.*1) then [] else [s]).
Proof.
  induction d as [|[k v] d IH]; cbn [group_append].
  - destruct (decide (s ∈ ([] : list (string * list LokiClient.LogEntry.t)).*1))
      as [Hin|_]; [by apply elem_of_nil in Hin|done].
  - destruct (decide (k = s)) as [->|Hne]; rewrite !fmap_cons; cbn [fst].
    + destruct (decide (s ∈ s :: d.*1)) as [_|Hnin]; [by rewrite app_nil_r|].
      exfalso. apply Hnin. by left.
    + rewrite IH. cbn [app]. f_equal.
      destruct (decide (s ∈ d.*1)) as [Hin|Hnin];
        destruct (decide (s ∈ k :: d.*1)) as [Hin'|Hnin']; try done.
      * exfalso. apply Hnin'. by right.
      * apply elem_of_cons in Hin' as [?|?]; congruence.
Qed.

Lemma group_append_get s e s' (d : list (string * list LokiClient.LogEntry.t)) :
  alist_get s' (group_append s e d)
  = if decide (s' = s) then Some (default [] (alist_get s d) ++ [e])
    else alist_get s' d.
Proof.
  induction d as [|[k v] d IH]; simpl.
  - destruct (decide (s = s')) as [->|Hne].
    + by rewrite decide_True.
    + rewrite decide_False; [done|congruence].
  - destruct (decide (k = s)) as [->|Hne]; simpl.
    + destruct (decide (s = s')) as [->|Hne'].
      * by rewrite decide_True.
      * rewrite decide_False; [done|congruence].
    + destruct (decide (k = s')) as [->|Hne'].
      * rewrite decide_False; [done|congruence].
      * exact IH.
Qed.

Lemma alist_get_elem {V} (d : list (string * V)) s v :
  NoDup d.*1 -> (s, v) ∈ d <-> alist_get s d = Some v.
Proof.
  induction d as [|[k w] d IH]; simpl; intros Hnd.
  - split; [by intros ?%elem_of_nil|done].
  - apply NoDup_cons in Hnd as [Hk Hnd]. destruct (decide (k = s)) as [->|Hne].
    + split.
      * intros [[= ->]|Hin]%elem_of_cons; [done|].
        exfalso. apply Hk. apply list_elem_of_fmap. by exists (s, v).
      * intros [= ->]. by left.
    + rewrite <- (IH Hnd). split.
      * intros [[= -> ->]|Hin]%elem_of_cons; [done|done].
      * intros Hin. by right.
Qed.

(** The dict [errors_by_service] after the grouping loop. *)
Lemma grouping_loop (errors : list LokiClient.LogEntry.t) :
  let d := foldl (fun d error => group_append (log_job error) error d) [] errors in
  NoDup d.*1
  /\ (forall s, alist_get s d
        = match filter (fun e => log_job e = s) errors with
          | [] => None
          | es => Some es
          end)
  /\ foldr Nat.add 0%nat (length <$> d.*2) = length errors.
Proof.
  induction errors as [|e errors IH] using rev_ind.
  - simpl. split; [constructor|]. by split.
  - destruct IH as (Hnd & Hget & Hsum). cbv zeta. rewrite foldl_app. cbn [foldl].
    set (d := foldl (fun d error => group_append (log_job error) error d) [] errors)
      in *.
    split; [|split].
    + rewrite group_append_keys. destruct (decide (log_job e ∈ d.*1)) as [Hin|Hnin].
      * by rewrite app_nil_r.
      * apply NoDup_app. split; [done|]. split; [|apply NoDup_singleton].
        intros x Hx ->%list_elem_of_singleton. done.
    + intros s. rewrite group_append_get, filter_app.
      destruct (decide (s = log_job e)) as [->|Hne].
      * rewrite filter_cons_True by done. rewrite Hget. simpl.
        by destruct (filter _ errors).
      * rewrite filter_cons_False by (by intros ?). simpl.
        by rewrite app_nil_r, Hget.
    + rewrite length_app. simpl. rewrite <- Hsum. clear.
      induction d as [|[k v] d IH]; [done|]. cbn [group_append].
      destruct (decide (k = log_job e)); rewrite !fmap_cons; cbn [foldr snd].
      * rewrite length_app. cbn [length]. lia.
      * rewrite IH. lia.
Qed.

Lemma log_findings_loop (groups : list (string * list LokiClient.LogEntry.t))
    (acc : list Finding.t) :
  foldl (fun error_patterns '(service, service_errors) =>
           let error_count := length service_errors in
           error_patterns ++ [Finding.mk "application_errors"
             (if bool_decide (10 < error_count)%nat then HIGH else MEDIUM)
             (Some ("service/" +:+ service))
             ("Found " +:+ pretty error_count +:+ " errors in " +:+ service)
             (Some (LokiClient.LogEntry.message <$> take 3 service_errors))
             ["Review application logs for root cause";
              "Check recent deployments or changes";
              "Verify dependencies and connections"]]) acc groups
  = acc ++ (log_finding <$> groups).
Proof.
  revert acc. induction groups as [|[s es] groups IH]; intros acc; simpl.
  - by rewrite app_nil_r.
  - rewrite IH. by rewrite <- app_assoc.
Qed.

(** X7. The log adapter reports each service once. When the error
    search succeeds, its findings are one per distinct [job] label of
    the error lines ("unknown" when the label is missing): the lines of
    a finding are all lines of that service in their order, never
    none; the severity is high when they are more than 10 and medium
    otherwise; at most 3 sample messages are kept; and the counts of
    the findings add up to the number of error lines. *)
Theorem analyze_logs_groups_by_service (self : IncidentAnalyzer.t)
    (errors : list LokiClient.LogEntry.t) :
  LokiClient.search_errors (loki_client self) = Ok errors ->
  exists groups : list (string * list LokiClient.LogEntry.t),
    _analyze_logs self = Ok (log_finding <$> groups)
    /\ NoDup groups.*1
    /\ (forall s es,
          (s, es) ∈ groups
          <-> es <> [] /\ es = filter (fun e => log_job e = s) errors)
    /\ foldr Nat.add 0%nat (length <$> groups.*2) = length errors
    /\ (forall g, g ∈ groups ->
          (Finding.severity (log_finding g) = HIGH <-> (10 < length g.2)%nat)
          /\ (Finding.severity (log_finding g) = MEDIUM <-> (length g.2 <= 10)%nat)
          /\ Finding.sample_messages (log_finding g)
             = Some (LokiClient.LogEntry.message <$> take 3 g.2)).
Proof.
  intros Herrors.
  destruct (grouping_loop errors) as (Hnd & Hget & Hsum). cbv zeta in *.
  set (d := foldl (fun d error => group_append (log_job error) error d) [] errors)
    in *.
  exists d. split; [|split; [exact Hnd|split; [|split; [exact Hsum|]]]].
  - unfold _analyze_logs. rewrite Herrors. cbn [mbind Exc_bind try_except].
    destruct errors as [|e0 errors']; [done|].
    fold (log_job e0). rewrite log_findings_loop. done.
  - intros s es. rewrite (alist_get_elem d s es Hnd), Hget.
    destruct (filter _ errors) as [|x xs]; split.
    + done.
    + by intros [Hne ->].
    + intros [= <-]. done.
    + by intros [_ ->].
  - intros g _. unfold log_finding. cbn [Finding.severity Finding.sample_messages].
    case_bool_decide; repeat split; try done; lia.
Qed.
End LogsAdapterFacts.

Lemma analyze_logs_groups_by_service_witness :
  LokiClient.search_errors (IncidentAnalyzer.loki_client example_analyzer_logs)
    = Py.Ok example_errors
  /\ exists groups : list (string * list LokiClient.LogEntry.t),
       IncidentAnalyzer._analyze_logs example_analyzer_logs
         = Py.Ok (log_finding <$> groups)
       /\ NoDup groups.*1
       /\ foldr Nat.add 0%nat (length <$> groups.*2) = 3%nat.
Proof.
  split; [reflexivity|].
  destruct (analyze_logs_groups_by_service example_analyzer_logs example_errors
              eq_refl) as (groups & Hlogs & Hnd & _ & Hsum & _).
  exists groups. split; [exact Hlogs|split; [exact Hnd|exact Hsum]].
Defined.

(** ** The trace adapter *)

Section TracesAdapterFacts.
Import Py IncidentAnalyzer.
Context `{PyFormat}.

Lemma trace_step (self : IncidentAnalyzer.t) (service : string)
    (performance_issues : list Finding.t) :
  try_pass (fun performance_issues =>
    match JaegerClient.analyze_latency (jaeger_client self) service with
    | Raise e => (performance_issues, Some e)
    | Ok latency_analysis =>
        let error_rate :=
          match latency_analysis with
          | JaegerClient.Stats r _ => r
          | JaegerClient.NoTraces => 0%float
          end in
        let performance_issues :=
          if PrimFloat.ltb 0.1%float error_rate then
            performance_issues ++ [Finding.mk "high_error_rate" HIGH
              (Some ("service/" +:+ service))
              ("High error rate: " +:+ format_1pct error_rate)
              None
              ["Investigate failing requests";
               "Check service dependencies";
               "Review recent changes"]]
          else performance_issues in
        match latency_analysis with
        | JaegerClient.NoTraces =>
            (performance_issues, Some (KeyError "latency_metrics"))
        | JaegerClient.Stats _ p95 =>
            (if bool_decide (1000000 < p95) then
               performance_issues ++ [Finding.mk "high_latency" MEDIUM
                 (Some ("service/" +:+ service))
                 ("High p95 latency: " +:+ format_0f p95 +:+ "Î¼s")
                 None
                 ["Optimize database queries";
                  "Review external API calls";
                  "Check resource utilization"]]
             else performance_issues, None)
        end
    end) performance_issues
  = performance_issues
    ++ trace_findings service (JaegerClient.analyze_latency (jaeger_client self) service).
Proof.
  unfold try_pass, trace_findings.
  destruct (JaegerClient.analyze_latency (jaeger_client self) service)
    as [[|error_rate p95]|e]; cbn [fst].
  - by rewrite app_nil_r.
  - destruct (PrimFloat.ltb 0.1%float error_rate); case_bool_decide; cbn [fst app];
      by rewrite <- ?app_assoc, ?app_nil_r.
  - by rewrite app_nil_r.
Qed.

(** The loop of [_analyze_traces] over the services. *)
Lemma trace_loop (self : IncidentAnalyzer.t) (l : list string)
    (acc : list Finding.t) :
  foldl (fun performance_issues service =>
  try_pass (fun performance_issues =>
    match JaegerClient.analyze_latency (jaeger_client self) service with
    | Raise e => (performance_issues, Some e)
    | Ok latency_analysis =>
        let error_rate :=
          match latency_analysis with
          | JaegerClient.Stats r _ => r
          | JaegerClient.NoTraces => 0%float
          end in
        let performance_issues :=
          if PrimFloat.ltb 0.1%float error_rate then
            performance_issues ++ [Finding.mk "high_error_rate" HIGH
              (Some ("service/" +:+ service))
              ("High error rate: " +:+ format_1pct error_rate)
              None
              ["Investigate failing requests";
               "Check service dependencies";
               "Review recent changes"]]
          else performance_issues in
        match latency_analysis with
        | JaegerClient.NoTraces =>
            (performance_issues, Some (KeyError "latency_metrics"))
        | JaegerClient.Stats _ p95 =>
            (if bool_decide (1000000 < p95) then
               performance_issues ++ [Finding.mk "high_latency" MEDIUM
                 (Some ("service/" +:+ service))
                 ("High p95 latency: " +:+ format_0f p95 +:+ "Î¼s")
                 None
                 ["Optimize database queries";
                  "Review external API calls";
                  "Check resource utilization"]]
             else performance_issues, None)
        end
    end) performance_issues)
    acc l
  = acc ++ concat ((fun service =>
             trace_findings service
               (JaegerClient.analyze_latency (jaeger_client self) service)) <$> l).
Proof.
  revert acc. induction l as [|service l IH]; intros acc.
  - simpl. by rewrite app_nil_r.
  - match goal with |- context [foldl ?f acc (service :: l)] =>
      change (foldl f acc (service :: l)) with (foldl f (f acc service) l)
    end.
    cbv beta. rewrite trace_step. rewrite IH.
    rewrite fmap_cons. cbn [concat]. by rewrite <- app_assoc.
Qed.

Lemma trace_findings_length service outcome :
  (length (trace_findings service outcome) <= 2)%nat.
Proof.
  unfold trace_findings. destruct outcome as [[|error_rate p95]|e]; simpl; [lia| |lia].
  destruct (PrimFloat.ltb 0.1%float error_rate); case_bool_decide; simpl; lia.
Qed.

(** X8. The trace adapter looks at the first 5 services only and takes
    them one by one. When the service list can be fetched, its findings
    are, service after service, the findings of that service's latency
    analysis: a service whose analysis raises or reports no traces
    yields nothing and does not disturb the services around it. A
    service yields at most 2 findings, the adapter at most 10, and
    services after the fifth are never analysed. *)
Theorem analyze_traces_per_service (self : IncidentAnalyzer.t)
    (services : list string) :
  JaegerClient.get_services (jaeger_client self) = Ok services ->
  let per_service service :=
    trace_findings service (JaegerClient.analyze_latency (jaeger_client self) service) in
  _analyze_traces self = Ok (concat (per_service <$> take 5 services))
  /\ (forall service,
        is_raise (JaegerClient.analyze_latency (jaeger_client self) service)
        \/ JaegerClient.analyze_latency (jaeger_client self) service
           = Ok JaegerClient.NoTraces ->
        per_service service = [])
  /\ (forall service, length (per_service service) <= 2)%nat
  /\ (length (concat (per_service <$> take 5 services)) <= 10)%nat.
Proof.
  intros Hservices per_service. split; [|split; [|split]].
  - unfold _analyze_traces. rewrite Hservices.
    exact (f_equal Ok (trace_loop self (take 5 services) [])).
  - intros service [Hraise| Hnone]; unfold per_service.
    + by destruct (JaegerClient.analyze_latency _ service).
    + by rewrite Hnone.
  - intros service. apply trace_findings_length.
  - assert (Hlen : forall l : list string,
               (length (concat (per_service <$> l)) <= 2 * length l)%nat).
    { induction l as [|s l IH]; [simpl; lia|].
      rewrite fmap_cons. cbn [concat length]. rewrite length_app.
      pose proof (trace_findings_length s
                    (JaegerClient.analyze_latency (jaeger_client self) s)).
      unfold per_service at 1. lia. }
    specialize (Hlen (take 5 services)). rewrite length_take in Hlen. lia.
Qed.
End TracesAdapterFacts.

Lemma analyze_traces_per_service_witness :
  exists findings,
    @IncidentAnalyzer._analyze_traces example_format example_analyzer_traces
      = Py.Ok findings
    /\ Finding.resource <$> findings
       = [Some "service/s1"; Some "service/s4"; Some "service/s5"].
Proof.
  destruct (@analyze_traces_per_service example_format example_analyzer_traces
              ["s1"; "s2"; "s3"; "s4"; "s5"; "s6"; "s7"] eq_refl) as (Htraces & _).
  eexists. split; [exact Htraces|]. reflexivity.
Defined.

(** ** More on the action plan *)

Section ActionPlanFacts.
Import Py IncidentAnalyzer.

Lemma plan_steps (root_cause : string) (findings : list Finding.t) :
  Plan.steps (_generate_action_plan root_cause findings)
  = opening_steps ++ imap (finding_step 3) (finding_actions findings)
    ++ [closing_step (3 + Z.of_nat (length (finding_actions findings)))].
Proof.
  unfold _generate_action_plan. cbn [Plan.steps].
  rewrite append_findings. fold (finding_actions findings).
  cbn [app]. unfold opening_steps. cbn [app]. do 2 f_equal.
  change (len [_; _] + 1) with 3. f_equal.
  unfold closing_step, len. do 2 f_equal.
  cbn [length]. rewrite length_imap. lia.
Qed.

Lemma foldr_add_shift (l : list Z) (k : Z) :
  foldr Z.add k l = foldr Z.add 0 l + k.
Proof. induction l as [|x l IH]; simpl; [lia|]. rewrite IH. lia. Qed.

(** X9. The steps of a plan are numbered 1, 2, 3, ... without gap, and
    [total_steps] is their number, between 3 and 9; the estimated
    duration is between 25 and 115 minutes; findings after the third
    have no influence on the plan; and when none of the first three
    findings suggests an action the plan is the three fixed steps. *)
Theorem action_plan_numbering (root_cause : string) (findings : list Finding.t) :
  let plan := _generate_action_plan root_cause findings in
  (forall i s, Plan.steps plan !! i = Some s -> Step.step s = Z.of_nat i + 1)
  /\ Plan.total_steps plan = Z.of_nat (length (Plan.steps plan))
  /\ 3 <= Plan.total_steps plan <= 9
  /\ 25 <= Plan.estimated_total_duration plan <= 115
  /\ plan = _generate_action_plan root_cause (take 3 findings)
  /\ (Forall (fun f => Finding.suggested_actions f = []) (take 3 findings) ->
      Plan.steps plan = opening_steps ++ [closing_step 3]).
Proof.
  intros plan.
  pose proof (plan_steps root_cause findings) as Hsteps. fold plan in Hsteps.
  pose proof (finding_actions_length findings) as Hlen.
  set (derived := finding_actions findings) in *.
  split; [|split; [|split; [|split; [|split]]]].
  - intros i s. rewrite Hsteps. unfold opening_steps.
    destruct i as [|[|i]]; [by intros [= <-]|by intros [= <-]|].
    cbn [app lookup list_lookup]. intros Hs.
    apply lookup_app_Some in Hs as [Hs|[Hge Hs]].
    + rewrite list_lookup_imap in Hs.
      destruct (derived !! i); simpl in Hs; [|done]. injection Hs as <-.
      unfold finding_step. cbn [Step.step]. lia.
    + rewrite length_imap in Hge, Hs.
      destruct (i - length derived)%nat as [|k] eqn:Hk; [|by destruct k].
      injection Hs as <-. unfold closing_step. cbn [Step.step]. lia.
  - done.
  - change (Plan.total_steps plan) with (len (Plan.steps plan)).
    unfold len. rewrite Hsteps, !length_app, length_imap. simpl. lia.
  - change (Plan.estimated_total_duration plan)
      with (foldr Z.add 0 (Step.estimated_duration <$> Plan.steps plan)).
    rewrite Hsteps. unfold opening_steps.
    rewrite !fmap_app, !foldr_app. simpl.
    rewrite foldr_add_shift, duration_finding_steps. fold derived. lia.
  - subst plan. unfold _generate_action_plan. by rewrite take_take.
  - intros Hnone. rewrite Hsteps. subst derived. unfold finding_actions.
    assert (Hnil : concat ((fun f => (fun a => (a, Finding.type f))
                              <$> take 2 (Finding.suggested_actions f))
                           <$> take 3 findings) = []).
    { induction Hnone as [|f fs Hf _ IH]; [done|].
      rewrite fmap_cons. cbn [concat]. by rewrite Hf, IH. }
    by rewrite Hnil.
Qed.
End ActionPlanFacts.

(** ** The anomaly query *)

Section AnomalyQuery.
Import Py MetricsCollector.

Lemma get_anomalies_in_range (self : t) (last_hours now : Z) :
  -999999999 <= last_hours / 24 <= 999999999 ->
  datetime_min <= now - hours last_hours <= datetime_max ->
  get_anomalies self last_hours now
  = filter (fun a => now - hours last_hours <= Anomaly.timestamp a) (_anomalies self).
Proof.
  intros Hdelta Hcut. unfold get_anomalies, timedelta_hours, datetime_sub.
  rewrite bool_decide_true by done. cbn [mbind Exc_bind].
  by rewrite bool_decide_true by done.
Qed.

(** X10. [get_anomalies] returns the anomalies of the window. When the
    number of hours makes a [timedelta] and the start of the window is
    a [datetime], the result holds exactly the anomalies of the log
    whose timestamp is at or after [now] minus the hours, in the order
    of the log, so it is never longer than the log, and a longer window
    returns at least what a shorter one returns. *)
Theorem get_anomalies_window (self : t) (last_hours now : Z) :
  -999999999 <= last_hours / 24 <= 999999999 ->
  datetime_min <= now - hours last_hours <= datetime_max ->
  let result := get_anomalies self last_hours now in
  (forall a, a ∈ result
     <-> a ∈ _anomalies self /\ now - last_hours * 3600000000 <= Anomaly.timestamp a)
  /\ result `sublist_of` _anomalies self
  /\ (length result <= length (_anomalies self))%nat
  /\ (forall shorter,
        shorter <= last_hours ->
        get_anomalies self shorter now `sublist_of` result).
Proof.
  intros Hdelta Hcut result. subst result.
  rewrite get_anomalies_in_range by done.
  split; [|split; [|split]].
  - intros a. rewrite list_elem_of_filter. unfold hours. split.
    + intros [Hts Hin]. split; [done|lia].
    + intros [Hin Hts]. split; [lia|done].
  - apply sublist_filter.
  - apply length_filter.
  - intros shorter Hle. unfold get_anomalies, timedelta_hours, datetime_sub.
    case_bool_decide; cbn [mbind Exc_bind]; [|apply sublist_nil_l].
    case_bool_decide; [|apply sublist_nil_l]. cbn [mbind Exc_bind].
    induction (_anomalies self) as [|a l IH]; [done|].
    rewrite !filter_cons. unfold hours in *.
    destruct (decide (now - shorter * 3600 * 1000000 <= Anomaly.timestamp a));
      destruct (decide (now - last_hours * 3600 * 1000000 <= Anomaly.timestamp a));
      try done; try (by constructor); lia.
Qed.

Lemma get_anomalies_window_witness :
  length (get_anomalies example_collector_with_anomaly 24 example_now) = 1%nat
  /\ get_anomalies example_collector_with_anomaly 0 example_now
     `sublist_of` get_anomalies example_collector_with_anomaly 24 example_now.
Proof.
  assert (Hd : -999999999 <= 24 / 24 <= 999999999) by (vm_compute; split; discriminate).
  assert (Hc : datetime_min <= example_now - hours 24 <= datetime_max)
    by (vm_compute; split; discriminate).
  destruct (get_anomalies_window example_collector_with_anomaly 24 example_now Hd Hc)
    as (_ & _ & _ & Hmono).
  split; [reflexivity|]. apply Hmono. lia.
Defined.

(** X11. A window that starts before the year 1 returns nothing: the
    subtraction of the hours from the clock reading raises, the
    handler returns the empty list, and so a request for more hours
    than the calendar holds gets no anomaly instead of all of them. *)
Theorem get_anomalies_overflow (self : t) (last_hours now : Z) :
  now - hours last_hours < datetime_min \/ 999999999 < last_hours / 24 ->
  get_anomalies self last_hours now = [].
Proof.
  intros Hover. unfold get_anomalies, timedelta_hours, datetime_sub.
  case_bool_decide as Hd; cbn [mbind Exc_bind]; [|done].
  rewrite bool_decide_false; [done|]. unfold hours in *. lia.
Qed.

Lemma get_anomalies_overflow_witness :
  _anomalies example_collector_with_anomaly <> []
  /\ get_anomalies example_collector_with_anomaly 20000000 example_now = [].
Proof.
  split; [discriminate|].
  apply (get_anomalies_overflow example_collector_with_anomaly 20000000 example_now).
  left. vm_compute. reflexivity.
Defined.
End AnomalyQuery.

(** ** The store holds the last pass only *)

Section LastPass.
Import Py MetricsCollector.

(** The loop of [_clean_old_metrics] keeps every entry that is not
    older than the cutoff. *)
Lemma clean_loop_keeps (cutoff : Z) (keys : list string) (m : gmap string Entry.t) :
  NoDup keys -> (forall k, k ∈ keys -> is_Some (m !! k)) ->
  forall k e,
    m !! k = Some e -> cutoff <= Entry.timestamp e ->
    try_pass (for_in keys (fun metric_type collected =>
      match collected !! metric_type with
      | None => (collected, Some (KeyError metric_type))
      | Some entry =>
          (if bool_decide (Entry.timestamp entry < cutoff)
           then delete metric_type collected
           else collected, None)
      end)) m !! k = Some e.
Proof.
  unfold try_pass. revert m.
  induction keys as [|k0 keys IH]; intros m Hnd Hin k e Hk Hfresh; cbn [for_in].
  - done.
  - apply NoDup_cons in Hnd as [Hk0 Hnd].
    destruct (Hin k0) as [e0 He0]; [by left|]. rewrite He0.
    case_bool_decide as Hstale.
    + apply IH; [done| | |done].
      * intros k' Hk'. rewrite lookup_delete_ne; [|by intros ->].
        apply Hin. by right.
      * rewrite lookup_delete_ne; [done|]. intros ->.
        rewrite He0 in Hk. injection Hk as ->. lia.
    + apply IH; [done| |done|done]. intros k' Hk'. apply Hin. by right.
Qed.

Lemma clean_old_metrics_lookup (self : t) (now : Z) (k : string) :
  _collected_metrics (_clean_old_metrics self now) !! k
  = match _collected_metrics self !! k with
    | Some e => if bool_decide (now - hours 6 <= Entry.timestamp e) then Some e else None
    | None => None
    end.
Proof.
  destruct (_collected_metrics (_clean_old_metrics self now) !! k) as [e|] eqn:Hk.
  - apply clean_old_metrics_spec in Hk as [-> Hfresh].
    by rewrite bool_decide_true.
  - destruct (_collected_metrics self !! k) as [e|] eqn:Hm; [|done].
    case_bool_decide as Hfresh; [|done].
    rewrite <- Hk. unfold _clean_old_metrics.
    cbn [set_collected_metrics _collected_metrics].
    apply clean_loop_keeps; [apply NoDup_fst_map_to_list| |done|done].
    intros k' [[k'' e'] [-> Hin]]%list_elem_of_fmap.
    apply elem_of_map_to_list in Hin. by eexists.
Qed.

Lemma collect_all_metrics_store (ticks : list Tick.t) (tick : Tick.t) :
  _collected_metrics (_collect_all_metrics (run ticks __init__) tick)
  = if bool_decide (Tick.clean_time tick - 6 * 3600 * 1000000 <= Tick.timestamp tick)
    then fresh_store tick
    else ∅.
Proof.
  pose proof (run_dom ticks) as Hdom.
  set (self := run ticks __init__) in *.
  apply map_eq. intros k. unfold _collect_all_metrics.
  rewrite clean_old_metrics_lookup.
  match goal with |- context [_collected_metrics (_detect_anomalies ?s ?t)] =>
    destruct (detect_anomalies_store s t) as (-> & _ & _) end.
  cbn [set_collected_metrics _collected_metrics].
  change (Tick.clean_time tick - hours 6)
    with (Tick.clean_time tick - 6 * 3600 * 1000000).
  assert (Hother : k <> "cluster" -> k <> "nodes" -> k <> "pods" ->
            _collected_metrics self !! k = None).
  { intros H1 H2 H3. apply not_elem_of_dom. intros Hin. apply Hdom in Hin.
    unfold metric_types in Hin.
    rewrite !elem_of_union, !elem_of_singleton in Hin.
    destruct Hin as [[Hin|Hin]|Hin]; congruence. }
  unfold fresh_store.
  destruct (decide (k = "pods")) as [->|Hp].
  { rewrite lookup_insert_eq. cbn [Entry.timestamp].
    case_bool_decide; [by rewrite lookup_insert_eq|by rewrite lookup_empty]. }
  rewrite lookup_insert_ne by done.
  destruct (decide (k = "nodes")) as [->|Hn].
  { rewrite lookup_insert_eq. cbn [Entry.timestamp].
    case_bool_decide; [|by rewrite lookup_empty].
    rewrite lookup_insert_ne by done. by rewrite lookup_insert_eq. }
  rewrite lookup_insert_ne by done.
  destruct (decide (k = "cluster")) as [->|Hc].
  { rewrite lookup_insert_eq. cbn [Entry.timestamp].
    case_bool_decide; [|by rewrite lookup_empty].
    rewrite lookup_insert_ne by done. rewrite lookup_insert_ne by done.
    by rewrite lookup_insert_eq. }
  rewrite lookup_insert_ne by done. rewrite Hother by done.
  case_bool_decide; [|by rewrite lookup_empty].
  rewrite lookup_insert_ne by done. rewrite lookup_insert_ne by done.
  rewrite lookup_insert_ne by done. by rewrite lookup_empty.
Qed.

(** X12. The store holds the last pass and nothing else. After any
    sequence of passes from [__init__], a further pass leaves exactly
    the three entries it wrote when its timestamp is within 6 hours of
    the cleaning clock, and the empty store otherwise; every entry
    left carries the timestamp of this pass, so no sample of an earlier
    pass is ever kept, and the cluster and node samples read back are
    those of this pass. *)
Theorem store_holds_last_pass (ticks : list Tick.t) (tick : Tick.t) :
  let self := _collect_all_metrics (run ticks __init__) tick in
  (Tick.clean_time tick - 6 * 3600 * 1000000 <= Tick.timestamp tick ->
   _collected_metrics self = fresh_store tick
   /\ get_cluster self = Tick.cluster_metrics tick
   /\ get_nodes self = Tick.node_metrics tick
   /\ get_pods self = Tick.pod_metrics tick)
  /\ (Tick.timestamp tick < Tick.clean_time tick - 6 * 3600 * 1000000 ->
      _collected_metrics self = ∅)
  /\ (forall key entry,
        _collected_metrics self !! key = Some entry ->
        Entry.timestamp entry = Tick.timestamp tick).
Proof.
  intros self.
  pose proof (collect_all_metrics_store ticks tick) as Hstore. fold self in Hstore.
  split; [|split].
  - intros Hfresh. rewrite bool_decide_true in Hstore by done.
    unfold get_cluster, get_nodes, get_pods. rewrite Hstore. by repeat split.
  - intros Hstale. rewrite bool_decide_false in Hstore by lia. exact Hstore.
  - intros key entry. rewrite Hstore. case_bool_decide; [|by rewrite lookup_empty].
    unfold fresh_store. intros Hk.
    apply lookup_insert_Some in Hk as [[_ <-]|[_ Hk]]; [done|].
    apply lookup_insert_Some in Hk as [[_ <-]|[_ Hk]]; [done|].
    apply lookup_insert_Some in Hk as [[_ <-]|[_ Hk]]; [done|].
    by rewrite lookup_empty in Hk.
Qed.

Lemma max_constant (t0 : Z) (l : list Z) :
  l <> [] -> Forall (fun x => x = t0) l -> max l = Ok t0.
Proof.
  intros Hne Hall. destruct l as [|x l]; [done|].
  apply Forall_cons in Hall as [-> Hall]. unfold max. f_equal. clear Hne.
  induction Hall as [|y l -> _ IH]; [done|]. cbn [foldl]. by rewrite Z.max_id.
Qed.

(** The age is a float: the seconds are the float nearest to the
    microseconds over [10**6], the minutes the float nearest to the
    seconds over 60. One microsecond reads as 1.6666666666666667e-08
    minutes, two minutes read as 2.0. *)
Lemma age_minutes_rounds :
  age_minutes 1 = 1.6666666666666667e-08%float
  /\ age_minutes 120000000 = 2%float.
Proof. split; vm_compute; reflexivity. Qed.

(** X13. Right after a pass the summary reports that pass. When the
    timestamp of the pass is within 6 hours of the cleaning clock, the
    summary shows the cluster metrics of the pass, the numbers of its
    node and pod entries, and as age the float that
    [total_seconds() / 60] gives for the time from the timestamp of
    the pass to the clock reading of the call; the count of recent
    anomalies is at most 100. *)
Theorem summary_after_pass (ticks : list Tick.t) (tick : Tick.t) (utcnow : nat -> Z) :
  Tick.clean_time tick - 6 * 3600 * 1000000 <= Tick.timestamp tick ->
  let self := _collect_all_metrics (run ticks __init__) tick in
  let s := get_metrics_summary self utcnow in
  Summary.cluster_metrics s = Tick.cluster_metrics tick
  /\ Summary.node_count s = Z.of_nat (length (Tick.node_metrics tick))
  /\ Summary.pod_count s = Z.of_nat (length (Tick.pod_metrics tick))
  /\ Summary.metrics_age_minutes s
     = Py.Float (age_minutes (utcnow (1 + length (_anomalies self))%nat
                              - Tick.timestamp tick))
  /\ 0 <= Summary.recent_anomalies s <= 100.
Proof.
  intros Hfresh self s.
  assert (Hstore : _collected_metrics self = fresh_store tick).
  { subst self. rewrite collect_all_metrics_store. by rewrite bool_decide_true. }
  subst s. unfold get_metrics_summary.
  cbn [Summary.cluster_metrics Summary.node_count Summary.pod_count
       Summary.metrics_age_minutes Summary.recent_anomalies].
  unfold get_cluster, get_nodes, get_pods, _get_metrics_age_minutes.
  rewrite Hstore. split; [reflexivity|]. split; [reflexivity|].
  split; [reflexivity|]. split.
  - rewrite decide_False.
    2: { intros Hempty. apply (f_equal (fun m => m !! "pods")) in Hempty.
         unfold fresh_store in Hempty.
         by rewrite lookup_insert_eq, lookup_empty in Hempty. }
    rewrite (max_constant (Tick.timestamp tick)); [done| |].
    + intros Hnil. apply fmap_nil_inv, fmap_nil_inv in Hnil.
      apply map_to_list_empty_iff in Hnil.
      apply (f_equal (fun m => m !! "pods")) in Hnil. unfold fresh_store in Hnil.
      by rewrite lookup_insert_eq, lookup_empty in Hnil.
    + apply Forall_forall. intros x Hx.
      apply list_elem_of_fmap in Hx as (e & -> & He).
      apply list_elem_of_fmap in He as ([k e'] & -> & Hke).
      apply elem_of_map_to_list in Hke. unfold fresh_store in Hke. simpl.
      apply lookup_insert_Some in Hke as [[_ <-]|[_ Hke]]; [done|].
      apply lookup_insert_Some in Hke as [[_ <-]|[_ Hke]]; [done|].
      apply lookup_insert_Some in Hke as [[_ <-]|[_ Hke]]; [done|].
      by rewrite lookup_empty in Hke.
  - unfold len. split; [lia|].
    match goal with |- Z.of_nat (length (filter ?P ?l)) <= _ =>
      pose proof (length_filter P l) as Hle end.
    rewrite length_imap in Hle.
    assert (Hlog : (length (_anomalies self) <= 100)%nat).
    { subst self. rewrite collect_all_metrics_log.
      match goal with |- (length (last_n 100 ?l) <= _)%nat =>
        destruct (last_n_suffix 100 l) as [_ ->] end. lia. }
    lia.
Qed.

Lemma summary_after_pass_witness :
  let s := get_metrics_summary (_collect_all_metrics __init__ example_tick)
             (fun _ => example_now + 120000000) in
  Summary.node_count s = 1
  /\ Summary.metrics_age_minutes s = Py.Float 2%float.
Proof.
  assert (Hfresh : Tick.clean_time example_tick - 6 * 3600 * 1000000
                   <= Tick.timestamp example_tick) by (vm_compute; discriminate).
  destruct (summary_after_pass [] example_tick (fun _ => example_now + 120000000)
              Hfresh) as (_ & Hnodes & _ & Hage & _).
  split; [exact Hnodes|]. etrans; [exact Hage|]. reflexivity.
Defined.
End LastPass.

(** ** More on the lifecycle *)

Section LifecycleFacts.
Import MetricsCollector.

Lemma stopped_snoc (woken : nat -> bool) (loop : Asyncio.Loop)
    (s : Asyncio.TaskState) :
  stopped (length loop) woken (loop ++ [s]) = imap (settle woken) loop ++ [Asyncio.Cancelled].
Proof.
  unfold stopped. rewrite imap_app. f_equal.
  - apply imap_ext. intros i x Hx. apply lookup_lt_Some in Hx.
    by rewrite decide_False by lia.
  - simpl. by rewrite decide_True by lia.
Qed.

(** X14. [stop] cancels the task of the latest [start] and no other,
    and it makes no pass. After [start] then [stop] the new task is
    cancelled; after two [start]s and one [stop] the task of the first
    [start] is not cancelled: it runs while [stop] waits, finds the
    flag down and returns. The earlier tasks of the loop settle the
    same way: one that never ran returns, a sleeping one returns if it
    wakes during the wait and sleeps on otherwise, one that is done
    stays. After [stop] no task is left that never ran; [stop] on a
    collector that holds no task leaves the loop as it is; and [stop]
    never touches the collected metrics or the anomaly log. *)
Theorem stop_cancels_latest_task_only (s : t * Asyncio.Loop)
    (woken : nat -> bool) (tick : nat -> Tick.t) :
  (stop_call woken tick (start_call s)).2
  = imap (settle woken) s.2 ++ [Asyncio.Cancelled]
  /\ (stop_call woken tick (start_call (start_call s))).2
     = imap (settle woken) s.2 ++ [Asyncio.Finished; Asyncio.Cancelled]
  /\ Forall (fun state => state <> Asyncio.Created)
       (stop_call woken tick (start_call s)).2
  /\ (_collection_task s.1 = None -> (stop_call woken tick s).2 = s.2)
  /\ _is_running (stop_call woken tick s).1 = false
  /\ _collected_metrics (stop_call woken tick s).1 = _collected_metrics s.1
  /\ _anomalies (stop_call woken tick s).1 = _anomalies s.1.
Proof.
  destruct s as [self loop]. unfold stop_call, start_call. cbn [fst snd].
  rewrite !stop_eq. unfold start.
  cbn [fst snd Asyncio.create_task _collection_task _is_running
       _collected_metrics _anomalies].
  assert (H1 : (loop ++ [Asyncio.Created]) !! length loop = Some Asyncio.Created).
  { rewrite lookup_app_r by lia. by rewrite Nat.sub_diag. }
  assert (H2 : ((loop ++ [Asyncio.Created]) ++ [Asyncio.Created])
                 !! length (loop ++ [Asyncio.Created]) = Some Asyncio.Created).
  { rewrite lookup_app_r by lia. by rewrite Nat.sub_diag. }
  rewrite H1, H2. cbn [Asyncio.done].
  rewrite !stopped_snoc.
  split; [done|]. split.
  { rewrite imap_app, <- app_assoc. do 2 f_equal. }
  split.
  { apply Forall_app. split; [|by repeat constructor].
    apply Forall_forall. intros state Hin.
    apply elem_of_lookup_imap in Hin as (i & x & -> & _).
    destruct x; simpl; try done. by destruct (woken i). }
  split; [by intros ->|]. done.
Qed.
End LifecycleFacts.

(** ** Client code: trace durations and firing alerts *)

Section ClientFacts.
Import Py.

Lemma foldl_max_ge (l : list Z) (x0 : Z) :
  x0 <= foldl Z.max x0 l /\ forall x, x ∈ l -> x <= foldl Z.max x0 l.
Proof.
  revert x0. induction l as [|y l IH]; intros x0; simpl.
  - split; [lia|]. by intros x ?%elem_of_nil.
  - destruct (IH (Z.max x0 y)) as [H0 Hl]. split; [lia|].
    intros x [->|Hx]%elem_of_cons; [lia|by apply Hl].
Qed.

Lemma foldl_min_le (l : list Z) (x0 : Z) :
  foldl Z.min x0 l <= x0 /\ forall x, x ∈ l -> foldl Z.min x0 l <= x.
Proof.
  revert x0. induction l as [|y l IH]; intros x0; simpl.
  - split; [lia|]. by intros x ?%elem_of_nil.
  - destruct (IH (Z.min x0 y)) as [H0 Hl]. split; [lia|].
    intros x [->|Hx]%elem_of_cons; [lia|by apply Hl].
Qed.

(** X15. The duration of a trace: never an exception; 0 for a trace
    without spans; for spans of non-negative duration it is not
    negative and at least the duration of every span; for one span it
    is the duration of that span. *)
Theorem calculate_trace_duration_bounds (spans : option (list JaegerClientImpl.Span.t)) :
  exists d,
    JaegerClientImpl._calculate_trace_duration spans = Ok d
    /\ (spans = None \/ spans = Some [] -> d = 0)
    /\ (forall l,
          spans = Some l ->
          Forall (fun s => 0 <= default 0 (JaegerClientImpl.Span.duration s)) l ->
          0 <= d
          /\ forall s, s ∈ l -> default 0 (JaegerClientImpl.Span.duration s) <= d)
    /\ (forall s, spans = Some [s] -> d = default 0 (JaegerClientImpl.Span.duration s)).
Proof.
  destruct spans as [[|s0 l]|].
  - exists 0. split; [done|]. split; [done|]. split; [|done].
    intros l [= <-] _. split; [done|]. by intros s ?%elem_of_nil.
  - exists (foldl Z.max
              (default 0 (JaegerClientImpl.Span.startTime s0)
               + default 0 (JaegerClientImpl.Span.duration s0))
              ((fun span => default 0 (JaegerClientImpl.Span.startTime span)
                            + default 0 (JaegerClientImpl.Span.duration span)) <$> l)
            - foldl Z.min (default 0 (JaegerClientImpl.Span.startTime s0))
                ((fun span => default 0 (JaegerClientImpl.Span.startTime span)) <$> l)).
    split; [reflexivity|]. split; [by intros [|]|]. split.
    + intros l' [= <-] Hdur.
      set (starts := (fun span => default 0 (JaegerClientImpl.Span.startTime span))
                       <$> l).
      set (ends := (fun span => default 0 (JaegerClientImpl.Span.startTime span)
                                + default 0 (JaegerClientImpl.Span.duration span))
                     <$> l).
      set (st0 := default 0 (JaegerClientImpl.Span.startTime s0)).
      set (du0 := default 0 (JaegerClientImpl.Span.duration s0)).
      destruct (foldl_max_ge ends (st0 + du0)) as [Hmax0 Hmax].
      destruct (foldl_min_le starts st0) as [Hmin0 Hmin].
      assert (Hall : forall s, s ∈ s0 :: l ->
                default 0 (JaegerClientImpl.Span.duration s)
                <= foldl Z.max (st0 + du0) ends - foldl Z.min st0 starts).
      { intros s [->|Hs]%elem_of_cons; [fold du0; lia|].
        assert (default 0 (JaegerClientImpl.Span.startTime s)
                + default 0 (JaegerClientImpl.Span.duration s)
                <= foldl Z.max (st0 + du0) ends)
          by (apply Hmax, list_elem_of_fmap; by exists s).
        assert (foldl Z.min st0 starts
                <= default 0 (JaegerClientImpl.Span.startTime s))
          by (apply Hmin, list_elem_of_fmap; by exists s).
        lia. }
      split; [|exact Hall].
      apply Forall_cons in Hdur as [Hd0 _].
      specialize (Hall s0 (list_elem_of_here _ _)). lia.
    + intros s [= <- ->]. simpl. lia.
  - exists 0. split; [done|]. split; [done|]. split; [|done]. done.
Qed.

Lemma alert_list_loop (alerts : list PromResult.t)
    (acc : list PrometheusClient.Alert.t) :
  foldl (fun alert_list alert =>
           alert_list ++ [PrometheusClient.Alert.mk
                            (PromResult.metric alert !! "alertname")
                            (PromResult.metric alert !! "severity")
                            (PromResult.metric alert !! "instance")]) acc alerts
  = acc ++ (alert_of <$> alerts).
Proof.
  revert acc. induction alerts as [|a alerts IH]; intros acc; simpl.
  - by rewrite app_nil_r.
  - rewrite IH. by rewrite <- app_assoc.
Qed.

Lemma check_alerts_eq (query : string -> Exc (list PromResult.t)) :
  PrometheusClientImpl.check_alerts query
  = match query alerts_query with
    | Ok raw => Ok (alert_of <$> raw)
    | Raise e => Raise e
    end.
Proof.
  unfold PrometheusClientImpl.check_alerts. fold alerts_query.
  destruct (query alerts_query) as [raw|e]; [|done].
  cbn [mbind Exc_bind try_except]. by rewrite alert_list_loop.
Qed.
End ClientFacts.

Section AlertsEndToEnd.
Import Py IncidentAnalyzer.
Context `{PyFormat}.

(** X16. From the query to the findings: [check_alerts] turns the
    firing series into alerts one for one and in order, reading name,
    severity and instance from the labels, and raises when the query
    raises. So a firing series without a [severity] label reaches the
    analyzer as an alert without severity and cuts the list there: the
    findings are those of the series before it, one each. *)
Theorem firing_series_without_severity (self : IncidentAnalyzer.t)
    (query : string -> Exc (list PromResult.t)) pre r post :
  PrometheusClient.check_alerts (prometheus_client self)
    = PrometheusClientImpl.check_alerts query ->
  query alerts_query = Ok (pre ++ r :: post) ->
  Forall (fun x => is_Some (PromResult.metric x !! "severity")) pre ->
  PromResult.metric r !! "severity" = None ->
  PrometheusClientImpl.check_alerts query = Ok (alert_of <$> pre ++ r :: post)
  /\ exists rest,
       _analyze_metrics self = Ok (alert_findings (alert_of <$> pre) ++ rest)
       /\ length (alert_findings (alert_of <$> pre)) = length pre
       /\ rest = match PrometheusClient.get_cluster_metrics (prometheus_client self) with
                 | Ok node_metrics => node_metric_findings node_metrics
                 | Raise _ => []
                 end.
Proof.
  intros Hclient Hquery Hpre Hr.
  assert (Halerts : PrometheusClientImpl.check_alerts query
                    = Ok (alert_of <$> pre ++ r :: post))
    by (by rewrite check_alerts_eq, Hquery).
  split; [exact Halerts|].
  rewrite Halerts, fmap_app, fmap_cons in Hclient.
  assert (Hlabelled : Forall (fun a => is_Some (PrometheusClient.Alert.severity a))
                        (alert_of <$> pre)).
  { apply Forall_fmap. eapply Forall_impl; [exact Hpre|]. by intros x Hx. }
  eexists. split; [|split; [|reflexivity]].
  - rewrite analyze_metrics_eq, Hclient.
    by rewrite (alert_findings_cut (alert_of <$> pre) (alert_of r)
                  (alert_of <$> post) Hlabelled Hr).
  - by rewrite alert_findings_labelled, length_fmap.
Qed.
End AlertsEndToEnd.

Lemma firing_series_without_severity_witness :
  PrometheusClientImpl.check_alerts example_alerts_query
  = Py.Ok [alert_of example_firing_labelled; alert_of example_firing_unlabelled]
  /\ exists rest,
       @IncidentAnalyzer._analyze_metrics example_format example_analyzer_firing
       = Py.Ok (alert_findings [alert_of example_firing_labelled] ++ rest)
       /\ rest = [].
Proof.
  destruct (@firing_series_without_severity example_format example_analyzer_firing
              example_alerts_query [example_firing_labelled]
              example_firing_unlabelled [])
    as (Halerts & rest & Hr & Hlen & Hrest).
  - reflexivity.
  - reflexivity.
  - repeat constructor. by eexists.
  - reflexivity.
  - split; [exact Halerts|]. exists rest. split; [exact Hr|exact Hrest].
Defined.

(** ** The collectors *)

Section CollectorFacts.
Import Py MetricsCollector.
Context `{PyParse}.

Lemma for_exc_inv {A S} (I : S -> Prop) (l : list A) (body : S -> A -> Exc S) :
  (forall s x s', x ∈ l -> I s -> body s x = Ok s' -> I s') ->
  forall s r, I s -> for_exc l body s = Ok r -> I r.
Proof.
  induction l as [|x l IH]; intros Hbody s r Hs; cbn [for_exc].
  - by intros [= <-].
  - destruct (body s x) as [s'|e] eqn:Hx; cbn [mbind Exc_bind]; [|done].
    apply IH; [|eapply Hbody; [by left|done|done]].
    intros s1 y s2 Hy. apply Hbody. by right.
Qed.

Lemma dict_mem_elem {V} (key : string) (d : list (string * V)) :
  dict_mem key d = true <-> key ∈ d.*1.
Proof.
  induction d as [|[k v] d IH]; cbn [dict_mem].
  - split; [done|]. by intros ?%elem_of_nil.
  - rewrite fmap_cons. cbn [fst]. destruct (decide (k = key)) as [->|Hne].
    + split; [intros _; by left|done].
    + rewrite IH. split; [by right|].
      intros [?|?]%elem_of_cons; [congruence|done].
Qed.

Lemma dict_alter_keys {V} (f : V -> V) (key : string) (d : list (string * V)) :
  (dict_alter f key d).*1 = d.*1.
Proof.
  induction d as [|[k v] d IH]; [done|]. cbn [dict_alter].
  destruct (decide (k = key)); rewrite !fmap_cons; [done|]. by rewrite IH.
Qed.

Lemma dict_alter_Forall {V} (Q : string * V -> Prop) (f : V -> V) (key : string)
    (d : list (string * V)) :
  (forall v, Q (key, v) -> Q (key, f v)) ->
  Forall Q d -> Forall Q (dict_alter f key d).
Proof.
  intros Hf. induction 1 as [|[k v] d Hkv Hd IH]; [constructor|].
  cbn [dict_alter]. destruct (decide (k = key)) as [->|Hne].
  - constructor; [by apply Hf|done].
  - by constructor.
Qed.

Lemma dict_alter_new {V} (f : V -> V) (key : string) (v : V)
    (d : list (string * V)) :
  key ∉ d.*1 -> dict_alter f key (d ++ [(key, v)]) = d ++ [(key, f v)].
Proof.
  induction d as [|[k w] d IH]; intros Hnin.
  - simpl. by rewrite decide_True.
  - rewrite fmap_cons in Hnin. cbn [fst] in Hnin.
    apply not_elem_of_cons in Hnin as [Hne Hnin]. cbn [app dict_alter].
    rewrite decide_False by done. by rewrite IH.
Qed.

Lemma split_colon_0_idemp (s : string) :
  split_colon_0 (split_colon_0 s) = split_colon_0 s.
Proof.
  induction s as [|c s IH]; [done|]. cbn [split_colon_0].
  destruct (decide (c = Ascii.ascii_of_nat 58)) as [Hc|Hc]; [done|].
  cbn [split_colon_0]. rewrite decide_False by done. by rewrite IH.
Qed.

(** The step of the first loop of a collector: the entry of [key] is
    created when missing and then altered. *)
Lemma create_then_alter {V} (Q : string * V -> Prop) (f : V -> V) (key : string)
    (v0 : V) (d : list (string * V)) :
  NoDup d.*1 -> Forall Q d ->
  (forall v, Q (key, v) -> Q (key, f v)) -> Q (key, f v0) ->
  let d' := dict_alter f key
              (if dict_mem key d then d else d ++ [(key, v0)]) in
  NoDup d'.*1 /\ Forall Q d'.
Proof.
  intros Hnd Hall Hf Hnew. cbv zeta.
  destruct (dict_mem key d) eqn:Hmem.
  - rewrite dict_alter_keys. split; [done|]. by apply dict_alter_Forall.
  - assert (Hnin : key ∉ d.*1).
    { intros Hin. apply dict_mem_elem in Hin. congruence. }
    rewrite dict_alter_new by done. split.
    + rewrite fmap_app. apply NoDup_app. split; [done|]. split.
      * intros x Hx Hx'. simpl in Hx'. apply list_elem_of_singleton in Hx'.
        by subst.
      * apply NoDup_singleton.
    + apply Forall_app. split; [done|]. by constructor.
Qed.


(** X17. The node dict of [_collect_node_metrics]. Its keys are
    distinct, not empty and without a port; every entry holds a CPU
    value; when the CPU query succeeds every key is the host of one of
    its results, so a memory or disk sample of a host without a CPU
    sample is dropped; and when any of the three queries raises, the
    dict is empty, whatever the other two returned. *)
Theorem collect_node_metrics_entries (query : string -> Exc (list PromResult.t)) :
  let node_metrics := _collect_node_metrics query in
  NoDup node_metrics.*1
  /\ Forall node_entry_ok node_metrics
  /\ (forall cpu_results,
        query node_cpu_query = Ok cpu_results ->
        forall key, key ∈ node_metrics.*1 ->
        exists r, r ∈ cpu_results /\ host_of r = key)
  /\ (is_raise (query node_cpu_query) \/ is_raise (query node_memory_query)
      \/ is_raise (query node_disk_query) -> node_metrics = []).
Proof.
  cbv zeta. unfold _collect_node_metrics. cbv zeta.
  fold node_cpu_query node_memory_query node_disk_query.
  assert (Hnil : NoDup ([] : list (string * NodeMetrics.t)).*1
                 /\ Forall node_entry_ok []
                 /\ (forall cpu_results,
                       query node_cpu_query = Ok cpu_results ->
                       forall key, key ∈ ([] : list (string * NodeMetrics.t)).*1 ->
                       exists r, r ∈ cpu_results /\ host_of r = key)).
  { split; [constructor|]. split; [constructor|].
    intros cpu_results _ key Hkey. by apply elem_of_nil in Hkey. }
  destruct (query node_cpu_query) as [cpu_results|e1] eqn:Hq1;
    cbn [mbind Exc_bind]; [|by destruct Hnil as (? & ? & ?)].
  destruct (query node_memory_query) as [memory_results|e2] eqn:Hq2;
    cbn [mbind Exc_bind]; [|by destruct Hnil as (? & ? & ?)].
  destruct (query node_disk_query) as [disk_results|e3] eqn:Hq3;
    cbn [mbind Exc_bind]; [|by destruct Hnil as (? & ? & ?)].
  set (Q := fun kv : string * NodeMetrics.t =>
              node_entry_ok kv /\ exists r, r ∈ cpu_results /\ host_of r = kv.1).
  set (I := fun d : list (string * NodeMetrics.t) => NoDup d.*1 /\ Forall Q d).
  assert (Hfinal : forall d, I d ->
            NoDup d.*1 /\ Forall node_entry_ok d
            /\ (forall cpu_results0,
                  Ok cpu_results = Ok cpu_results0 ->
                  forall key, key ∈ d.*1 ->
                  exists r, r ∈ cpu_results0 /\ host_of r = key)
            /\ (False \/ False \/ False -> d = [])).
  { intros d [Hnd Hall]. split; [done|]. split.
    - eapply Forall_impl; [exact Hall|]. by intros kv [Hok _].
    - split; [|by intros [[]|[[]|[]]]].
      intros ? [= <-] key Hkey.
      apply list_elem_of_fmap in Hkey as ([k v] & -> & Hkv).
      by destruct (proj1 (Forall_forall _ _) Hall _ Hkv) as [_ Hr]. }
  match goal with |- context [for_exc cpu_results ?body []] =>
    destruct (for_exc cpu_results body []) as [d1|e] eqn:H1 end;
    cbn [mbind Exc_bind]; [|by apply Hfinal; split; constructor].
  apply for_exc_inv with (I := I) in H1; [| |by split; constructor].
  2: { intros d r d' Hr [Hnd Hall]. fold (host_of r).
       destruct (decide (host_of r <> "")) as [Hne|_]; [|by intros [= <-]].
       destruct (PromResult.value r) as [sv|]; cbn [getitem mbind Exc_bind]; [|done].
       destruct (py_float sv) as [v|]; cbn [mbind Exc_bind]; [|done].
       intros [= <-]. apply create_then_alter; [done|done| |].
       - intros m [(H1' & H2' & _) Hr']. split; [|done]. by repeat split.
       - split; [|by exists r]. split; [done|]. split; [|by eexists].
         apply split_colon_0_idemp. }
  match goal with |- context [for_exc memory_results ?body d1] =>
    destruct (for_exc memory_results body d1) as [d2|e] eqn:H2 end;
    cbn [mbind Exc_bind]; [|by apply Hfinal; split; constructor].
  apply for_exc_inv with (I := I) in H2; [| |done].
  2: { intros d r d' Hr [Hnd Hall]. fold (host_of r).
       destruct (bool_decide (host_of r <> "") && dict_mem (host_of r) d);
         [|by intros [= <-]].
       destruct (PromResult.value r) as [sv|]; cbn [getitem mbind Exc_bind]; [|done].
       destruct (py_float sv) as [v|]; cbn [mbind Exc_bind]; [|done].
       intros [= <-]. split; [by rewrite dict_alter_keys|].
       apply dict_alter_Forall; [|done].
       intros m [(H1' & H2' & H3') Hr']. split; [|done]. by repeat split. }
  match goal with |- context [for_exc disk_results ?body d2] =>
    destruct (for_exc disk_results body d2) as [d3|e] eqn:H3 end;
    cbn [mbind Exc_bind]; [|by apply Hfinal; split; constructor].
  apply for_exc_inv with (I := I) in H3; [| |done].
  2: { intros d r d' Hr [Hnd Hall]. fold (host_of r).
       destruct (bool_decide (host_of r <> "") && dict_mem (host_of r) d);
         [|by intros [= <-]].
       destruct (PromResult.value r) as [sv|]; cbn [getitem mbind Exc_bind]; [|done].
       destruct (py_float sv) as [v|]; cbn [mbind Exc_bind]; [|done].
       intros [= <-]. split; [by rewrite dict_alter_keys|].
       apply dict_alter_Forall; [|done].
       intros m [(H1' & H2' & H3') Hr']. split; [|done]. by repeat split. }
  by apply Hfinal.
Qed.
End CollectorFacts.

Section ClusterCollectorFacts.
Import Py MetricsCollector.
Context `{PyParse}.

Lemma truthy_inv (x : option string) :
  truthy x = true -> exists s, x = Some s /\ s <> "".
Proof.
  destruct x as [s|]; simpl; [|done]. intros Hs%bool_decide_eq_true. by exists s.
Qed.

(** X18. The pod dict of [_collect_pod_metrics]. Its keys are distinct;
    every entry has a namespace and a pod name that are not empty, its
    key is "<namespace>/<pod>", and it holds a CPU value or a memory
    value; when either of the two queries raises, the dict is empty. *)
Theorem collect_pod_metrics_entries (query : string -> Exc (list PromResult.t)) :
  let pod_metrics := _collect_pod_metrics query in
  NoDup pod_metrics.*1
  /\ Forall pod_entry_ok pod_metrics
  /\ (is_raise (query pod_cpu_query) \/ is_raise (query pod_memory_query) ->
      pod_metrics = []).
Proof.
  cbv zeta. unfold _collect_pod_metrics. cbv zeta.
  fold pod_cpu_query pod_memory_query.
  assert (Hnil : NoDup ([] : list (string * PodMetrics.t)).*1
                 /\ Forall pod_entry_ok []) by (split; constructor).
  destruct (query pod_cpu_query) as [cpu_results|e1];
    cbn [mbind Exc_bind]; [|by destruct Hnil].
  destruct (query pod_memory_query) as [memory_results|e2];
    cbn [mbind Exc_bind]; [|by destruct Hnil].
  set (I := fun d : list (string * PodMetrics.t) =>
              NoDup d.*1 /\ Forall pod_entry_ok d).
  assert (Hfinal : forall d, I d ->
            NoDup d.*1 /\ Forall pod_entry_ok d /\ (False \/ False -> d = [])).
  { intros d [Hnd Hall]. split; [done|]. split; [done|]. by intros [[]|[]]. }
  match goal with |- context [for_exc cpu_results ?body []] =>
    destruct (for_exc cpu_results body []) as [d1|e] eqn:H1 end;
    cbn [mbind Exc_bind]; [|by apply Hfinal].
  apply for_exc_inv with (I := I) in H1; [| |done].
  2: { intros d r d' Hr [Hnd Hall].
       destruct (truthy (PromResult.metric r !! "pod")) eqn:Hp; [|by intros [= <-]].
       destruct (truthy (PromResult.metric r !! "namespace")) eqn:Hn;
         [|by intros [= <-]].
       apply truthy_inv in Hp as (pod & -> & Hpod).
       apply truthy_inv in Hn as (ns & -> & Hns). cbn [andb default].
       destruct (PromResult.value r) as [sv|]; cbn [getitem mbind Exc_bind]; [|done].
       destruct (py_float sv) as [v|]; cbn [mbind Exc_bind]; [|done].
       intros [= <-]. apply create_then_alter; [done|done| |].
       - intros m (H1' & H2' & H3' & _). repeat split; try done. left. by eexists.
       - repeat split; try done. left. by eexists. }
  match goal with |- context [for_exc memory_results ?body d1] =>
    destruct (for_exc memory_results body d1) as [d2|e] eqn:H2 end;
    cbn [mbind Exc_bind]; [|by apply Hfinal].
  apply for_exc_inv with (I := I) in H2; [| |done].
  2: { intros d r d' Hr [Hnd Hall].
       destruct (truthy (PromResult.metric r !! "pod")) eqn:Hp; [|by intros [= <-]].
       destruct (truthy (PromResult.metric r !! "namespace")) eqn:Hn;
         [|by intros [= <-]].
       apply truthy_inv in Hp as (pod & -> & Hpod).
       apply truthy_inv in Hn as (ns & -> & Hns). cbn [andb default].
       destruct (PromResult.value r) as [sv|]; cbn [getitem mbind Exc_bind]; [|done].
       destruct (py_float sv) as [v|]; cbn [mbind Exc_bind]; [|done].
       intros [= <-]. apply create_then_alter; [done|done| |].
       - intros m (H1' & H2' & H3' & _). repeat split; try done. right. by eexists.
       - repeat split; try done. right. by eexists. }
  by apply Hfinal.
Qed.

(** Each value of the cluster dict, from the outcome of its own call. *)
Lemma collect_cluster_metrics_fields (query : string -> Exc (list PromResult.t))
    (k8s_client : KubernetesClient.t) :
  let cm := _collect_cluster_metrics query k8s_client in
  ClusterMetrics.cpu_usage_percent cm
    = stored_float (first_sample (query cluster_cpu_query))
  /\ ClusterMetrics.memory_usage_percent cm
     = stored_float (first_sample (query cluster_memory_query))
  /\ ClusterMetrics.total_pods cm
     = stored_int (first_sample (query cluster_pod_query))
  /\ ClusterMetrics.total_nodes cm
     = match KubernetesClient.get_nodes k8s_client with
       | Ok nodes => Some (len nodes)
       | Raise _ => None
       end
  /\ ClusterMetrics.ready_nodes cm
     = match KubernetesClient.get_nodes k8s_client with
       | Ok nodes =>
           Some (len (filter (fun node => KubernetesClient.Node.status node = "Ready")
                        nodes))
       | Raise _ => None
       end.
Proof.
  cbv zeta. unfold _collect_cluster_metrics, try_update. cbv zeta.
  fold cluster_cpu_query cluster_memory_query cluster_pod_query.
  unfold stored_float, stored_int, first_sample.
  destruct (query cluster_cpu_query) as [[|r1 ?]|?]; cbn [mbind Exc_bind];
    [|destruct (PromResult.value r1) as [s1|]; cbn [getitem mbind Exc_bind];
      [destruct (py_float s1); cbn [mbind Exc_bind]|]|];
    (destruct (query cluster_memory_query) as [[|r2 ?]|?]; cbn [mbind Exc_bind];
     [|destruct (PromResult.value r2) as [s2|]; cbn [getitem mbind Exc_bind];
       [destruct (py_float s2); cbn [mbind Exc_bind]|]|]);
    (destruct (query cluster_pod_query) as [[|r3 ?]|?]; cbn [mbind Exc_bind];
     [|destruct (PromResult.value r3) as [s3|]; cbn [getitem mbind Exc_bind];
       [destruct (py_int s3); cbn [mbind Exc_bind]|]|]);
    destruct (KubernetesClient.get_nodes k8s_client); cbn [mbind Exc_bind];
    by repeat split.
Qed.

Lemma filter_shorter_iff {A} (P : A -> Prop) `{!forall x, Decision (P x)}
    (l : list A) :
  (length (filter P l) < length l)%nat <-> Exists (fun x => ~ P x) l.
Proof.
  induction l as [|x l IH].
  - simpl. split; [lia|]. by intros ?%Exists_nil.
  - rewrite filter_cons, Exists_cons. pose proof (length_filter P l).
    destruct (decide (P x)); simpl.
    + rewrite <- IH. split; [intros; right; lia|]. intros [?|?]; [done|lia].
    + split; [by left|]. lia.
Qed.

(** X19. The values of the cluster dict fail apart. Each of the five
    values comes from the outcome of its own call alone: a query that
    raises, returns no series or a sample that does not parse leaves
    its own key out and no other; the two node counts are there
    exactly when the node list could be fetched, and the count of
    ready nodes is then between 0 and the total. *)
Theorem collect_cluster_metrics_independent
    (query query' : string -> Exc (list PromResult.t))
    (k8s_client k8s_client' : KubernetesClient.t) :
  let cm := _collect_cluster_metrics query k8s_client in
  let cm' := _collect_cluster_metrics query' k8s_client' in
  (query' cluster_cpu_query = query cluster_cpu_query ->
   ClusterMetrics.cpu_usage_percent cm' = ClusterMetrics.cpu_usage_percent cm)
  /\ (query' cluster_memory_query = query cluster_memory_query ->
      ClusterMetrics.memory_usage_percent cm' = ClusterMetrics.memory_usage_percent cm)
  /\ (query' cluster_pod_query = query cluster_pod_query ->
      ClusterMetrics.total_pods cm' = ClusterMetrics.total_pods cm)
  /\ (KubernetesClient.get_nodes k8s_client' = KubernetesClient.get_nodes k8s_client ->
      ClusterMetrics.total_nodes cm' = ClusterMetrics.total_nodes cm
      /\ ClusterMetrics.ready_nodes cm' = ClusterMetrics.ready_nodes cm)
  /\ (is_raise (query cluster_cpu_query) -> ClusterMetrics.cpu_usage_percent cm = None)
  /\ (is_raise (query cluster_memory_query) ->
      ClusterMetrics.memory_usage_percent cm = None)
  /\ (is_raise (query cluster_pod_query) -> ClusterMetrics.total_pods cm = None)
  /\ (is_Some (ClusterMetrics.total_nodes cm)
      <-> exists nodes, KubernetesClient.get_nodes k8s_client = Ok nodes)
  /\ (is_Some (ClusterMetrics.ready_nodes cm)
      <-> exists nodes, KubernetesClient.get_nodes k8s_client = Ok nodes)
  /\ (forall r t,
        ClusterMetrics.ready_nodes cm = Some r ->
        ClusterMetrics.total_nodes cm = Some t -> 0 <= r <= t).
Proof.
  intros cm cm'.
  destruct (collect_cluster_metrics_fields query k8s_client)
    as (Hcpu & Hmem & Hpods & Htotal & Hready).
  destruct (collect_cluster_metrics_fields query' k8s_client')
    as (Hcpu' & Hmem' & Hpods' & Htotal' & Hready').
  fold cm in Hcpu, Hmem, Hpods, Htotal, Hready.
  fold cm' in Hcpu', Hmem', Hpods', Htotal', Hready'.
  split; [intros Heq; by rewrite Hcpu, Hcpu', Heq|].
  split; [intros Heq; by rewrite Hmem, Hmem', Heq|].
  split; [intros Heq; by rewrite Hpods, Hpods', Heq|].
  split; [intros Heq; by rewrite Htotal, Htotal', Hready, Hready', Heq|].
  split; [rewrite Hcpu; by destruct (query cluster_cpu_query)|].
  split; [rewrite Hmem; by destruct (query cluster_memory_query)|].
  split; [rewrite Hpods; by destruct (query cluster_pod_query)|].
  rewrite Htotal, Hready.
  destruct (KubernetesClient.get_nodes k8s_client) as [nodes|e].
  - split; [split; [by eexists|by eexists]|].
    split; [split; [by eexists|by eexists]|].
    intros r t [= <-] [= <-]. unfold len.
    pose proof (length_filter
                  (fun node => KubernetesClient.Node.status node = "Ready") nodes).
    lia.
  - split; [split; [by intros [? ?]|by intros [? ?]]|].
    split; [split; [by intros [? ?]|by intros [? ?]]|]. done.
Qed.

(** X20. From the node list to the health score. After a pass that
    stored the cluster dict of [_collect_cluster_metrics], the summary
    takes 30 points off exactly when the node list could not be
    fetched or holds a node that is not ready; an empty node list
    takes nothing off. The other two deductions are those for the
    stored CPU and memory percentages. *)
Theorem health_score_after_collect (ticks : list Tick.t)
    (query : string -> Exc (list PromResult.t)) (k8s_client : KubernetesClient.t)
    (timestamp detect_time clean_time : Z) (utcnow : nat -> Z) :
  clean_time - 6 * 3600 * 1000000 <= timestamp ->
  let tick := collect_tick query k8s_client timestamp detect_time clean_time in
  let self := _collect_all_metrics (run ticks __init__) tick in
  let cm := _collect_cluster_metrics query k8s_client in
  Summary.cluster_health_score (get_metrics_summary self utcnow)
  = 100
    - (if PrimFloat.ltb 80%float
            (default 0%float (ClusterMetrics.cpu_usage_percent cm))
       then 20 else 0)
    - (if PrimFloat.ltb 85%float
            (default 0%float (ClusterMetrics.memory_usage_percent cm))
       then 20 else 0)
    - (if nodes_degraded k8s_client then 30 else 0).
Proof.
  intros Hfresh tick self cm.
  assert (Hcluster : get_cluster self = cm).
  { unfold get_cluster. subst self. rewrite collect_all_metrics_store.
    rewrite bool_decide_true by done. unfold fresh_store.
    rewrite lookup_insert_ne by done. rewrite lookup_insert_ne by done.
    by rewrite lookup_insert_eq. }
  rewrite summary_score. cbv zeta. rewrite Hcluster. unfold health_score.
  destruct (collect_cluster_metrics_fields query k8s_client)
    as (_ & _ & _ & Htotal & Hready).
  fold cm in Htotal, Hready. rewrite Htotal, Hready. unfold nodes_degraded.
  destruct (KubernetesClient.get_nodes k8s_client) as [nodes|e];
    cbn [default from_option id].
  - assert (Hiff : bool_decide
                     (len (filter (fun node =>
                                     KubernetesClient.Node.status node = "Ready") nodes)
                      < len nodes)
                   = bool_decide
                       (Exists (fun node => KubernetesClient.Node.status node <> "Ready")
                          nodes)).
    { apply bool_decide_ext. unfold len.
      pose proof (filter_shorter_iff
                    (fun node => KubernetesClient.Node.status node = "Ready") nodes)
        as Hshort.
      rewrite <- Hshort. lia. }
    rewrite Hiff.
    destruct (PrimFloat.ltb 80%float _), (PrimFloat.ltb 85%float _),
      (bool_decide (Exists _ nodes)); lia.
  - rewrite bool_decide_true by lia.
    destruct (PrimFloat.ltb 80%float _), (PrimFloat.ltb 85%float _); lia.
Qed.
End ClusterCollectorFacts.

Lemma health_score_after_collect_witness :
  Summary.cluster_health_score
    (MetricsCollector.get_metrics_summary
       (MetricsCollector._collect_all_metrics MetricsCollector.__init__
          (@MetricsCollector.collect_tick example_parse example_query example_k8s_down
             example_now (example_now + 1000000) (example_now + 60000000)))
       (fun _ => example_now + 120000000))
  = 70.
Proof.
  assert (Hfresh : example_now + 60000000 - 6 * 3600 * 1000000 <= example_now)
    by (vm_compute; discriminate).
  etrans; [exact (@health_score_after_collect example_parse [] example_query
                    example_k8s_down example_now (example_now + 1000000)
                    (example_now + 60000000) (fun _ => example_now + 120000000)
                    Hfresh)|].
  reflexivity.
Defined.
